(** * behind-bars-bot: retrieval adapters, caching and keyword fallback

    A shallow embedding of the three retrieval adapters of
    [src/behind_bars_bot]: [KnowledgeBase] (knowledge_base.py),
    [Context7Search] (context7_tool.py), [GitHubReadmeFetcher]
    (github_readme_tool.py) and of the tool handlers of bot.py.

    Conventions of the embedding.
    - Python [str] is [string]; text is ASCII, so that [lower] keeps lengths
      and whitespace is the ASCII part of [str.isspace].
    - Scores are rationals [Q]: the library's relevance scores are floats and
      only their order is used; the keyword scores are integers.
    - The external collaborators (accuralai-rag, aiohttp, the file system) are
      the fields of one record [World]; each call either returns or raises.
    - An [async] method is a state transformer that returns a value or an
      exception, the final state of the adapter and the trace of the
      operations it performed; an [await] runs the awaited call to its end. *)

From Stdlib Require Import ZArith QArith Ascii String List Lia DecimalString.
From Stdlib Require DecimalPos DecimalZ.
From stdpp Require Import base gmap strings list sorting.

Close Scope Q_scope.
Open Scope Z_scope.

(** ** Python strings *)

Module Py.

Definition lower_char (c : ascii) : ascii :=
  let n := nat_of_ascii c in
  if (Nat.leb 65 n && Nat.leb n 90)%bool then ascii_of_nat (n + 32) else c.

(** [str.lower] *)
Fixpoint lower (s : string) : string :=
  match s with
  | EmptyString => EmptyString
  | String c s' => String (lower_char c) (lower s')
  end.

(** the ASCII characters for which [str.isspace] holds *)
Definition isspace (c : ascii) : bool :=
  let n := nat_of_ascii c in
  ((Nat.leb 9 n && Nat.leb n 13) || (Nat.leb 28 n && Nat.leb n 32))%bool.

Fixpoint lstrip (s : string) : string :=
  match s with
  | EmptyString => EmptyString
  | String c s' => if isspace c then lstrip s' else s
  end.

Fixpoint rev_onto (s acc : string) : string :=
  match s with
  | EmptyString => acc
  | String c s' => rev_onto s' (String c acc)
  end.

Definition rev (s : string) : string := rev_onto s EmptyString.

Definition rstrip (s : string) : string := rev (lstrip (rev s)).

(** [str.strip()] *)
Definition strip (s : string) : string := rstrip (lstrip s).

(** [len(s)] *)
Definition len (s : string) : Z := Z.of_nat (String.length s).

(** truth value of a string: [not s] is [negb (truthy s)] *)
Definition truthy (s : string) : bool :=
  match s with EmptyString => false | _ => true end.

(** [s.startswith(p)] *)
Definition startswith (p s : string) : bool := String.prefix p s.

Fixpoint find_from (sub s : string) (i : Z) : Z :=
  if String.prefix sub s then i
  else match s with
       | EmptyString => -1
       | String _ s' => find_from sub s' (i + 1)
       end.

(** [s.find(sub)]: the lowest index of [sub] in [s], or [-1] *)
Definition find (sub s : string) : Z := find_from sub s 0.

(** [sub in s] *)
Definition contains (sub s : string) : bool := negb (find sub s =? -1).

Fixpoint count_from (sub s : string) (skip : nat) : nat :=
  match s with
  | EmptyString => 0
  | String _ s' =>
      match skip with
      | S k => count_from sub s' k
      | O => if String.prefix sub s
             then S (count_from sub s' (String.length sub - 1))
             else count_from sub s' 0
      end
  end.

(** [s.count(sub)]: the number of non-overlapping occurrences *)
Definition count (sub s : string) : nat :=
  match sub with
  | EmptyString => S (String.length s)
  | _ => count_from sub s 0
  end.

Fixpoint split_pred (p : ascii -> bool) (s : string) : list string :=
  match s with
  | EmptyString => [EmptyString]
  | String c s' =>
      if p c then EmptyString :: split_pred p s'
      else match split_pred p s' with
           | h :: t => String c h :: t
           | [] => [String c EmptyString]
           end
  end.

Definition newline : ascii := ascii_of_nat 10.

(** [s.split("\n")] *)
Definition split_lines (s : string) : list string :=
  split_pred (Ascii.eqb newline) s.

(** [s.split()]: the maximal runs of non-whitespace characters *)
Definition split (s : string) : list string :=
  filter (fun w => truthy w = true) (split_pred isspace s).

(** [sep.join(l)] *)
Fixpoint join (sep : string) (l : list string) : string :=
  match l with
  | [] => EmptyString
  | [x] => x
  | x :: t => x +:+ sep +:+ join sep t
  end.

Fixpoint take_str (n : nat) (s : string) : string :=
  match n, s with
  | S k, String c s' => String c (take_str k s')
  | _, _ => EmptyString
  end.

(** [s[:n]] for [n] of any sign *)
Definition str_to (n : Z) (s : string) : string :=
  if n <? 0 then take_str (Z.to_nat (len s + n)) s else take_str (Z.to_nat n) s.

(** [l[:n]] for [n] of any sign *)
Definition slice_to {A} (n : Z) (l : list A) : list A :=
  if n <? 0 then take (Z.to_nat (Z.of_nat (length l) + n)) l
  else take (Z.to_nat n) l.

(** [l[a:b]] for [0 <= a] and [0 <= b] *)
Definition slice {A} (a b : Z) (l : list A) : list A :=
  take (Z.to_nat (b - a)) (drop (Z.to_nat a) l).

(** [str(n)] for an [int] *)
Definition str_of_int (n : Z) : string :=
  NilZero.string_of_int (Z.to_int n).

(** [any(f(x) for x in l)] and [sum(f(x) for x in l)] *)
Definition any {A} (f : A -> bool) (l : list A) : bool := existsb f l.

Definition sum {A} (f : A -> nat) (l : list A) : nat :=
  fold_right (fun x acc => (f x + acc)%nat) 0%nat l.

End Py.

Definition nl : string := String Py.newline EmptyString.

(** ** Data of the retrieval library, as this repository reads it *)

Definition vector := list Q.

(** [DocumentChunk]: the fields the adapters read. [fingerprint] may be
    [None]; an empty fingerprint is falsy as well. *)
Record DocumentChunk := {
  chunk_id : string;
  text : string;
  metadata : gmap string string;
  fingerprint : option string;
}.

(** [RetrievalResult] *)
Record RetrievalResult := {
  chunk : DocumentChunk;
  score : Q;
}.

(** The dictionaries the search methods return. The keyword results of
    [KnowledgeBase] carry no ["metadata"] entry. *)
Record SearchResult := {
  sr_path : string;
  sr_type : string;
  sr_snippet : string;
  sr_score : Q;
  sr_full_content : string;
  sr_metadata : option (gmap string string);
}.

(** [a > b] on scores *)
Definition Qgtb (a b : Q) : bool := negb (Qle_bool a b).

(** ** Ranking: [sorted(..., key=..., reverse=True)]

    Python's sort is stable, also with [reverse=True]: elements with equal
    keys keep their order. *)

Section Ranking.
Context {A : Type} (key : A -> Q).

Fixpoint insert_desc (x : A) (l : list A) : list A :=
  match l with
  | [] => [x]
  | y :: t => if Qgtb (key y) (key x) then y :: insert_desc x t else x :: y :: t
  end.

Fixpoint sorted_desc (l : list A) : list A :=
  match l with
  | [] => []
  | x :: t => insert_desc x (sorted_desc t)
  end.

(** the earlier element has a key at least as large as the later one *)
Definition ge_key (x y : A) : Prop := (key y <= key x)%Q.

End Ranking.

(** ** Deduplication ([_deduplicate_results], the same in the three classes) *)

(** [chunk.fingerprint or chunk.chunk_id] *)
Definition dedup_key (c : DocumentChunk) : string :=
  match fingerprint c with
  | Some f => if Py.truthy f then f else chunk_id c
  | None => chunk_id c
  end.

(** A Python [dict] with [str] keys, in insertion order: assigning to a key
    that is present keeps the key's position. *)
Fixpoint dict_get {V} (k : string) (d : list (string * V)) : option V :=
  match d with
  | [] => None
  | (k', v) :: t => if String.eqb k k' then Some v else dict_get k t
  end.

Fixpoint dict_set {V} (k : string) (v : V) (d : list (string * V)) : list (string * V) :=
  match d with
  | [] => [(k, v)]
  | (k', v') :: t => if String.eqb k k' then (k, v) :: t else (k', v') :: dict_set k v t
  end.

Definition dict_values {V} (d : list (string * V)) : list V := map snd d.

Definition dedup_step (deduped : list (string * RetrievalResult)) (result : RetrievalResult)
  : list (string * RetrievalResult) :=
  let fp := dedup_key (chunk result) in
  match dict_get fp deduped with
  | None => dict_set fp result deduped
  | Some existing =>
      if Qgtb (score result) (score existing) then dict_set fp result deduped else deduped
  end.

Definition _deduplicate_results (results : list RetrievalResult) : list RetrievalResult :=
  let deduped := fold_left dedup_step results [] in
  sorted_desc score (dict_values deduped).

(** ** Snippet extraction ([_extract_snippet], the same in the three classes) *)

Definition _extract_snippet (content query : string) : string :=
  let context_lines := 3 in
  let content_lower := Py.lower content in
  let query_lower := Py.lower query in
  let idx := Py.find query_lower content_lower in
  if idx =? -1 then Py.join nl (Py.slice_to 5 (Py.split_lines content))
  else
    let lines := Py.split_lines content in
    let line_idx := Z.of_nat (Py.count nl (Py.str_to idx content)) in
    let start := Z.max 0 (line_idx - context_lines) in
    let end_ := Z.min (Z.of_nat (length lines)) (line_idx + context_lines + 1) in
    let snippet_lines := Py.slice start end_ lines in
    let snippet := Py.join nl snippet_lines in
    if Py.len snippet <? 500 then snippet
    else Py.str_to 500 snippet +:+ "...".

(** ** Exceptions, traces and the monad of the adapters' methods *)

Inductive exn :=
| ClientError (msg : string)
| Exception (msg : string).

(** [str(e)] *)
Definition str_exn (e : exn) : string :=
  match e with ClientError m | Exception m => m end.

Inductive outcome (A : Type) :=
| Returns (a : A)
| Raises (e : exn).
Arguments Returns {A} a.
Arguments Raises {A} e.

(** The operations a method performs, in order: an HTTP request, a file
    read, an index build handed to the executor, a keyword scan of the raw
    text, a search through the index (one call of the engine's [search], for
    one variation of the query). *)
Inductive event :=
| HttpGet (url : string) (params : list (string * string))
| ReadText (name : string)
| RunBuild (key : string)
| KeywordScan (query : string)
| RagSearch (query : string).

Definition M (S A : Type) : Type := S -> outcome A * S * list event.

Definition ret {S A} (a : A) : M S A := fun s => (Returns a, s, []).

Definition bind {S A B} (m : M S A) (k : A -> M S B) : M S B := fun s =>
  match m s with
  | (Returns a, s1, t1) => let '(r, s2, t2) := k a s1 in (r, s2, t1 ++ t2)
  | (Raises e, s1, t1) => (Raises e, s1, t1)
  end.

#[global] Instance M_ret {S} : MRet (M S) := @ret S.
#[global] Instance M_bind {S} : MBind (M S) := fun A B k m => bind m k.

Definition raise {S A} (e : exn) : M S A := fun s => (Raises e, s, []).
Definition get {S} : M S S := fun s => (Returns s, s, []).
Definition modify {S} (f : S -> S) : M S unit := fun s => (Returns tt, f s, []).
Definition emit {S} (e : event) : M S unit := fun s => (Returns tt, s, [e]).

(** a call into a collaborator, which returns or raises *)
Definition call {S A} (o : outcome A) : M S A := fun s => (o, s, []).

(** [try: m finally: fin] *)
Definition try_finally {S A} (m : M S A) (fin : M S unit) : M S A := fun s =>
  let '(r, s1, t1) := m s in
  match fin s1 with
  | (Returns _, s2, t2) => (r, s2, t1 ++ t2)
  | (Raises e, s2, t2) => (Raises e, s2, t1 ++ t2)
  end.

(** [try: m except Exception as e: h e]; both exception classes of the model
    are subclasses of [Exception] *)
Definition try_except {S A} (m : M S A) (h : exn -> M S A) : M S A := fun s =>
  match m s with
  | (Raises e, s1, t1) => let '(r, s2, t2) := h e s1 in (r, s2, t1 ++ t2)
  | r => r
  end.

(** [for x in l: acc = body acc x] *)
Fixpoint for_each {S A B} (l : list A) (acc : B) (body : B -> A -> M S B) : M S B :=
  match l with
  | [] => ret acc
  | x :: t => acc' ← body acc x; for_each t acc' body
  end.

(** a method of a component, run on the component's part of a larger state *)
Definition zoom {S T A} (proj : S -> T) (upd : T -> S -> S) (m : M T A) : M S A := fun s =>
  let '(r, t', tr) := m (proj s) in (r, upd t' s, tr).

(** the parts of a run *)
Definition result_of {A S} (x : outcome A * S * list event) : outcome A := x.1.1.
Definition state_of {A S} (x : outcome A * S * list event) : S := x.1.2.
Definition trace_of {A S} (x : outcome A * S * list event) : list event := x.2.

(** ** The collaborators *)

(** [encode_documents] and [encode_queries] return a dictionary that may lack
    the ["dense"] and ["sparse"] entries. *)
Record Embeddings := {
  dense : option (list vector);
  sparse : option (list vector);
}.

(** [HybridSearchEngine]: its dimension and the batches added to it *)
Record Engine := {
  dimension : Z;
  batches : list (list DocumentChunk * list vector * option (list vector));
}.

(** [HybridSearchEngine(dimension=dimension)] *)
Definition HybridSearchEngine (dim : Z) : Engine :=
  {| dimension := dim; batches := [] |}.

(** [aiohttp.ClientSession] *)
Record ClientSession := { closed : bool }.

Record World := {
  (** [aiohttp.ClientSession(timeout=...)] *)
  client_session : outcome ClientSession;
  (** [client.get(url)], [raise_for_status()], [response.text()] *)
  http_get : string -> list (string * string) -> outcome string;
  (** [knowledge_path.exists()], [knowledge_path.glob("*.md")] (file names),
      [file_path.read_text("utf-8")] *)
  path_exists : bool;
  glob_md : list string;
  read_text : string -> outcome string;
  (** [SmartChunker.chunk_document(text, metadata=metadata)] *)
  chunk_document : string -> gmap string string -> outcome (list DocumentChunk);
  (** [MultiVectorRetriever.encode_documents], [encode_queries] *)
  encode_documents : list string -> outcome Embeddings;
  encode_queries : list string -> outcome Embeddings;
  (** whether [engine.add_documents(chunks, dense, sparse)] raises *)
  add_documents_check :
    Engine -> list DocumentChunk -> list vector -> option (list vector) -> outcome unit;
  (** [engine.search(query, dense_vector=, sparse_vector=, k=, final_k=)] *)
  engine_search :
    Engine -> string -> option vector -> option vector -> Z -> Z ->
    outcome (list RetrievalResult);
  (** [QueryOptimizer.enhance_query] *)
  enhance_query : string -> outcome (list string);
}.

(** [engine.add_documents(chunks, dense_embeddings=, sparse_embeddings=)] *)
Definition add_documents {S} (w : World) (e : Engine) (chunks : list DocumentChunk)
  (dense_embeddings : list vector) (sparse_embeddings : option (list vector)) : M S Engine :=
  call (add_documents_check w e chunks dense_embeddings sparse_embeddings) ;;
  ret {| dimension := dimension e;
         batches := batches e ++ [(chunks, dense_embeddings, sparse_embeddings)] |}.

(** [value or other] on optional strings *)
Definition str_or (a : option string) (b : option string) : option string :=
  match a with
  | Some x => if Py.truthy x then a else b
  | None => b
  end.

(** the loop of [_rag_search] over the query variations *)
Definition search_variations {S} (w : World) (engine : Engine) (variations : list string)
  (search_k max_results : Z) : M S (list RetrievalResult) :=
  for_each variations [] (fun aggregated variation =>
    encoded ← call (encode_queries w [variation]);
    let dense_vecs := default [] (dense encoded) in
    let sparse_vecs := default [] (sparse encoded) in
    let dense_vector := head dense_vecs in
    let sparse_vector := head sparse_vecs in
    emit (RagSearch variation) ;;
    results ← call (engine_search w engine variation dense_vector sparse_vector
                      search_k max_results);
    ret (aggregated ++ results)).

(** ** knowledge_base.py: [KnowledgeBase], the local-directory adapter *)

Module KnowledgeBase.

(** an entry of [self.index] *)
Record Doc := {
  path : string;
  content : string;
  type : string;
}.

Record t := {
  use_embeddings : bool;
  index : list Doc;
  _initialized : bool;
  _rag_ready : bool;
  _building_index : bool;
  _chunks : list DocumentChunk;
  _search_engine : option Engine;
}.

(** [KnowledgeBase(knowledge_path, use_embeddings=...)] *)
Definition __init__ (use_embeddings : bool) : t :=
  {| use_embeddings := use_embeddings; index := []; _initialized := false;
     _rag_ready := false; _building_index := false; _chunks := [];
     _search_engine := None |}.

Definition set_use_embeddings (b : bool) (s : t) : t :=
  {| use_embeddings := b; index := index s; _initialized := _initialized s;
     _rag_ready := _rag_ready s; _building_index := _building_index s;
     _chunks := _chunks s; _search_engine := _search_engine s |}.

Definition set_index (l : list Doc) (s : t) : t :=
  {| use_embeddings := use_embeddings s; index := l; _initialized := _initialized s;
     _rag_ready := _rag_ready s; _building_index := _building_index s;
     _chunks := _chunks s; _search_engine := _search_engine s |}.

Definition set_initialized (b : bool) (s : t) : t :=
  {| use_embeddings := use_embeddings s; index := index s; _initialized := b;
     _rag_ready := _rag_ready s; _building_index := _building_index s;
     _chunks := _chunks s; _search_engine := _search_engine s |}.

Definition set_rag_ready (b : bool) (s : t) : t :=
  {| use_embeddings := use_embeddings s; index := index s; _initialized := _initialized s;
     _rag_ready := b; _building_index := _building_index s;
     _chunks := _chunks s; _search_engine := _search_engine s |}.

Definition set_building_index (b : bool) (s : t) : t :=
  {| use_embeddings := use_embeddings s; index := index s; _initialized := _initialized s;
     _rag_ready := _rag_ready s; _building_index := b;
     _chunks := _chunks s; _search_engine := _search_engine s |}.

Definition set_chunks (c : list DocumentChunk) (s : t) : t :=
  {| use_embeddings := use_embeddings s; index := index s; _initialized := _initialized s;
     _rag_ready := _rag_ready s; _building_index := _building_index s;
     _chunks := c; _search_engine := _search_engine s |}.

Definition set_search_engine (e : option Engine) (s : t) : t :=
  {| use_embeddings := use_embeddings s; index := index s; _initialized := _initialized s;
     _rag_ready := _rag_ready s; _building_index := _building_index s;
     _chunks := _chunks s; _search_engine := e |}.

(** the key under which this adapter's single index build is traced *)
Definition build_key : string := "behind-bars".

(** the score [_search_keyword] gives one document *)
Definition doc_score (doc : Doc) (query_lower : string) (query_terms : list string) : nat :=
  let content := Py.lower (content doc) in
  let path := Py.lower (path doc) in
  let score := 0%nat in
  let score := if Py.contains query_lower content then (score + 10)%nat else score in
  let term_matches := Py.sum (fun term => Py.count term content) query_terms in
  let score := (score + term_matches)%nat in
  let score :=
    if Py.any (fun term => Py.contains term path) query_terms
    then (score + 5)%nat else score in
  fold_left
    (fun score line =>
       if Py.startswith "#" (Py.strip line)
          && Py.any (fun term => Py.contains term (Py.lower line)) query_terms
       then (score + 3)%nat else score)
    (Py.slice_to 20 (Py.split_lines (KnowledgeBase.content doc))) score.

Definition keyword_result (doc : Doc) (query_lower : string) (score : nat) : SearchResult :=
  {| sr_path := path doc;
     sr_type := type doc;
     sr_snippet := _extract_snippet (content doc) query_lower;
     sr_score := inject_Z (Z.of_nat score);
     sr_full_content := Py.str_to 2000 (content doc);
     sr_metadata := None |}.

Definition _search_keyword (index : list Doc) (query : string) (max_results : Z)
  : list SearchResult :=
  let query_lower := Py.lower query in
  let query_terms := Py.split query_lower in
  let results :=
    fold_left
      (fun results doc =>
         let score := doc_score doc query_lower query_terms in
         if (0 <? score)%nat
         then results ++ [keyword_result doc query_lower score]
         else results)
      index [] in
  let results := sorted_desc sr_score results in
  Py.slice_to max_results results.

Definition _format_result (result : RetrievalResult) (query : string) : SearchResult :=
  let metadata := metadata (chunk result) in
  let path :=
    default (chunk_id (chunk result))
      (str_or (metadata !! "path") (str_or (metadata !! "document") None)) in
  {| sr_path := path;
     sr_type := default "markdown" (metadata !! "type");
     sr_snippet := _extract_snippet (text (chunk result)) query;
     sr_score := score result;
     sr_full_content := text (chunk result);
     sr_metadata := Some metadata |}.

Section Methods.
Context (w : World).

Definition _read_file_async (name : string) : M t (option string) :=
  emit (ReadText name) ;;
  try_except (c ← call (read_text w name); ret (Some c)) (fun _ => ret None).

(** the loop of [_build_rag_index] over the documents of [self.index] *)
Definition collect_chunks (docs : list Doc) : M t (list DocumentChunk) :=
  for_each docs [] (fun chunks doc =>
    let metadata : gmap string string := {[ "path" := path doc; "type" := type doc ]} in
    doc_chunks ← call (chunk_document w (content doc) metadata);
    ret (chunks ++ doc_chunks)).

Definition _build_rag_index : M t unit :=
  s ← get;
  if _rag_ready s || negb (use_embeddings s) then ret tt else
  chunks ← collect_chunks (index s);
  match chunks with
  | [] => ret tt
  | _ :: _ =>
    embeddings ← call (encode_documents w (map text chunks));
    let dense_embeddings := default [] (dense embeddings) in
    match dense_embeddings with
    | [] => modify (set_use_embeddings false)
    | first :: _ =>
      let sparse_embeddings := sparse embeddings in
      let dim := Z.of_nat (length first) in
      engine ←
        match _search_engine s with
        | Some e =>
            if negb (dimension e =? dim)
            then modify (set_search_engine (Some (HybridSearchEngine dim))) ;;
                 ret (HybridSearchEngine dim)
            else ret e
        | None =>
            modify (set_search_engine (Some (HybridSearchEngine dim))) ;;
            ret (HybridSearchEngine dim)
        end;
      modify (set_chunks chunks) ;;
      engine' ← add_documents w engine chunks dense_embeddings sparse_embeddings;
      modify (set_search_engine (Some engine')) ;;
      modify (set_rag_ready true)
    end
  end.

Definition _ensure_rag_ready : M t unit :=
  s ← get;
  if negb (use_embeddings s) || _rag_ready s || _building_index s
     || match index s with [] => true | _ => false end
  then ret tt
  else
    modify (set_building_index true) ;;
    try_finally
      (emit (RunBuild build_key) ;; _build_rag_index)
      (modify (set_building_index false)).

Definition initialize : M t unit :=
  s ← get;
  if _initialized s then ret tt else
  if negb (path_exists w) then modify (set_initialized true) else
  indexed_files ← for_each (glob_md w) [] (fun indexed_files md_file =>
    content ← _read_file_async md_file;
    match content with
    | None => ret indexed_files
    | Some c =>
        if negb (Py.truthy c) then ret indexed_files
        else ret (indexed_files ++ [{| path := md_file; content := c; type := "markdown" |}])
    end);
  modify (set_index indexed_files) ;;
  modify (set_initialized true) ;;
  s ← get;
  if use_embeddings s then _ensure_rag_ready else ret tt.

Definition _rag_search (query : string) (max_results : Z) : M t (list SearchResult) :=
  s ← get;
  match _search_engine s with
  | None => ret []
  | Some engine =>
    variations ← call (enhance_query w query);
    let search_k := Z.max 25 max_results in
    aggregated ← search_variations w engine variations search_k max_results;
    let deduped := _deduplicate_results aggregated in
    let limited := Py.slice_to max_results deduped in
    ret (map (fun result => _format_result result query) limited)
  end.

(** the call [self._search_keyword(query, max_results)] *)
Definition keyword_fallback (query : string) (max_results : Z) : M t (list SearchResult) :=
  s ← get;
  emit (KeywordScan query) ;;
  ret (_search_keyword (index s) query max_results).

Definition search (query : string) (max_results : Z) : M t (list SearchResult) :=
  if negb (Py.truthy query) || negb (Py.truthy (Py.strip query)) then ret [] else
  s ← get;
  (if negb (_initialized s) then initialize else ret tt) ;;
  s ← get;
  match index s with
  | [] => ret []
  | _ :: _ =>
    if negb (use_embeddings s) then keyword_fallback query max_results else
    _ensure_rag_ready ;;
    s ← get;
    if negb (_rag_ready s) || negb (bool_decide (is_Some (_search_engine s)))
    then keyword_fallback query max_results
    else
      rag_results ←
        try_except (_rag_search query max_results)
                   (fun _ => ret []);
      match rag_results with
      | _ :: _ => ret rag_results
      | [] => keyword_fallback query max_results
      end
  end.

End Methods.

End KnowledgeBase.

(** the score of the keyword fallback of the two remote adapters *)
Definition remote_score (query_lower : string) (query_terms : list string)
  (content_lower : string) : nat :=
  let score := 0%nat in
  let score := if Py.contains query_lower content_lower then (score + 10)%nat else score in
  (score + Py.sum (fun term => Py.count term content_lower) query_terms)%nat.

(** ** context7_tool.py: [Context7Search], the remote-proxy adapter *)

Module Context7Search.

Definition CONTEXT7_BASE_URL : string :=
  "https://context7.com/sirtidez/behind-bars/llms.txt".

(** a value of [self._rag_indices]: [{"engine": ..., "chunks": ..., "ready": ...}] *)
Record RagIndex := {
  engine : Engine;
  chunks : list DocumentChunk;
  ready : bool;
}.

Record t := {
  _cache : gmap string string;
  _cache_enabled : bool;
  _http_client : option ClientSession;
  _rag_indices : gmap string RagIndex;
  _building_index : gmap string bool;
}.

Definition __init__ : t :=
  {| _cache := ∅; _cache_enabled := true; _http_client := None;
     _rag_indices := ∅; _building_index := ∅ |}.

Definition set_cache (c : gmap string string) (s : t) : t :=
  {| _cache := c; _cache_enabled := _cache_enabled s; _http_client := _http_client s;
     _rag_indices := _rag_indices s; _building_index := _building_index s |}.

Definition set_http_client (c : option ClientSession) (s : t) : t :=
  {| _cache := _cache s; _cache_enabled := _cache_enabled s; _http_client := c;
     _rag_indices := _rag_indices s; _building_index := _building_index s |}.

Definition set_rag_indices (m : gmap string RagIndex) (s : t) : t :=
  {| _cache := _cache s; _cache_enabled := _cache_enabled s; _http_client := _http_client s;
     _rag_indices := m; _building_index := _building_index s |}.

Definition set_building_index (m : gmap string bool) (s : t) : t :=
  {| _cache := _cache s; _cache_enabled := _cache_enabled s; _http_client := _http_client s;
     _rag_indices := _rag_indices s; _building_index := m |}.

Definition set_cache_enabled (enabled : bool) (s : t) : t :=
  {| _cache := _cache s; _cache_enabled := enabled; _http_client := _http_client s;
     _rag_indices := _rag_indices s; _building_index := _building_index s |}.

Definition clear_cache (s : t) : t :=
  {| _cache := ∅; _cache_enabled := _cache_enabled s; _http_client := _http_client s;
     _rag_indices := ∅; _building_index := ∅ |}.

(** [close]: [await self._http_client.close()] on a session that is open *)
Definition close : M t unit :=
  s ← get;
  match _http_client s with
  | Some c => if negb (closed c)
              then modify (set_http_client (Some {| closed := true |}))
              else ret tt
  | None => ret tt
  end.

(** [topic or "default"] *)
Definition topic_or_default (topic : option string) : string :=
  match topic with
  | Some tp => if Py.truthy tp then tp else "default"
  | None => "default"
  end.

(** [f"context7:{topic or 'default'}:{tokens}"] *)
Definition cache_key (topic : option string) (tokens : Z) : string :=
  "context7:" +:+ topic_or_default topic +:+ ":" +:+ Py.str_of_int tokens.

(** the request parameters [{"tokens": str(tokens)}], with ["topic"] if given *)
Definition request_params (topic : option string) (tokens : Z) : list (string * string) :=
  [("tokens", Py.str_of_int tokens)]
  ++ match topic with
     | Some tp => if Py.truthy tp then [("topic", tp)] else []
     | None => []
     end.

(** [rag_index.get("ready", False)] on [self._rag_indices.get(topic_key)] *)
Definition index_ready (s : t) (topic_key : string) : bool :=
  match _rag_indices s !! topic_key with
  | Some idx => ready idx
  | None => false
  end.

Definition _format_result (result : RetrievalResult) (query topic_key : string)
  : SearchResult :=
  let metadata := metadata (chunk result) in
  {| sr_path := default topic_key (metadata !! "topic");
     sr_type := default "documentation" (metadata !! "type");
     sr_snippet := _extract_snippet (text (chunk result)) query;
     sr_score := score result;
     sr_full_content := text (chunk result);
     sr_metadata := Some metadata |}.

Definition _search_keyword (query content : string) (max_results : Z) : list SearchResult :=
  let query_lower := Py.lower query in
  let query_terms := Py.split query_lower in
  let content_lower := Py.lower content in
  let score := remote_score query_lower query_terms content_lower in
  if (0 <? score)%nat then
    [ {| sr_path := "Context7";
         sr_type := "documentation";
         sr_snippet := _extract_snippet content query_lower;
         sr_score := inject_Z (Z.of_nat score);
         sr_full_content := Py.str_to 2000 content;
         sr_metadata := Some {[ "source" := "context7" ]} |} ]
  else [].

Section Methods.
Context (w : World).

Definition _get_http_client : M t (option ClientSession) :=
  s ← get;
  (match _http_client s with
   | Some c => if closed c
               then c' ← call (client_session w); modify (set_http_client (Some c'))
               else ret tt
   | None => c' ← call (client_session w); modify (set_http_client (Some c'))
   end) ;;
  s ← get;
  ret (_http_client s).

Definition _build_rag_index (content topic_key : string) : M t unit :=
  if negb (Py.truthy content) then ret tt else
  let metadata : gmap string string :=
    {[ "source" := "context7"; "topic" := topic_key; "type" := "documentation" ]} in
  chunks ← call (chunk_document w content metadata);
  match chunks with
  | [] => ret tt
  | _ :: _ =>
    embeddings ← call (encode_documents w (map text chunks));
    let dense_embeddings := default [] (dense embeddings) in
    match dense_embeddings with
    | [] => ret tt
    | first :: _ =>
      let sparse_embeddings := sparse embeddings in
      let dim := Z.of_nat (length first) in
      search_engine ←
        add_documents w (HybridSearchEngine dim) chunks dense_embeddings sparse_embeddings;
      modify (fun s =>
        set_rag_indices
          (<[ topic_key := {| engine := search_engine; chunks := chunks; ready := true |} ]>
             (_rag_indices s)) s)
    end
  end.

Definition _ensure_rag_ready (content topic_key : string) : M t unit :=
  s ← get;
  if default false (_building_index s !! topic_key) then ret tt
  else
    modify (fun s => set_building_index (<[ topic_key := true ]> (_building_index s)) s) ;;
    try_finally
      (emit (RunBuild topic_key) ;; _build_rag_index content topic_key)
      (modify (fun s => set_building_index (<[ topic_key := false ]> (_building_index s)) s)).

Definition fetch (topic : option string) (tokens : Z) (use_cache : bool) : M t string :=
  let cache_key := cache_key topic tokens in
  s ← get;
  match (if use_cache && _cache_enabled s then _cache s !! cache_key else None) with
  | Some cached => ret cached
  | None =>
    try_except
      (client ← _get_http_client;
       match client with
       | None => ret ""
       | Some _ =>
         let params := request_params topic tokens in
         emit (HttpGet CONTEXT7_BASE_URL params) ;;
         content ← call (http_get w CONTEXT7_BASE_URL params);
         s ← get;
         let content_changed := negb (bool_decide (_cache s !! cache_key = Some content)) in
         (if _cache_enabled s
          then modify (fun s => set_cache (<[ cache_key := content ]> (_cache s)) s)
          else ret tt) ;;
         let topic_key := topic_or_default topic in
         s ← get;
         (if content_changed
             || negb (bool_decide (is_Some (_rag_indices s !! topic_key)))
             || negb (index_ready s topic_key)
          then _ensure_rag_ready content topic_key
          else ret tt) ;;
         ret content
       end)
      (fun _ => ret "")
  end.

Definition _rag_search (query topic_key : string) (max_results : Z)
  : M t (list SearchResult) :=
  s ← get;
  match _rag_indices s !! topic_key with
  | None => ret []
  | Some rag_index =>
    let search_engine := engine rag_index in
    variations ← call (enhance_query w query);
    let search_k := Z.max 25 max_results in
    aggregated ← search_variations w search_engine variations search_k max_results;
    let deduped := _deduplicate_results aggregated in
    let limited := Py.slice_to max_results deduped in
    ret (map (fun result => _format_result result query topic_key) limited)
  end.

(** the call [self._search_keyword(query, content, max_results)] *)
Definition keyword_fallback (query content : string) (max_results : Z)
  : M t (list SearchResult) :=
  emit (KeywordScan query) ;;
  ret (_search_keyword query content max_results).

Definition search (query : string) (topic : option string) (tokens max_results : Z)
  (use_cache : bool) : M t (list SearchResult) :=
  if negb (Py.truthy query) || (Py.len (Py.strip query) <? 2) then ret [] else
  content ← fetch topic tokens use_cache;
  if negb (Py.truthy content) then ret [] else
  let topic_key := topic_or_default topic in
  _ensure_rag_ready content topic_key ;;
  s ← get;
  if negb (index_ready s topic_key)
  then keyword_fallback query content max_results
  else
    try_except
      (_rag_search query topic_key max_results)
      (fun _ => keyword_fallback query content max_results).

End Methods.

End Context7Search.

(** ** github_readme_tool.py: [GitHubReadmeFetcher], the remote-file adapter *)

Module GitHubReadmeFetcher.

Definition GITHUB_README_URL : string :=
  "https://raw.githubusercontent.com/SirTidez/Behind-Bars/refs/heads/master/README.md".

Record t := {
  _cache : option string;
  _cache_enabled : bool;
  _http_client : option ClientSession;
  _rag_ready : bool;
  _building_index : bool;
  _chunks : list DocumentChunk;
  _search_engine : option Engine;
}.

Definition __init__ : t :=
  {| _cache := None; _cache_enabled := true; _http_client := None;
     _rag_ready := false; _building_index := false; _chunks := [];
     _search_engine := None |}.

Definition set_cache (c : option string) (s : t) : t :=
  {| _cache := c; _cache_enabled := _cache_enabled s; _http_client := _http_client s;
     _rag_ready := _rag_ready s; _building_index := _building_index s;
     _chunks := _chunks s; _search_engine := _search_engine s |}.

Definition set_cache_enabled (enabled : bool) (s : t) : t :=
  {| _cache := _cache s; _cache_enabled := enabled; _http_client := _http_client s;
     _rag_ready := _rag_ready s; _building_index := _building_index s;
     _chunks := _chunks s; _search_engine := _search_engine s |}.

Definition set_http_client (c : option ClientSession) (s : t) : t :=
  {| _cache := _cache s; _cache_enabled := _cache_enabled s; _http_client := c;
     _rag_ready := _rag_ready s; _building_index := _building_index s;
     _chunks := _chunks s; _search_engine := _search_engine s |}.

Definition set_rag_ready (b : bool) (s : t) : t :=
  {| _cache := _cache s; _cache_enabled := _cache_enabled s; _http_client := _http_client s;
     _rag_ready := b; _building_index := _building_index s;
     _chunks := _chunks s; _search_engine := _search_engine s |}.

Definition set_building_index (b : bool) (s : t) : t :=
  {| _cache := _cache s; _cache_enabled := _cache_enabled s; _http_client := _http_client s;
     _rag_ready := _rag_ready s; _building_index := b;
     _chunks := _chunks s; _search_engine := _search_engine s |}.

Definition set_chunks (c : list DocumentChunk) (s : t) : t :=
  {| _cache := _cache s; _cache_enabled := _cache_enabled s; _http_client := _http_client s;
     _rag_ready := _rag_ready s; _building_index := _building_index s;
     _chunks := c; _search_engine := _search_engine s |}.

Definition set_search_engine (e : option Engine) (s : t) : t :=
  {| _cache := _cache s; _cache_enabled := _cache_enabled s; _http_client := _http_client s;
     _rag_ready := _rag_ready s; _building_index := _building_index s;
     _chunks := _chunks s; _search_engine := e |}.

Definition clear_cache (s : t) : t :=
  {| _cache := None; _cache_enabled := _cache_enabled s; _http_client := _http_client s;
     _rag_ready := false; _building_index := _building_index s;
     _chunks := []; _search_engine := None |}.

(** [close]: [await self._http_client.close()] on a session that is open *)
Definition close : M t unit :=
  s ← get;
  match _http_client s with
  | Some c => if negb (closed c)
              then modify (set_http_client (Some {| closed := true |}))
              else ret tt
  | None => ret tt
  end.

(** the key under which this adapter's single index build is traced *)
Definition build_key : string := "github-readme".

Definition _format_result (result : RetrievalResult) (query : string) : SearchResult :=
  let metadata := metadata (chunk result) in
  {| sr_path := default "README.md" (metadata !! "path");
     sr_type := default "readme" (metadata !! "type");
     sr_snippet := _extract_snippet (text (chunk result)) query;
     sr_score := score result;
     sr_full_content := text (chunk result);
     sr_metadata := Some metadata |}.

Definition _search_keyword (query content : string) (max_results : Z) : list SearchResult :=
  let query_lower := Py.lower query in
  let query_terms := Py.split query_lower in
  let content_lower := Py.lower content in
  let score := remote_score query_lower query_terms content_lower in
  if (0 <? score)%nat then
    [ {| sr_path := "README.md";
         sr_type := "readme";
         sr_snippet := _extract_snippet content query_lower;
         sr_score := inject_Z (Z.of_nat score);
         sr_full_content := Py.str_to 2000 content;
         sr_metadata := Some {[ "source" := "github" ]} |} ]
  else [].

Section Methods.
Context (w : World).

Definition _get_http_client : M t (option ClientSession) :=
  s ← get;
  (match _http_client s with
   | Some c => if closed c
               then c' ← call (client_session w); modify (set_http_client (Some c'))
               else ret tt
   | None => c' ← call (client_session w); modify (set_http_client (Some c'))
   end) ;;
  s ← get;
  ret (_http_client s).

Definition _build_rag_index (content : string) : M t unit :=
  if negb (Py.truthy content) then ret tt else
  let metadata : gmap string string :=
    {[ "source" := "github"; "path" := "README.md"; "type" := "readme" ]} in
  chunks ← call (chunk_document w content metadata);
  match chunks with
  | [] => ret tt
  | _ :: _ =>
    embeddings ← call (encode_documents w (map text chunks));
    let dense_embeddings := default [] (dense embeddings) in
    match dense_embeddings with
    | [] => ret tt
    | first :: _ =>
      let sparse_embeddings := sparse embeddings in
      let dim := Z.of_nat (length first) in
      modify (set_search_engine (Some (HybridSearchEngine dim))) ;;
      modify (set_chunks chunks) ;;
      engine' ←
        add_documents w (HybridSearchEngine dim) chunks dense_embeddings sparse_embeddings;
      modify (set_search_engine (Some engine')) ;;
      modify (set_rag_ready true)
    end
  end.

Definition _ensure_rag_ready (content : string) : M t unit :=
  s ← get;
  if _building_index s then ret tt
  else
    modify (set_building_index true) ;;
    try_finally
      (emit (RunBuild build_key) ;; _build_rag_index content)
      (modify (set_building_index false)).

Definition fetch_readme (use_cache : bool) : M t string :=
  s ← get;
  match (if use_cache && _cache_enabled s then _cache s else None) with
  | Some cached => ret cached
  | None =>
    try_except
      (client ← _get_http_client;
       match client with
       | None => ret ""
       | Some _ =>
         emit (HttpGet GITHUB_README_URL []) ;;
         content ← call (http_get w GITHUB_README_URL []);
         s ← get;
         let content_changed := negb (bool_decide (_cache s = Some content)) in
         (if _cache_enabled s then modify (set_cache (Some content)) else ret tt) ;;
         s ← get;
         (if content_changed || negb (_rag_ready s)
          then _ensure_rag_ready content
          else ret tt) ;;
         ret content
       end)
      (fun _ => ret "")
  end.

Definition _rag_search (query : string) (max_results : Z) : M t (list SearchResult) :=
  s ← get;
  match _search_engine s with
  | None => ret []
  | Some engine =>
    variations ← call (enhance_query w query);
    let search_k := Z.max 25 max_results in
    aggregated ← search_variations w engine variations search_k max_results;
    let deduped := _deduplicate_results aggregated in
    let limited := Py.slice_to max_results deduped in
    ret (map (fun result => _format_result result query) limited)
  end.

(** the call [self._search_keyword(query, content, max_results)] *)
Definition keyword_fallback (query content : string) (max_results : Z)
  : M t (list SearchResult) :=
  emit (KeywordScan query) ;;
  ret (_search_keyword query content max_results).

Definition search (query : string) (max_results : Z) : M t (list SearchResult) :=
  if negb (Py.truthy query) || negb (Py.truthy (Py.strip query)) then ret [] else
  readme_content ← fetch_readme true;
  if negb (Py.truthy readme_content) then ret [] else
  _ensure_rag_ready readme_content ;;
  s ← get;
  if negb (_rag_ready s) || negb (bool_decide (is_Some (_search_engine s)))
  then keyword_fallback query readme_content max_results
  else
    try_except
      (_rag_search query max_results)
      (fun _ => keyword_fallback query readme_content max_results).

End Methods.

End GitHubReadmeFetcher.

(** ** bot.py: the three tool handlers of [setup_behind_bars_tools] *)

Module Bot.

(** the adapters the handlers close over *)
Record t := {
  knowledge_base : KnowledgeBase.t;
  context7_search : Context7Search.t;
  github_readme_fetcher : GitHubReadmeFetcher.t;
}.

Definition set_knowledge_base (k : KnowledgeBase.t) (s : t) : t :=
  {| knowledge_base := k; context7_search := context7_search s;
     github_readme_fetcher := github_readme_fetcher s |}.

Definition set_context7_search (c : Context7Search.t) (s : t) : t :=
  {| knowledge_base := knowledge_base s; context7_search := c;
     github_readme_fetcher := github_readme_fetcher s |}.

Definition set_github_readme_fetcher (g : GitHubReadmeFetcher.t) (s : t) : t :=
  {| knowledge_base := knowledge_base s; context7_search := context7_search s;
     github_readme_fetcher := g |}.

(** the loop that collects the stripped, non-empty snippets *)
Definition content_parts (results : list SearchResult) : list string :=
  fold_left
    (fun content_parts result =>
       let snippet := sr_snippet result in
       if Py.truthy snippet then
         let snippet := Py.strip snippet in
         if Py.truthy snippet then content_parts ++ [snippet] else content_parts
       else content_parts)
    results [].

(** [combined = "\n\n".join(content_parts)], cut to [limit] characters *)
Definition combine (content_parts : list string) (limit : Z) (marker : string) : string :=
  let combined := Py.join (nl +:+ nl) content_parts in
  if limit <? Py.len combined then Py.str_to limit combined +:+ marker else combined.

Definition too_short : string := "Error: Search query must be at least 2 characters.".

Section Handlers.
Context (w : World).

Definition search_knowledge_handler (query : string) : M t string :=
  if negb (Py.truthy query) || (Py.len (Py.strip query) <? 2) then ret too_short else
  try_except
    (results ← zoom knowledge_base set_knowledge_base (KnowledgeBase.search w query 5);
     match results with
     | [] =>
       context7_results ←
         zoom context7_search set_context7_search
           (Context7Search.search w query (Some query) 10000 5 true);
       match context7_results with
       | _ :: _ =>
         match content_parts context7_results with
         | (_ :: _) as parts => ret (combine parts 3000 "...")
         | [] => ret "No relevant information found."
         end
       | [] => ret "No relevant information found."
       end
     | _ :: _ =>
       match content_parts results with
       | (_ :: _) as parts => ret (combine parts 3000 "...")
       | [] => ret "No relevant information found."
       end
     end)
    (fun e => ret ("Error searching knowledge base: " +:+ str_exn e)).

Definition search_context7_handler (query topic : string) (tokens : Z) : M t string :=
  if negb (Py.truthy query) || (Py.len (Py.strip query) <? 2) then ret too_short else
  try_except
    (let search_topic := if Py.truthy topic then Py.strip topic else query in
     results ←
       zoom context7_search set_context7_search
         (Context7Search.search w query
            (if Py.truthy search_topic then Some search_topic else None) tokens 5 true);
     let none_found :=
       "No relevant information found in Context7 documentation for: " +:+ query in
     match results with
     | [] => ret none_found
     | _ :: _ =>
       match content_parts results with
       | (_ :: _) as parts =>
           ret (combine parts 5000 (nl +:+ nl +:+ "... (more results available)"))
       | [] => ret none_found
       end
     end)
    (fun e => ret ("Error searching Context7: " +:+ str_exn e)).

Definition search_github_readme_handler (query : string) (use_cache : bool) : M t string :=
  try_except
    (if negb (Py.truthy query) || (Py.len (Py.strip query) <? 2) then
       readme_content ←
         zoom github_readme_fetcher set_github_readme_fetcher
           (GitHubReadmeFetcher.fetch_readme w use_cache);
       if Py.truthy readme_content then
         let overview := Py.str_to 2000 readme_content in
         ret (overview +:+ nl +:+ nl +:+ "... (Use a specific query to search the full README)")
       else ret "Error: Could not fetch README from GitHub."
     else
       results ←
         zoom github_readme_fetcher set_github_readme_fetcher
           (GitHubReadmeFetcher.search w query 5);
       let none_found := "No relevant information found in the README for: " +:+ query in
       match results with
       | [] => ret none_found
       | _ :: _ =>
         match content_parts results with
         | (_ :: _) as parts =>
             ret (combine parts 5000 (nl +:+ nl +:+ "... (more results available)"))
         | [] => ret none_found
         end
       end)
    (fun e => ret ("Error searching GitHub README: " +:+ str_exn e)).

End Handlers.

End Bot.

(** * Vocabulary of the properties *)

(** [fp r] is the key under which [_deduplicate_results] files [r] *)
Definition fp (r : RetrievalResult) : string := dedup_key (chunk r).

(** what the dictionary of [_deduplicate_results] holds after the results
    [seen]: one entry per key met, filed under its own key, taken from
    [seen], and with a score no result of that key in [seen] exceeds *)
Record dedup_inv (seen : list RetrievalResult) (d : list (string * RetrievalResult)) : Prop := {
  inv_nodup : NoDup (map fst d);
  inv_best : forall k r, (k, r) ∈ d ->
             k = fp r /\ r ∈ seen /\ forall r', r' ∈ seen -> fp r' = k -> (score r' <= score r)%Q;
  inv_keys : forall r, r ∈ seen -> fp r ∈ map fst d;
}.

Definition mk_chunk (id : string) (f : option string) : DocumentChunk :=
  {| chunk_id := id; text := id; metadata := ∅; fingerprint := f |}.

Definition mk_result (id : string) (f : option string) (sc : Q) : RetrievalResult :=
  {| chunk := mk_chunk id f; score := sc |}.

(** the text of the lines around the first match, before the cut to 500 *)
Definition snippet_window (content query : string) : string :=
  let lines := Py.split_lines content in
  let idx := Py.find (Py.lower query) (Py.lower content) in
  let line_idx := Z.of_nat (Py.count nl (Py.str_to idx content)) in
  Py.join nl
    (Py.slice (Z.max 0 (line_idx - 3))
              (Z.min (Z.of_nat (length lines)) (line_idx + 3 + 1)) lines).


(** [n] copies of the character [c] *)
Fixpoint replicate_char (n : nat) (c : ascii) : string :=
  match n with
  | O => EmptyString
  | S k => String c (replicate_char k c)
  end.

Definition a500 : string := replicate_char 500 "a"%char.

Module KeywordSpec.
Import KnowledgeBase.

(** a line that is a markdown heading and contains one of the terms *)
Definition heading_match (terms : list string) (line : string) : bool :=
  Py.startswith "#" (Py.strip line)
  && existsb (fun term => Py.contains term (Py.lower line)) terms.

(** The score as the specification words it: 10 for the whole lowercased
    query in the lowercased content, one per occurrence of each
    whitespace-split term, 5 if a term occurs in the path, 3 per heading line
    among the first 20 lines that contains a term. *)
Definition spec_score (doc : Doc) (query : string) : nat :=
  let q := Py.lower query in
  let terms := Py.split q in
  let text := Py.lower (content doc) in
  ((if Py.contains q text then 10 else 0)
   + Py.sum (fun term => Py.count term text) terms
   + (if existsb (fun term => Py.contains term (Py.lower (path doc))) terms then 5 else 0)
   + 3 * length (List.filter (heading_match terms) (take 20 (Py.split_lines (content doc)))))%nat.

(** The result list as the specification words it: the documents with a
    positive score, ranked by score, cut to [max_results]. *)
Definition spec_results (index : list Doc) (query : string) (max_results : Z)
  : list SearchResult :=
  let found := List.filter (fun doc => (0 <? spec_score doc query)%nat) index in
  Py.slice_to max_results
    (sorted_desc sr_score
       (map (fun doc => keyword_result doc (Py.lower query) (spec_score doc query)) found)).








End KeywordSpec.

(** the per-key flag of [Context7Search], read as the guard reads it *)
Definition c7_building (s : Context7Search.t) (topic_key : string) : bool :=
  default false (Context7Search._building_index s !! topic_key).

(** the fields of [Context7Search] that the index build leaves alone *)
Definition c7_same_cache (s s' : Context7Search.t) : Prop :=
  Context7Search._cache s' = Context7Search._cache s /\
  Context7Search._cache_enabled s' = Context7Search._cache_enabled s.

(** the fields of [GitHubReadmeFetcher] that the index build leaves alone *)
Definition gh_same_cache (s s' : GitHubReadmeFetcher.t) : Prop :=
  GitHubReadmeFetcher._cache s' = GitHubReadmeFetcher._cache s /\
  GitHubReadmeFetcher._cache_enabled s' = GitHubReadmeFetcher._cache_enabled s.

(** what the cache check of [Context7Search.fetch] finds *)
Definition c7_cached (s : Context7Search.t) (topic : option string) (tokens : Z)
  (use_cache : bool) : option string :=
  if use_cache && Context7Search._cache_enabled s
  then Context7Search._cache s !! Context7Search.cache_key topic tokens
  else None.

(** what the cache check of [GitHubReadmeFetcher.fetch_readme] finds *)
Definition gh_cached (s : GitHubReadmeFetcher.t) (use_cache : bool) : option string :=
  if use_cache && GitHubReadmeFetcher._cache_enabled s
  then GitHubReadmeFetcher._cache s
  else None.

(** no usable session is at hand, so that a new one must be created *)
Definition no_session (c : option ClientSession) : Prop :=
  match c with
  | Some session => closed session = true
  | None => True
  end.

(** the answer of the README handler to a query that is too short *)
Definition readme_overview (readme_content : string) : string :=
  if Py.truthy readme_content
  then Py.str_to 2000 readme_content +:+ nl +:+ nl
       +:+ "... (Use a specific query to search the full README)"
  else "Error: Could not fetch README from GitHub.".

(** the encoder gives no dense embeddings for the chunks of a text *)
Definition no_dense_for (w : World) (content : string) (md : gmap string string) : Prop :=
  exists c chunks embeddings,
    chunk_document w content md = Returns (c :: chunks) /\
    encode_documents w (map text (c :: chunks)) = Returns embeddings /\
    default [] (dense embeddings) = [].

Definition c7_metadata (topic_key : string) : gmap string string :=
  {[ "source" := "context7"; "topic" := topic_key; "type" := "documentation" ]}.

Definition gh_metadata : gmap string string :=
  {[ "source" := "github"; "path" := "README.md"; "type" := "readme" ]}.

(** the chunks [KnowledgeBase._build_rag_index] collects from the documents *)
Fixpoint kb_chunks (w : World) (docs : list KnowledgeBase.Doc)
  : outcome (list DocumentChunk) :=
  match docs with
  | [] => Returns []
  | doc :: rest =>
      match chunk_document w (KnowledgeBase.content doc)
              {[ "path" := KnowledgeBase.path doc; "type" := KnowledgeBase.type doc ]} with
      | Raises e => Raises e
      | Returns doc_chunks =>
          match kb_chunks w rest with
          | Raises e => Raises e
          | Returns more => Returns (doc_chunks ++ more)
          end
      end
  end.

(** the encoder gives no dense embeddings for the chunks of the documents *)
Definition kb_no_dense (w : World) (docs : list KnowledgeBase.Doc) : Prop :=
  exists c chunks embeddings,
    kb_chunks w docs = Returns (c :: chunks) /\
    encode_documents w (map text (c :: chunks)) = Returns embeddings /\
    default [] (dense embeddings) = [].

(** [m] keeps the property [I] of the adapter's state, however it ends *)
Definition preserves {S A} (I : S -> Prop) (m : M S A) : Prop :=
  forall s, I s -> I (state_of (m s)).

(** the documents [KnowledgeBase.initialize] loads: the files that can be
    read and are not empty, in the order of the directory listing *)
Definition load_docs (w : World) (names : list string) : list KnowledgeBase.Doc :=
  omap (fun name =>
          match read_text w name with
          | Returns c =>
              if Py.truthy c
              then Some {| KnowledgeBase.path := name; KnowledgeBase.content := c;
                           KnowledgeBase.type := "markdown" |}
              else None
          | Raises _ => None
          end) names.

(** no build is in flight for any topic *)
Definition c7_idle (s : Context7Search.t) : Prop :=
  forall key, c7_building s key = false.

(** how a fetch of [Context7Search] may change the cache: not at all, or by
    storing under the key of the request the text the endpoint returned *)
Definition c7_cache_step (w : World) (topic : option string) (tokens : Z)
  (s s' : Context7Search.t) : Prop :=
  Context7Search._cache_enabled s' = Context7Search._cache_enabled s /\
  (Context7Search._cache s' = Context7Search._cache s \/
   (Context7Search._cache_enabled s = true /\
    exists content,
      http_get w Context7Search.CONTEXT7_BASE_URL
        (Context7Search.request_params topic tokens) = Returns content /\
      Context7Search._cache s'
      = <[ Context7Search.cache_key topic tokens := content ]> (Context7Search._cache s))).

(** how a fetch of [GitHubReadmeFetcher] may change the cache *)
Definition gh_cache_step (w : World) (s s' : GitHubReadmeFetcher.t) : Prop :=
  GitHubReadmeFetcher._cache_enabled s' = GitHubReadmeFetcher._cache_enabled s /\
  (GitHubReadmeFetcher._cache s' = GitHubReadmeFetcher._cache s \/
   (GitHubReadmeFetcher._cache_enabled s = true /\
    exists content,
      http_get w GitHubReadmeFetcher.GITHUB_README_URL [] = Returns content /\
      GitHubReadmeFetcher._cache s' = Some content)).

(** a session is open, or one can be created *)
Definition session_ready (w : World) (c : option ClientSession) : Prop :=
  match c with
  | Some session => closed session = false \/ exists c', client_session w = Returns c'
  | None => exists c', client_session w = Returns c'
  end.

(** a stored index of [Context7Search] is well formed: it is marked ready, it
    has chunks, and its engine has the dimension of the first dense vector and
    holds these chunks and nothing else *)
Definition c7_index_ok (idx : Context7Search.RagIndex) : Prop :=
  Context7Search.ready idx = true /\
  Context7Search.chunks idx <> [] /\
  exists first others sparse_vectors,
    batches (Context7Search.engine idx)
    = [(Context7Search.chunks idx, first :: others, sparse_vectors)] /\
    dimension (Context7Search.engine idx) = Z.of_nat (length first).

Definition c7_indices_ok (s : Context7Search.t) : Prop :=
  map_Forall (fun _ idx => c7_index_ok idx) (Context7Search._rag_indices s).

(** a ready index of [GitHubReadmeFetcher] has an engine and chunks *)
Definition gh_ready_ok (s : GitHubReadmeFetcher.t) : Prop :=
  GitHubReadmeFetcher._rag_ready s = true ->
  is_Some (GitHubReadmeFetcher._search_engine s) /\ GitHubReadmeFetcher._chunks s <> [].

(** a ready index of [KnowledgeBase] has an engine and chunks *)
Definition kb_ready_ok (s : KnowledgeBase.t) : Prop :=
  KnowledgeBase._rag_ready s = true ->
  is_Some (KnowledgeBase._search_engine s) /\ KnowledgeBase._chunks s <> [].

(** [m] returns, whatever the state it starts in *)
Definition never_raises {S A} (m : M S A) : Prop :=
  forall s, exists a, result_of (m s) = Returns a.

(** every value [m] returns satisfies [P] *)
Definition returns_only {S A} (P : A -> Prop) (m : M S A) : Prop :=
  forall s a, result_of (m s) = Returns a -> P a.

(** the answers of the three tool handlers: a text within the length limit,
    the report that nothing was found for the query, or the report of an
    exception *)
Definition knowledge_answer (text : string) : Prop :=
  Py.len text <= 3003 \/
  exists e, text = "Error searching knowledge base: " +:+ str_exn e.

Definition context7_answer (query text : string) : Prop :=
  Py.len text <= 5030 \/
  text = "No relevant information found in Context7 documentation for: " +:+ query \/
  exists e, text = "Error searching Context7: " +:+ str_exn e.

Definition readme_answer (query text : string) : Prop :=
  Py.len text <= 5030 \/
  text = "No relevant information found in the README for: " +:+ query \/
  exists e, text = "Error searching GitHub README: " +:+ str_exn e.

(** a list of at most [n] results *)
Definition at_most (n : Z) (results : list SearchResult) : Prop :=
  Z.of_nat (length results) <= n.

(** every exception [m] raises satisfies [Q] *)
Definition raises_only {S A} (Q : exn -> Prop) (m : M S A) : Prop :=
  forall s e, result_of (m s) = Raises e -> Q e.

(** [e] is raised by one of the three calls of an index build: the chunker,
    the encoder of the documents, or [add_documents] *)
Definition build_exception (w : World) (e : exn) : Prop :=
  (exists content metadata, chunk_document w content metadata = Raises e) \/
  (exists texts, encode_documents w texts = Raises e) \/
  (exists engine chunks dense_embeddings sparse_embeddings,
     add_documents_check w engine chunks dense_embeddings sparse_embeddings = Raises e).

(** the five kinds of operations *)
Definition is_request (e : event) : bool :=
  match e with HttpGet _ _ => true | _ => false end.

Definition is_read (e : event) : bool :=
  match e with ReadText _ => true | _ => false end.

Definition is_build (e : event) : bool :=
  match e with RunBuild _ => true | _ => false end.

Definition is_keyword_scan (e : event) : bool :=
  match e with KeywordScan _ => true | _ => false end.

Definition is_index_search (e : event) : bool :=
  match e with RagSearch _ => true | _ => false end.

(** the number of operations of a kind in a trace *)
Definition count_events (p : event -> bool) (trace : list event) : nat :=
  length (List.filter p trace).

(** [m] performs at most [n] operations of the kind [p] *)
Definition emits_at_most {S A} (p : event -> bool) (n : nat) (m : M S A) : Prop :=
  forall s, (count_events p (trace_of (m s)) <= n)%nat.

(** the elements of [l] whose key equals [k], in the order of [l] *)
Definition ties {A} (key : A -> Q) (k : Q) (l : list A) : list A :=
  List.filter (fun x => Qeq_bool (key x) k) l.

(** the keyword results of the documents with a positive score, in the order
    of the index, before they are ranked *)
Definition keyword_hits (index : list KnowledgeBase.Doc) (query : string)
  : list SearchResult :=
  map (fun doc => KnowledgeBase.keyword_result doc (Py.lower query)
                    (KeywordSpec.spec_score doc query))
      (List.filter (fun doc => (0 <? KeywordSpec.spec_score doc query)%nat) index).

(** a string without a colon *)
Fixpoint colon_free (s : string) : bool :=
  match s with
  | EmptyString => true
  | String c s' => negb (Ascii.eqb c ":"%char) && colon_free s'
  end.

(** the number of variations of a query that the optimizer returns *)
Definition variations_of (w : World) (query : string) : nat :=
  match enhance_query w query with
  | Returns variations => length variations
  | Raises _ => 0%nat
  end.

(** the encoder and the engine answer for the variation *)
Definition variation_answers (w : World) (engine : Engine) (search_k max_results : Z)
  (variation : string) : Prop :=
  exists encoded results,
    encode_queries w [variation] = Returns encoded /\
    engine_search w engine variation (head (default [] (dense encoded)))
      (head (default [] (sparse encoded))) search_k max_results = Returns results.

(** Deduplication as the specification words it.  A result has a fingerprint
    when the field is present and not empty (an empty fingerprint counts as
    absent, as it does for Python's [or]); the chunk identifier stands in for
    a result without fingerprint. *)
Module DedupSpec.

Definition has_fingerprint (r : RetrievalResult) (f : string) : Prop :=
  fingerprint (chunk r) = Some f /\ f <> "".

Definition no_fingerprint (r : RetrievalResult) : Prop :=
  fingerprint (chunk r) = None \/ fingerprint (chunk r) = Some "".

(** the two results have the same fingerprint, or neither has one and they
    have the same chunk identifier *)
Definition same_fingerprint (a b : RetrievalResult) : Prop :=
  (exists f, has_fingerprint a f /\ has_fingerprint b f) \/
  (no_fingerprint a /\ no_fingerprint b /\ chunk_id (chunk a) = chunk_id (chunk b)).

(** the two results fall into one group: they have the same fingerprint, or
    the identifier that stands in for the one is the fingerprint of the
    other *)
Definition same_group (a b : RetrievalResult) : Prop :=
  same_fingerprint a b \/
  (no_fingerprint a /\ has_fingerprint b (chunk_id (chunk a))) \/
  (has_fingerprint a (chunk_id (chunk b)) /\ no_fingerprint b).

End DedupSpec.

(** ** Example collaborators and states *)

Module Demo.

Definition readme : string := "Parole is supervision after release.".

(** a chunker that makes one chunk of a text, fingerprinted by the text *)
Definition one_chunk (txt : string) (md : gmap string string) : list DocumentChunk :=
  [ {| chunk_id := "chunk-0"; text := txt; metadata := md; fingerprint := Some txt |} ].

(** an engine search that returns every indexed chunk with score 1 *)
Definition all_chunks (e : Engine) : list RetrievalResult :=
  flat_map (fun b => map (fun c => {| chunk := c; score := 1%Q |}) b.1.1) (batches e).

(** every collaborator answers *)
Definition online : World :=
  {| client_session := Returns {| closed := false |};
     http_get := fun _ _ => Returns readme;
     path_exists := true;
     glob_md := ["faq.md"];
     read_text := fun _ => Returns readme;
     chunk_document := fun txt md => Returns (one_chunk txt md);
     encode_documents := fun l =>
       Returns {| dense := Some (map (fun _ => [1%Q; 0%Q]) l); sparse := None |};
     encode_queries := fun l =>
       Returns {| dense := Some (map (fun _ => [1%Q; 0%Q]) l); sparse := None |};
     add_documents_check := fun _ _ _ _ => Returns tt;
     engine_search := fun e _ _ _ _ _ => Returns (all_chunks e);
     enhance_query := fun q => Returns [q] |}.

(** the network is down *)
Definition offline : World :=
  {| client_session := client_session online;
     http_get := fun _ _ => Raises (ClientError "connection refused");
     path_exists := path_exists online;
     glob_md := glob_md online;
     read_text := read_text online;
     chunk_document := chunk_document online;
     encode_documents := encode_documents online;
     encode_queries := encode_queries online;
     add_documents_check := add_documents_check online;
     engine_search := engine_search online;
     enhance_query := enhance_query online |}.

(** the encoder returns an empty list of dense embeddings *)
Definition no_dense : World :=
  {| client_session := client_session online;
     http_get := http_get online;
     path_exists := path_exists online;
     glob_md := glob_md online;
     read_text := read_text online;
     chunk_document := chunk_document online;
     encode_documents := fun _ => Returns {| dense := Some []; sparse := None |};
     encode_queries := encode_queries online;
     add_documents_check := add_documents_check online;
     engine_search := engine_search online;
     enhance_query := enhance_query online |}.

(** the chunker raises, so that every index build raises *)
Definition broken_chunker : World :=
  {| client_session := client_session online;
     http_get := http_get online;
     path_exists := path_exists online;
     glob_md := glob_md online;
     read_text := read_text online;
     chunk_document := fun _ _ => Raises (Exception "tokenizer unavailable");
     encode_documents := encode_documents online;
     encode_queries := encode_queries online;
     add_documents_check := add_documents_check online;
     engine_search := engine_search online;
     enhance_query := enhance_query online |}.

(** the README has changed and the encoder returns no dense embeddings *)
Definition changed_no_dense : World :=
  {| client_session := client_session online;
     http_get := fun _ _ => Returns "Bail can be paid at the front desk.";
     path_exists := path_exists online;
     glob_md := glob_md online;
     read_text := read_text online;
     chunk_document := chunk_document online;
     encode_documents := fun _ => Returns {| dense := None; sparse := None |};
     encode_queries := encode_queries online;
     add_documents_check := add_documents_check online;
     engine_search := engine_search online;
     enhance_query := enhance_query online |}.

(** the documentation proxy answers each token budget with its own text *)
Definition per_budget : World :=
  {| client_session := client_session online;
     http_get := fun _ params =>
       if bool_decide (params = [("tokens", "100"); ("topic", "jail")])
       then Returns "Jail time is served in a cell."
       else Returns "Jail time is served in a cell. Bail shortens it.";
     path_exists := path_exists online;
     glob_md := glob_md online;
     read_text := read_text online;
     chunk_document := chunk_document online;
     encode_documents := encode_documents online;
     encode_queries := encode_queries online;
     add_documents_check := add_documents_check online;
     engine_search := engine_search online;
     enhance_query := enhance_query online |}.

(** the README adapter after a first fetch: text cached, index ready *)
Definition github_ready : GitHubReadmeFetcher.t :=
  state_of (GitHubReadmeFetcher.fetch_readme online true GitHubReadmeFetcher.__init__).

(** the Context7 adapter after a first fetch of the topic ["jail"] *)
Definition context7_ready : Context7Search.t :=
  state_of (Context7Search.fetch online (Some "jail") 10000 true Context7Search.__init__).

(** the Context7 adapter after the topic ["jail"] was fetched with a budget
    of 100 tokens and then with a budget of 200 tokens *)
Definition context7_two_budgets : Context7Search.t :=
  state_of (Context7Search.fetch per_budget (Some "jail") 200 true
    (state_of (Context7Search.fetch per_budget (Some "jail") 100 true
                 Context7Search.__init__))).

(** the knowledge base after [initialize], with embeddings enabled *)
Definition kb_ready : KnowledgeBase.t :=
  state_of (KnowledgeBase.initialize online (KnowledgeBase.__init__ true)).

(** the README adapter after a search, then a forced fetch of a changed
    README for which the encoder returns no dense embeddings *)
Definition github_stale : GitHubReadmeFetcher.t :=
  state_of (GitHubReadmeFetcher.fetch_readme changed_no_dense false
    (state_of (GitHubReadmeFetcher.search online "parole" 5 GitHubReadmeFetcher.__init__))).

(** the Context7 adapter after a fetch whose build got no dense embeddings *)
Definition context7_no_index : Context7Search.t :=
  state_of (Context7Search.fetch no_dense None 10000 true Context7Search.__init__).

(** an initialized knowledge base with one document, embeddings enabled,
    whose index has not been built *)
Definition kb_unbuilt : KnowledgeBase.t :=
  KnowledgeBase.set_initialized true
    (KnowledgeBase.set_index
       [ {| KnowledgeBase.path := "faq.md"; KnowledgeBase.content := readme;
            KnowledgeBase.type := "markdown" |} ]
       (KnowledgeBase.__init__ true)).

(** a Context7 adapter with a build in flight for the topic ["jail"] *)
Definition context7_building : Context7Search.t :=
  Context7Search.set_building_index {[ "jail" := true ]} Context7Search.__init__.

(** a knowledge base that holds one document with the text ["a"], with
    embeddings disabled *)
Definition kb_a : KnowledgeBase.t :=
  KnowledgeBase.set_initialized true
    (KnowledgeBase.set_index
       [ {| KnowledgeBase.path := "a.md"; KnowledgeBase.content := "a";
            KnowledgeBase.type := "markdown" |} ]
       (KnowledgeBase.__init__ false)).

End Demo.

(** * Properties *)

(** ** Python strings *)

Example lower_ex : Py.lower "Parole IS" = "parole is".
Proof. reflexivity. Qed.
Example strip_ex : Py.strip "  a b " = "a b".
Proof. reflexivity. Qed.
Example split_ex : Py.split " jail  time " = ["jail"; "time"].
Proof. reflexivity. Qed.
Example split_lines_ex : Py.split_lines ("a" +:+ nl +:+ nl +:+ "b") = ["a"; ""; "b"].
Proof. reflexivity. Qed.
Example find_ex : Py.find "ro" "parole" = 2 /\ Py.find "x" "parole" = -1 /\ Py.find "" "ab" = 0.
Proof. repeat split; reflexivity. Qed.
Example count_ex : Py.count "aa" "aaaaa" = 2%nat /\ Py.count "a" "banana" = 3%nat.
Proof. split; reflexivity. Qed.
Example str_of_int_ex : Py.str_of_int 10000 = "10000" /\ Py.str_of_int (-7) = "-7".
Proof. split; reflexivity. Qed.

(** ** Ranking *)

Section RankingFacts.
Context {A : Type} (key : A -> Q).

Lemma Qgtb_true a b : Qgtb a b = true <-> (b < a)%Q.
Proof.
  unfold Qgtb. rewrite negb_true_iff. split; intros H.
  - apply Qnot_le_lt. intros Hle. apply Qle_bool_iff in Hle. congruence.
  - destruct (Qle_bool a b) eqn:E; [|done].
    apply Qle_bool_iff in E. exfalso. exact (Qlt_not_le _ _ H E).
Qed.

Lemma Qgtb_false a b : Qgtb a b = false <-> (a <= b)%Q.
Proof.
  unfold Qgtb. rewrite negb_false_iff. apply Qle_bool_iff.
Qed.

Lemma insert_desc_perm x l : insert_desc key x l ≡ₚ x :: l.
Proof.
  induction l as [|y t IH]; simpl; [done|].
  destruct (Qgtb (key y) (key x)); [|done].
  rewrite IH. apply Permutation_swap.
Qed.

Lemma sorted_desc_perm l : sorted_desc key l ≡ₚ l.
Proof.
  induction l as [|x t IH]; simpl; [done|].
  rewrite insert_desc_perm. by rewrite IH.
Qed.

Lemma insert_desc_Forall (P : A -> Prop) x l :
  P x -> Forall P l -> Forall P (insert_desc key x l).
Proof.
  intros Hx Hl. rewrite insert_desc_perm. by constructor.
Qed.

Lemma insert_desc_sorted x l :
  StronglySorted (ge_key key) l -> StronglySorted (ge_key key) (insert_desc key x l).
Proof.
  induction 1 as [|y t Hs IH Hall]; simpl.
  - repeat constructor.
  - destruct (Qgtb (key y) (key x)) eqn:E.
    + constructor; [exact IH|].
      apply insert_desc_Forall; [|exact Hall].
      apply Qgtb_true in E. unfold ge_key. by apply Qlt_le_weak.
    + apply Qgtb_false in E.
      constructor; [by constructor|].
      constructor; [exact E|].
      eapply Forall_impl; [exact Hall|].
      intros z Hz. unfold ge_key in *. by eapply Qle_trans.
Qed.

Lemma sorted_desc_sorted l : StronglySorted (ge_key key) (sorted_desc key l).
Proof.
  induction l as [|x t IH]; simpl; [constructor|].
  by apply insert_desc_sorted.
Qed.

(** every adjacent pair of a strongly sorted list is in order *)
Lemma StronglySorted_adjacent (l : list A) i x y :
  StronglySorted (ge_key key) l ->
  l !! i = Some x -> l !! S i = Some y -> ge_key key x y.
Proof.
  intros Hs. revert i. induction Hs as [|z t Hs IH Hall]; intros i Hx Hy.
  - done.
  - destruct i as [|i]; simpl in *.
    + injection Hx as <-.
      rewrite Forall_forall in Hall. apply Hall.
      by eapply list_elem_of_lookup_2.
    + by eapply IH.
Qed.

End RankingFacts.

(** ** The insertion-ordered dictionary *)

Section DictFacts.
Context {V : Type}.
Implicit Types (d : list (string * V)) (k : string) (v : V).

Lemma dict_get_Some k v d : dict_get k d = Some v -> (k, v) ∈ d.
Proof.
  induction d as [|[k' v'] t IH]; simpl; [done|].
  destruct (String.eqb_spec k k') as [->|Hne].
  - intros [= ->]. constructor.
  - intros H. constructor. by apply IH.
Qed.

Lemma dict_get_None k d : dict_get k d = None -> k ∉ map fst d.
Proof.
  induction d as [|[k' v'] t IH]; simpl.
  - intros _. apply not_elem_of_nil.
  - destruct (String.eqb_spec k k') as [->|Hne]; [done|].
    intros H. apply not_elem_of_cons. split; [done|by apply IH].
Qed.

Lemma dict_set_keys_present k v d :
  k ∈ map fst d -> map fst (dict_set k v d) = map fst d.
Proof.
  induction d as [|[k' v'] t IH]; simpl.
  - intros H. by apply elem_of_nil in H.
  - destruct (String.eqb_spec k k') as [->|Hne]; [done|].
    intros H. apply elem_of_cons in H as [H|H]; [done|].
    simpl. f_equal. by apply IH.
Qed.

Lemma dict_set_keys_absent k v d :
  k ∉ map fst d -> map fst (dict_set k v d) = map fst d ++ [k].
Proof.
  induction d as [|[k' v'] t IH]; simpl; [done|].
  intros H. apply not_elem_of_cons in H as [Hne H].
  destruct (String.eqb_spec k k') as [->|_]; [done|].
  simpl. f_equal. by apply IH.
Qed.

Lemma dict_set_elem k v d k' v' :
  NoDup (map fst d) ->
  (k', v') ∈ dict_set k v d -> (k' = k /\ v' = v) \/ (k' <> k /\ (k', v') ∈ d).
Proof.
  induction d as [|[k0 v0] t IH]; simpl; intros Hnd.
  - intros H. apply list_elem_of_singleton in H as [= -> ->]. by left.
  - apply NoDup_cons in Hnd as [Hk0 Hnd].
    destruct (String.eqb_spec k k0) as [->|Hne].
    + intros H. apply elem_of_cons in H as [[= -> ->]|H]; [by left|].
      right. split; [|by constructor].
      intros ->. apply Hk0. apply list_elem_of_fmap. by exists (k0, v').
    + intros H. apply elem_of_cons in H as [[= -> ->]|H].
      * right. split; [done|constructor].
      * destruct (IH Hnd H) as [?|[? ?]]; [by left|].
        right. split; [done|by constructor].
Qed.

Lemma dict_unique k v1 v2 d :
  NoDup (map fst d) -> (k, v1) ∈ d -> (k, v2) ∈ d -> v1 = v2.
Proof.
  induction d as [|[k0 v0] t IH]; simpl; intros Hnd H1 H2.
  - by apply elem_of_nil in H1.
  - apply NoDup_cons in Hnd as [Hk0 Hnd].
    assert (forall v, (k0, v) ∈ t -> False) as Hno.
    { intros v Hv. apply Hk0. apply list_elem_of_fmap. by exists (k0, v). }
    apply elem_of_cons in H1 as [[= -> ->]|H1], H2 as [[= ->]|H2]; try done.
    + by apply Hno in H2.
    + subst. by apply Hno in H1.
    + by apply IH.
Qed.

Lemma dict_set_elem_new k v d : (k, v) ∈ dict_set k v d.
Proof.
  induction d as [|[k0 v0] t IH]; simpl; [constructor|].
  destruct (String.eqb_spec k k0) as [->|Hne]; [constructor|by constructor].
Qed.

Lemma dict_set_NoDup k v d : NoDup (map fst d) -> NoDup (map fst (dict_set k v d)).
Proof.
  intros Hnd. destruct (decide (k ∈ map fst d)) as [Hin|Hout].
  - by rewrite dict_set_keys_present.
  - rewrite dict_set_keys_absent by done.
    apply NoDup_app. split; [done|]. split; [|apply NoDup_singleton].
    intros x Hx Hx'. apply list_elem_of_singleton in Hx' as ->. done.
Qed.

Lemma dict_set_keys_mono k v d k' :
  k' ∈ map fst d -> k' ∈ map fst (dict_set k v d).
Proof.
  intros H. destruct (decide (k ∈ map fst d)) as [Hin|Hout].
  - by rewrite dict_set_keys_present.
  - rewrite dict_set_keys_absent by done. apply elem_of_app. by left.
Qed.

End DictFacts.

(** ** Deduplication and ranking *)

Lemma dedup_inv_nil : dedup_inv [] [].
Proof.
  split.
  - constructor.
  - intros k r H. by apply elem_of_nil in H.
  - intros r H. by apply elem_of_nil in H.
Qed.

Lemma dedup_step_inv seen d r :
  dedup_inv seen d -> dedup_inv (seen ++ [r]) (dedup_step d r).
Proof.
  intros [Hnd Hbest Hkeys]. unfold dedup_step. fold (fp r).
  destruct (dict_get (fp r) d) as [existing|] eqn:Hget.
  - apply dict_get_Some in Hget.
    destruct (Hbest _ _ Hget) as (Hfp & Hseen & Hmax).
    destruct (Qgtb (score r) (score existing)) eqn:Hgt.
    + apply Qgtb_true in Hgt. split.
      * by apply dict_set_NoDup.
      * intros k r0 Hin.
        destruct (dict_set_elem _ _ _ _ _ Hnd Hin) as [[-> ->]|[Hne Hin']];
          clear Hin; [|rename Hin' into Hin].
        -- split; [done|]. split; [apply elem_of_app; right; constructor|].
           intros r' Hr' Hk. apply elem_of_app in Hr' as [Hr'|Hr'].
           ++ apply Qle_trans with (score existing); [by apply Hmax|by apply Qlt_le_weak].
           ++ apply list_elem_of_singleton in Hr' as ->. apply Qle_refl.
        -- destruct (Hbest _ _ Hin) as (Hk & Hs & Hm).
           split; [done|]. split; [apply elem_of_app; by left|].
           intros r' Hr' Hk'. apply elem_of_app in Hr' as [Hr'|Hr']; [by apply Hm|].
           apply list_elem_of_singleton in Hr' as ->. congruence.
      * intros r0 Hr0. apply elem_of_app in Hr0 as [Hr0|Hr0].
        -- apply dict_set_keys_mono. by apply Hkeys.
        -- apply list_elem_of_singleton in Hr0 as ->.
           apply list_elem_of_fmap. exists (fp r, r). split; [done|apply dict_set_elem_new].
    + apply Qgtb_false in Hgt. split.
      * done.
      * intros k r0 Hin. destruct (Hbest _ _ Hin) as (Hk & Hs & Hm).
        split; [done|]. split; [apply elem_of_app; by left|].
        intros r' Hr' Hk'. apply elem_of_app in Hr' as [Hr'|Hr']; [by apply Hm|].
        apply list_elem_of_singleton in Hr' as ->.
        assert (r0 = existing) as ->; [|done].
        subst k. rewrite Hk' in Hget. by eapply dict_unique.
      * intros r0 Hr0. apply elem_of_app in Hr0 as [Hr0|Hr0]; [by apply Hkeys|].
        apply list_elem_of_singleton in Hr0 as ->.
        apply list_elem_of_fmap. by exists (fp r, existing).
  - apply dict_get_None in Hget. split.
    + by apply dict_set_NoDup.
    + intros k r0 Hin.
      destruct (dict_set_elem _ _ _ _ _ Hnd Hin) as [[-> ->]|[Hne Hin']];
        clear Hin; [|rename Hin' into Hin].
      * split; [done|]. split; [apply elem_of_app; right; constructor|].
        intros r' Hr' Hk. apply elem_of_app in Hr' as [Hr'|Hr'].
        -- exfalso. apply Hget. rewrite <- Hk. by apply Hkeys.
        -- apply list_elem_of_singleton in Hr' as ->. apply Qle_refl.
      * destruct (Hbest _ _ Hin) as (Hk & Hs & Hm).
        split; [done|]. split; [apply elem_of_app; by left|].
        intros r' Hr' Hk'. apply elem_of_app in Hr' as [Hr'|Hr']; [by apply Hm|].
        apply list_elem_of_singleton in Hr' as ->. congruence.
    + intros r0 Hr0. apply elem_of_app in Hr0 as [Hr0|Hr0].
      * apply dict_set_keys_mono. by apply Hkeys.
      * apply list_elem_of_singleton in Hr0 as ->.
        apply list_elem_of_fmap. exists (fp r, r). split; [done|apply dict_set_elem_new].
Qed.

Lemma dedup_fold_inv l seen d :
  dedup_inv seen d -> dedup_inv (seen ++ l) (fold_left dedup_step l d).
Proof.
  revert seen d. induction l as [|r l IH]; simpl; intros seen d Hinv.
  - by rewrite app_nil_r.
  - rewrite (cons_middle r seen l), (assoc_L (++)).
    by apply IH, dedup_step_inv.
Qed.

Lemma dict_values_keys (d : list (string * RetrievalResult)) :
  (forall k r, (k, r) ∈ d -> k = fp r) -> map fp (dict_values d) = map fst d.
Proof.
  induction d as [|[k r] t IH]; simpl; intros H; [done|].
  f_equal.
  - symmetry. apply H. constructor.
  - apply IH. intros k' r' Hin. apply H. by constructor.
Qed.

Lemma dedup_out_elem (results : list RetrievalResult) r :
  r ∈ _deduplicate_results results <->
  exists k, (k, r) ∈ fold_left dedup_step results [].
Proof.
  unfold _deduplicate_results. rewrite sorted_desc_perm. unfold dict_values.
  rewrite list_elem_of_fmap. split.
  - intros [[k r'] [-> H]]. by exists k.
  - intros [k H]. by exists (k, r).
Qed.

(** the key under which the code files a result is the fingerprint of the
    result, or its chunk identifier when it has no fingerprint *)
Lemma fp_fingerprint (r : RetrievalResult) :
  (forall f, DedupSpec.has_fingerprint r f -> fp r = f) /\
  (DedupSpec.no_fingerprint r -> fp r = chunk_id (chunk r)) /\
  ((exists f, DedupSpec.has_fingerprint r f) \/ DedupSpec.no_fingerprint r).
Proof.
  unfold DedupSpec.has_fingerprint, DedupSpec.no_fingerprint, fp, dedup_key.
  destruct (fingerprint (chunk r)) as [[|c f]|]; simpl.
  - split; [by intros f [[= <-] ?]|]. split; [done|]. right. by right.
  - split; [by intros f' [[= <-] _]|]. split; [by intros [|]|].
    left. by eexists.
  - split; [by intros f []|]. split; [done|]. right. by left.
Qed.

(** the code groups two results exactly when the specification does *)
Lemma same_group_fp (a b : RetrievalResult) : DedupSpec.same_group a b <-> fp a = fp b.
Proof.
  destruct (fp_fingerprint a) as (Ha1 & Ha2 & Ha3).
  destruct (fp_fingerprint b) as (Hb1 & Hb2 & Hb3).
  split.
  - intros [[(f & Hfa & Hfb)|(Hna & Hnb & Hid)]|[[Hna Hfb]|[Hfa Hnb]]].
    + by rewrite (Ha1 _ Hfa), (Hb1 _ Hfb).
    + by rewrite (Ha2 Hna), (Hb2 Hnb).
    + by rewrite (Ha2 Hna), (Hb1 _ Hfb).
    + by rewrite (Ha1 _ Hfa), (Hb2 Hnb).
  - intros Heq.
    destruct Ha3 as [[fa Hfa]|Hna], Hb3 as [[fb Hfb]|Hnb].
    + rewrite (Ha1 _ Hfa), (Hb1 _ Hfb) in Heq. subst fb.
      left. left. by exists fa.
    + rewrite (Ha1 _ Hfa), (Hb2 Hnb) in Heq. subst fa.
      right. right. by split.
    + rewrite (Ha2 Hna), (Hb1 _ Hfb) in Heq. subst fb.
      right. left. by split.
    + rewrite (Ha2 Hna), (Hb2 Hnb) in Heq.
      left. right. by split.
Qed.

(** C2. For every list of scored candidates, in the output of
    [_deduplicate_results] no two results share a fingerprint, the chunk
    identifier standing in for a result whose fingerprint is absent or empty
    (nor are two results returned of which one has the identifier of the other
    as its fingerprint); every result is one of the candidates; of two
    candidates with the same fingerprint and different scores the
    lower-scoring one is not returned, while a result of their group scoring
    at least as much as the higher one is; every candidate has in the output
    a result of its group that scores at least as much; and every adjacent
    pair is in descending score order. *)
Theorem deduplicate_results_ranked (results : list RetrievalResult) :
  let out := _deduplicate_results results in
  (forall i j a b f,
     out !! i = Some a -> out !! j = Some b ->
     DedupSpec.has_fingerprint a f -> DedupSpec.has_fingerprint b f -> i = j) /\
  (forall i j a b,
     out !! i = Some a -> out !! j = Some b -> DedupSpec.same_group a b -> i = j) /\
  (forall r, r ∈ out -> r ∈ results) /\
  (forall a b, a ∈ results -> b ∈ results -> DedupSpec.same_fingerprint a b ->
     (score a < score b)%Q ->
     (a ∉ out) /\
     exists r, r ∈ out /\ DedupSpec.same_group r b /\ (score b <= score r)%Q) /\
  (forall b, b ∈ results ->
     exists r, r ∈ out /\ DedupSpec.same_group r b /\ (score b <= score r)%Q) /\
  (forall i x y, out !! i = Some x -> out !! (S i) = Some y -> (score y <= score x)%Q).
Proof.
  intros out.
  pose proof (dedup_fold_inv results [] [] dedup_inv_nil) as Hinv. simpl in Hinv.
  destruct Hinv as [Hnd Hbest Hkeys].
  assert (forall b, b ∈ results ->
            exists r, r ∈ out /\ DedupSpec.same_group r b /\ (score b <= score r)%Q)
    as Hkept.
  { intros b Hb. pose proof (Hkeys b Hb) as Hkb.
    apply list_elem_of_fmap in Hkb as [[k r] [Hk Hin]].
    simpl in Hk. subst k. exists r.
    destruct (Hbest _ _ Hin) as (Hfpr & _ & Hmax).
    split; [apply dedup_out_elem; by exists (fp b)|].
    split; [by apply same_group_fp|]. by apply Hmax. }
  assert (NoDup (map fp out)) as Hdistinct.
  { subst out. unfold _deduplicate_results.
    rewrite (Permutation_map fp (sorted_desc_perm score _)).
    rewrite dict_values_keys; [done|]. intros k r H. by apply Hbest. }
  assert (forall i j a b,
            out !! i = Some a -> out !! j = Some b -> DedupSpec.same_group a b -> i = j)
    as Hgroups.
  { intros i j a b Ha Hb Hg. apply same_group_fp in Hg.
    apply (NoDup_lookup (map fp out) i j (fp a)); [done| |].
    - change (map fp out) with (fp <$> out). by rewrite list_lookup_fmap, Ha.
    - change (map fp out) with (fp <$> out). by rewrite list_lookup_fmap, Hb, Hg. }
  split; [|split; [|split; [|split; [|split]]]].
  - intros i j a b f Ha Hb Hfa Hfb. apply (Hgroups i j a b Ha Hb).
    left. left. by exists f.
  - exact Hgroups.
  - intros r Hr. apply dedup_out_elem in Hr as [k Hk].
    by destruct (Hbest _ _ Hk) as (_ & ? & _).
  - intros a b Ha Hb Hsame Hlt.
    assert (fp a = fp b) as Hfp by (apply same_group_fp; by left).
    split; [|by apply Hkept].
    intros Ha'. apply dedup_out_elem in Ha' as [k Hk].
    destruct (Hbest _ _ Hk) as (-> & _ & Hmax).
    specialize (Hmax b Hb (eq_sym Hfp)).
    exact (Qlt_not_le _ _ Hlt Hmax).
  - exact Hkept.
  - intros i x y Hx Hy.
    exact (StronglySorted_adjacent score out i x y (sorted_desc_sorted score _) Hx Hy).
Qed.

(** two candidates with the fingerprint ["x"], different identifiers and
    different scores: the one scoring less is not returned *)
Lemma deduplicate_results_ranked_witness :
  let low := mk_result "c1" (Some "x") (1#2) in
  let high := mk_result "c3" (Some "x") (7#10) in
  let results := [low; mk_result "c2" None (3#10); high] in
  DedupSpec.same_fingerprint low high /\
  (low ∉ _deduplicate_results results) /\
  _deduplicate_results results = [high; mk_result "c2" None (3#10)].
Proof.
  intros low high results.
  assert (DedupSpec.same_fingerprint low high) as Hsame.
  { left. exists "x". by repeat split. }
  split; [exact Hsame|]. split; [|reflexivity].
  destruct (deduplicate_results_ranked results) as (_ & _ & _ & H & _).
  apply (H low high); [constructor|repeat constructor|exact Hsame|reflexivity].
Defined.

(** two pairs of duplicates, one by fingerprint and one by identifier *)
Example deduplicate_results_ex :
  _deduplicate_results
    [ mk_result "c1" (Some "x") (1#2); mk_result "c2" None (3#10);
      mk_result "c3" (Some "x") (7#10); mk_result "c2" (Some "") (2#10);
      mk_result "c4" (Some "y") (7#10) ]
  = [ mk_result "c3" (Some "x") (7#10); mk_result "c4" (Some "y") (7#10);
      mk_result "c2" None (3#10) ].
Proof. reflexivity. Qed.

(** ** Snippet extraction *)

(** The three cases of [_extract_snippet]; the window is returned verbatim
    when it is shorter than 500 characters. *)
Lemma extract_snippet_cases (content query : string) :
  let idx := Py.find (Py.lower query) (Py.lower content) in
  let window := snippet_window content query in
  (idx = -1 ->
     _extract_snippet content query = Py.join nl (take 5 (Py.split_lines content))) /\
  (idx <> -1 -> Py.len window < 500 -> _extract_snippet content query = window) /\
  (idx <> -1 -> 500 <= Py.len window ->
     _extract_snippet content query = Py.take_str 500 window +:+ "...").
Proof.
  intros idx window. subst idx window.
  unfold _extract_snippet, snippet_window. cbv zeta.
  split; [|split].
  - intros ->. reflexivity.
  - intros Hidx Hlen. apply Z.eqb_neq in Hidx. rewrite Hidx.
    apply Z.ltb_lt in Hlen. by rewrite Hlen.
  - intros Hidx Hlen. apply Z.eqb_neq in Hidx. rewrite Hidx.
    apply Z.ltb_ge in Hlen. rewrite Hlen. reflexivity.
Qed.

(** C4, at the boundary. A one-line text of exactly 500 characters that
    matches the query has a window of exactly 500 characters;
    [_extract_snippet] does not return it verbatim but appends the ellipsis
    to it, giving 503 characters. *)
Theorem extract_snippet_at_500 :
  Py.find (Py.lower "a") (Py.lower a500) = 0 /\
  snippet_window a500 "a" = a500 /\
  Py.len (snippet_window a500 "a") = 500 /\
  _extract_snippet a500 "a" = a500 +:+ "..." /\
  _extract_snippet a500 "a" <> a500.
Proof.
  repeat split; try (vm_compute; reflexivity).
  vm_compute. discriminate.
Qed.

(** one character less, and the text is returned as it is *)
Example extract_snippet_at_499 :
  _extract_snippet (replicate_char 499 "a"%char) "a" = replicate_char 499 "a"%char.
Proof. vm_compute. reflexivity. Qed.

Example extract_snippet_window_ex :
  _extract_snippet
    (Py.join nl ["l0"; "l1"; "l2"; "l3"; "l4 Bail here"; "l5"; "l6"; "l7"; "l8"]) "bail"
  = Py.join nl ["l1"; "l2"; "l3"; "l4 Bail here"; "l5"; "l6"; "l7"].
Proof. vm_compute. reflexivity. Qed.

Example extract_snippet_nomatch_ex :
  _extract_snippet (Py.join nl ["l0"; "l1"; "l2"; "l3"; "l4"; "l5"; "l6"]) "bail"
  = Py.join nl ["l0"; "l1"; "l2"; "l3"; "l4"].
Proof. vm_compute. reflexivity. Qed.

(** ** String facts *)

Lemma take_str_length n s : (String.length (Py.take_str n s) <= n)%nat.
Proof.
  revert s. induction n as [|n IH]; intros [|c s]; simpl; try lia.
  specialize (IH s). lia.
Qed.

Lemma str_to_length n s : 0 <= n -> Py.len (Py.str_to n s) <= n.
Proof.
  intros Hn. unfold Py.str_to, Py.len.
  destruct (n <? 0) eqn:E; [apply Z.ltb_lt in E; lia|].
  pose proof (take_str_length (Z.to_nat n) s). lia.
Qed.

Lemma slice_to_length {A} n (l : list A) :
  0 <= n -> Z.of_nat (length (Py.slice_to n l)) <= n.
Proof.
  intros Hn. unfold Py.slice_to.
  destruct (n <? 0) eqn:E; [apply Z.ltb_lt in E; lia|].
  rewrite length_take. lia.
Qed.

(** ** Keyword fallback of the remote adapters *)

(** C10. The keyword fallback of [Context7Search] and of
    [GitHubReadmeFetcher] scores the whole fetched text as one candidate:
    whatever [max_results] is, it returns at most one result; a positive
    score gives exactly one result, carrying that score and the text cut to
    its first 2000 characters, and a zero score gives the empty list. *)
Theorem remote_keyword_single (query content : string) (max_results : Z) :
  let score :=
    remote_score (Py.lower query) (Py.split (Py.lower query)) (Py.lower content) in
  let c7 := Context7Search._search_keyword query content max_results in
  let gh := GitHubReadmeFetcher._search_keyword query content max_results in
  (length c7 <= 1)%nat /\ (length gh <= 1)%nat /\
  (score = 0%nat -> c7 = [] /\ gh = []) /\
  ((0 < score)%nat ->
     exists r1 r2, c7 = [r1] /\ gh = [r2] /\
       sr_score r1 = inject_Z (Z.of_nat score) /\
       sr_score r2 = inject_Z (Z.of_nat score) /\
       sr_full_content r1 = Py.str_to 2000 content /\
       sr_full_content r2 = Py.str_to 2000 content /\
       Py.len (sr_full_content r1) <= 2000 /\
       Py.len (sr_full_content r2) <= 2000).
Proof.
  intros score c7 gh. subst c7 gh.
  unfold Context7Search._search_keyword, GitHubReadmeFetcher._search_keyword.
  cbv zeta. fold score.
  destruct (0 <? score)%nat eqn:E.
  - apply Nat.ltb_lt in E. simpl. repeat split; try lia.
    intros _. eexists _, _. repeat split; simpl; by apply str_to_length.
  - apply Nat.ltb_ge in E. simpl. repeat split; try lia.
Qed.

Lemma remote_keyword_single_witness :
  let query := "parole" in
  let content := "Parole is supervision after release." in
  (0 < remote_score (Py.lower query) (Py.split (Py.lower query)) (Py.lower content))%nat /\
  exists r1 r2,
    Context7Search._search_keyword query content 0 = [r1] /\
    GitHubReadmeFetcher._search_keyword query content 0 = [r2] /\
    sr_score r1 = inject_Z 11 /\ sr_score r2 = inject_Z 11 /\
    sr_full_content r1 = content /\ sr_full_content r2 = content.
Proof.
  intros query content.
  assert (0 < remote_score (Py.lower query) (Py.split (Py.lower query))
                (Py.lower content))%nat as Hpos by (vm_compute; lia).
  split; [exact Hpos|].
  destruct (remote_keyword_single query content 0) as (_ & _ & _ & H).
  destruct (H Hpos) as (r1 & r2 & H1 & H2 & H3 & H4 & H5 & H6 & _).
  exists r1, r2. repeat split; try assumption.
Defined.

(** ** Substrings *)

Lemma app_String c a b : String c a +:+ b = String c (a +:+ b).
Proof. reflexivity. Qed.

Lemma app_Empty b : EmptyString +:+ b = b.
Proof. reflexivity. Qed.









(** ** Lines *)

Lemma split_pred_nonempty p s : Py.split_pred p s <> [].
Proof.
  destruct s as [|c s]; simpl; [done|].
  destruct (p c); [done|]. by destruct (Py.split_pred p s).
Qed.

Lemma split_pred_String p c s :
  Py.split_pred p (String c s)
  = if p c then EmptyString :: Py.split_pred p s
    else match Py.split_pred p s with
         | h :: t => String c h :: t
         | [] => [String c EmptyString]
         end.
Proof. reflexivity. Qed.

(** ["\n".join(s.split("\n")) == s] *)
Lemma join_split_lines s : Py.join nl (Py.split_lines s) = s.
Proof.
  unfold Py.split_lines. induction s as [|c s IH]; [done|].
  rewrite split_pred_String.
  destruct (Ascii.eqb_spec Py.newline c) as [<-|Hne].
  - pose proof (split_pred_nonempty (Ascii.eqb Py.newline) s) as Hn.
    destruct (Py.split_pred (Ascii.eqb Py.newline) s) as [|h t] eqn:E; [done|].
    change (Py.join nl ("" :: h :: t)) with ("" +:+ nl +:+ Py.join nl (h :: t)).
    by rewrite IH.
  - pose proof (split_pred_nonempty (Ascii.eqb Py.newline) s) as Hn.
    destruct (Py.split_pred (Ascii.eqb Py.newline) s) as [|h t] eqn:E; [done|].
    destruct t as [|h' t'].
    + simpl in *. by rewrite IH.
    + change (Py.join nl (String c h :: h' :: t'))
        with (String c h +:+ nl +:+ Py.join nl (h' :: t')).
      change (Py.join nl (h :: h' :: t')) with (h +:+ nl +:+ Py.join nl (h' :: t')) in IH.
      by rewrite app_String, IH.
Qed.

Lemma count_nl_unfold c s :
  Py.count nl (String c s)
  = if Ascii.eqb Py.newline c then S (Py.count nl s) else Py.count nl s.
Proof.
  change (Py.count nl (String c s)) with (Py.count_from nl (String c s) 0).
  change (Py.count nl s) with (Py.count_from nl s 0).
  cbn [Py.count_from String.prefix nl].
  destruct (Ascii.eqb_spec Py.newline c) as [<-|Hne].
  - destruct (ascii_dec Py.newline Py.newline) as [_|Hne]; [|done].
    by destruct s.
  - by destruct (ascii_dec Py.newline c) as [Heq|_].
Qed.

(** [len(s.split("\n")) == s.count("\n") + 1] *)
Lemma split_lines_length s : length (Py.split_lines s) = S (Py.count nl s).
Proof.
  unfold Py.split_lines. induction s as [|c s IH]; [done|].
  rewrite count_nl_unfold, split_pred_String.
  destruct (Ascii.eqb Py.newline c); simpl; [by rewrite IH|].
  pose proof (split_pred_nonempty (Ascii.eqb Py.newline) s) as Hn.
  destruct (Py.split_pred (Ascii.eqb Py.newline) s) as [|h t] eqn:E; [done|].
  simpl in *. exact IH.
Qed.

Lemma count_nl_take n s : (Py.count nl (Py.take_str n s) <= Py.count nl s)%nat.
Proof.
  revert s. induction n as [|n IH]; intros [|c s]; simpl Py.take_str;
    try (change (Py.count nl "") with 0%nat; lia).
  rewrite !count_nl_unfold. specialize (IH s).
  destruct (Ascii.eqb Py.newline c); lia.
Qed.

Lemma count_nl_str_to n s : (Py.count nl (Py.str_to n s) <= Py.count nl s)%nat.
Proof.
  unfold Py.str_to. destruct (n <? 0); apply count_nl_take.
Qed.




Lemma slice_to_all {A} n (l : list A) :
  Z.of_nat (length l) <= n -> Py.slice_to n l = l.
Proof.
  intros Hn. unfold Py.slice_to.
  destruct (n <? 0) eqn:E; [apply Z.ltb_lt in E; lia|].
  apply take_ge. lia.
Qed.



(** ** Keyword fallback of the knowledge base *)

Section KeywordFacts.
Import KnowledgeBase KeywordSpec.

Lemma fold_heading (p : string -> bool) (lines : list string) (base : nat) :
  fold_left (fun score line => if p line then (score + 3)%nat else score) lines base
  = (base + 3 * length (List.filter p lines))%nat.
Proof.
  revert base. induction lines as [|l ls IH]; intros base; simpl; [lia|].
  rewrite IH. destruct (p l); simpl; lia.
Qed.

Lemma fold_collect {A B} (g : list B -> A -> list B) (c : A -> bool) (f : A -> B)
  (l : list A) (init : list B) :
  (forall acc x, g acc x = if c x then acc ++ [f x] else acc) ->
  fold_left g l init = init ++ map f (List.filter c l).
Proof.
  intros Hg. revert init. induction l as [|x t IH]; intros init; simpl.
  - by rewrite app_nil_r.
  - rewrite IH, Hg. destruct (c x); simpl; [|done].
    by rewrite <- (assoc_L (++)).
Qed.

(** the score computed by [_search_keyword] is the score of the specification *)
Lemma doc_score_spec (doc : Doc) (query : string) :
  doc_score doc (Py.lower query) (Py.split (Py.lower query)) = spec_score doc query.
Proof.
  unfold doc_score, spec_score. cbv zeta.
  rewrite (fold_heading (heading_match (Py.split (Py.lower query)))).
  unfold Py.any.
  change (Py.slice_to 20 (Py.split_lines (content doc)))
    with (take 20 (Py.split_lines (content doc))).
  destruct (Py.contains (Py.lower query) (Py.lower (content doc)));
    destruct (existsb _ (Py.split (Py.lower query))); lia.
Qed.

Lemma search_keyword_spec (index : list Doc) (query : string) (max_results : Z) :
  _search_keyword index query max_results = spec_results index query max_results.
Proof.
  unfold _search_keyword, spec_results. cbv zeta. do 2 f_equal.
  rewrite (fold_collect _ (fun doc => (0 <? spec_score doc query)%nat)
             (fun doc => keyword_result doc (Py.lower query) (spec_score doc query))).
  - done.
  - intros acc doc. by rewrite doc_score_spec.
Qed.




End KeywordFacts.

(** ** The monad *)

Ltac unfold_monad :=
  unfold mbind, M_bind, bind, mret, M_ret, ret, get, modify, emit, call,
    try_except, try_finally, raise, zoom, result_of, state_of, trace_of in *.

(** ** Single-flight index build *)

Lemma c7_ensure_busy (w : World) s content topic_key :
  c7_building s topic_key = true ->
  Context7Search._ensure_rag_ready w content topic_key s = (Returns tt, s, []).
Proof.
  unfold c7_building, Context7Search._ensure_rag_ready. unfold_monad.
  by intros ->.
Qed.

Lemma c7_ensure_clears (w : World) s content topic_key :
  c7_building s topic_key = false ->
  let run := Context7Search._ensure_rag_ready w content topic_key s in
  let started :=
    Context7Search.set_building_index
      (<[ topic_key := true ]> (Context7Search._building_index s)) s in
  c7_building (state_of run) topic_key = false /\
  result_of run = result_of (Context7Search._build_rag_index w content topic_key started) /\
  trace_of run
  = RunBuild topic_key
    :: trace_of (Context7Search._build_rag_index w content topic_key started).
Proof.
  unfold c7_building, Context7Search._ensure_rag_ready. unfold_monad.
  intros ->. cbv zeta.
  destruct (Context7Search._build_rag_index w content topic_key _) as [[r s1] t1].
  simpl. rewrite lookup_insert_eq, app_nil_r. by destruct r.
Qed.

Lemma gh_ensure_busy (w : World) s content :
  GitHubReadmeFetcher._building_index s = true ->
  GitHubReadmeFetcher._ensure_rag_ready w content s = (Returns tt, s, []).
Proof.
  unfold GitHubReadmeFetcher._ensure_rag_ready. unfold_monad. by intros ->.
Qed.

Lemma gh_ensure_clears (w : World) s content :
  GitHubReadmeFetcher._building_index s = false ->
  let run := GitHubReadmeFetcher._ensure_rag_ready w content s in
  let started := GitHubReadmeFetcher.set_building_index true s in
  GitHubReadmeFetcher._building_index (state_of run) = false /\
  result_of run = result_of (GitHubReadmeFetcher._build_rag_index w content started) /\
  trace_of run
  = RunBuild GitHubReadmeFetcher.build_key
    :: trace_of (GitHubReadmeFetcher._build_rag_index w content started).
Proof.
  unfold GitHubReadmeFetcher._ensure_rag_ready. unfold_monad.
  intros ->. cbv zeta.
  destruct (GitHubReadmeFetcher._build_rag_index w content _) as [[r s1] t1].
  simpl. rewrite app_nil_r. by destruct r.
Qed.

Lemma kb_ensure_busy (w : World) s :
  KnowledgeBase._building_index s = true ->
  KnowledgeBase._ensure_rag_ready w s = (Returns tt, s, []).
Proof.
  unfold KnowledgeBase._ensure_rag_ready. unfold_monad. intros ->.
  by rewrite !orb_true_r.
Qed.

Lemma kb_ensure_clears (w : World) s :
  KnowledgeBase._building_index s = false ->
  KnowledgeBase._building_index (state_of (KnowledgeBase._ensure_rag_ready w s)) = false.
Proof.
  unfold KnowledgeBase._ensure_rag_ready. unfold_monad. intros Hb.
  destruct (negb (KnowledgeBase.use_embeddings s) || KnowledgeBase._rag_ready s
            || KnowledgeBase._building_index s
            || match KnowledgeBase.index s with [] => true | _ => false end); [done|].
  destruct (KnowledgeBase._build_rag_index w _) as [[r s1] t1].
  by destruct r.
Qed.

(** C9, as the code has it. In each adapter a call of [_ensure_rag_ready]
    made while the building flag is set returns at once: no build is run, no
    state changes, and the flag stays set for the build that is in flight. A
    call that finds the flag clear leaves it clear when it ends, whether the
    build returned or raised; in the remote adapters such a call runs exactly
    one build and ends as the build ended. *)
Theorem ensure_rag_ready_single_flight (w : World) :
  (forall s content key, c7_building s key = true ->
     Context7Search._ensure_rag_ready w content key s = (Returns tt, s, [])) /\
  (forall s content key, c7_building s key = false ->
     let run := Context7Search._ensure_rag_ready w content key s in
     let started :=
       Context7Search.set_building_index
         (<[ key := true ]> (Context7Search._building_index s)) s in
     c7_building (state_of run) key = false /\
     result_of run = result_of (Context7Search._build_rag_index w content key started) /\
     trace_of run
     = RunBuild key :: trace_of (Context7Search._build_rag_index w content key started)) /\
  (forall s content, GitHubReadmeFetcher._building_index s = true ->
     GitHubReadmeFetcher._ensure_rag_ready w content s = (Returns tt, s, [])) /\
  (forall s content, GitHubReadmeFetcher._building_index s = false ->
     let run := GitHubReadmeFetcher._ensure_rag_ready w content s in
     let started := GitHubReadmeFetcher.set_building_index true s in
     GitHubReadmeFetcher._building_index (state_of run) = false /\
     result_of run = result_of (GitHubReadmeFetcher._build_rag_index w content started) /\
     trace_of run
     = RunBuild GitHubReadmeFetcher.build_key
       :: trace_of (GitHubReadmeFetcher._build_rag_index w content started)) /\
  (forall s, KnowledgeBase._building_index s = true ->
     KnowledgeBase._ensure_rag_ready w s = (Returns tt, s, [])) /\
  (forall s, KnowledgeBase._building_index s = false ->
     KnowledgeBase._building_index (state_of (KnowledgeBase._ensure_rag_ready w s)) = false).
Proof.
  split; [intros; by apply c7_ensure_busy|].
  split; [intros; by apply c7_ensure_clears|].
  split; [intros; by apply gh_ensure_busy|].
  split; [intros; by apply gh_ensure_clears|].
  split; [intros; by apply kb_ensure_busy|].
  intros; by apply kb_ensure_clears.
Qed.

(** a call during a build in flight, and a call whose own build raises *)
Lemma ensure_rag_ready_single_flight_witness :
  (c7_building Demo.context7_building "jail" = true /\
   Context7Search._ensure_rag_ready Demo.broken_chunker "text" "jail" Demo.context7_building
   = (Returns tt, Demo.context7_building, [])) /\
  (c7_building Context7Search.__init__ "jail" = false /\
   let run :=
     Context7Search._ensure_rag_ready Demo.broken_chunker "text" "jail"
       Context7Search.__init__ in
   c7_building (state_of run) "jail" = false /\
   result_of run = Raises (Exception "tokenizer unavailable")).
Proof.
  destruct (ensure_rag_ready_single_flight Demo.broken_chunker) as (Hbusy & Hclear & _).
  assert (c7_building Demo.context7_building "jail" = true) as H1 by (vm_compute; reflexivity).
  assert (c7_building Context7Search.__init__ "jail" = false) as H2 by (vm_compute; reflexivity).
  split.
  - split; [exact H1|]. exact (Hbusy _ "text" "jail" H1).
  - split; [exact H2|].
    destruct (Hclear _ "text" "jail" H2) as (Hflag & Hres & _).
    split; [exact Hflag|]. rewrite Hres. vm_compute. reflexivity.
Defined.

(** C9, as stated, fails: the call below is made while a build for ["jail"]
    is in flight; it completes, and the building flag of ["jail"] is still
    set afterwards. *)
Lemma ensure_rag_ready_flag_still_set :
  let run :=
    Context7Search._ensure_rag_ready Demo.online "text" "jail" Demo.context7_building in
  result_of run = Returns tt /\
  Context7Search._building_index (state_of run) !! "jail" = Some true.
Proof. vm_compute. split; reflexivity. Qed.

(** ** Fetch and cache *)

Ltac step :=
  match goal with
  | |- context [match ?o with Returns _ => _ | Raises _ => _ end] => destruct o eqn:?
  | |- context [match ?o with Some _ => _ | None => _ end] => destruct o eqn:?
  | |- context [match ?l with [] => _ | _ :: _ => _ end] => destruct l eqn:?
  | |- context [if ?b then _ else _] => destruct b eqn:?
  | |- context [let '(_, _) := ?p in _] => destruct p eqn:?
  end.

Lemma c7_build_cache (w : World) content key s :
  c7_same_cache s (state_of (Context7Search._build_rag_index w content key s)).
Proof.
  unfold Context7Search._build_rag_index, add_documents, c7_same_cache.
  unfold_monad. repeat (simpl; step); simpl; auto.
Qed.

Lemma c7_ensure_cache (w : World) content key s :
  c7_same_cache s (state_of (Context7Search._ensure_rag_ready w content key s)).
Proof.
  unfold Context7Search._ensure_rag_ready. unfold_monad.
  destruct (default false _); [by split|].
  pose proof (c7_build_cache w content key
    (Context7Search.set_building_index
       (<[key:=true]> (Context7Search._building_index s)) s)) as H.
  unfold state_of in H.
  destruct (Context7Search._build_rag_index w content key _) as [[r s1] t1].
  simpl in *. destruct r; simpl; exact H.
Qed.

Lemma c7_client_cache (w : World) s :
  c7_same_cache s (state_of (Context7Search._get_http_client w s)).
Proof.
  unfold Context7Search._get_http_client, c7_same_cache. unfold_monad.
  repeat (simpl; step); simpl; auto.
Qed.

Lemma c7_fetch_hit (w : World) s topic tokens cached :
  Context7Search._cache_enabled s = true ->
  Context7Search._cache s !! Context7Search.cache_key topic tokens = Some cached ->
  Context7Search.fetch w topic tokens true s = (Returns cached, s, []).
Proof.
  unfold Context7Search.fetch. unfold_monad. by intros -> ->.
Qed.

Lemma c7_fetch_caches (w : World) s topic tokens c :
  Context7Search._cache_enabled s = true ->
  result_of (Context7Search.fetch w topic tokens true s) = Returns c ->
  c <> "" ->
  let s' := state_of (Context7Search.fetch w topic tokens true s) in
  Context7Search._cache_enabled s' = true /\
  Context7Search._cache s' !! Context7Search.cache_key topic tokens = Some c.
Proof.
  intros Hen. unfold Context7Search.fetch. unfold_monad. rewrite Hen. simpl.
  destruct (Context7Search._cache s !! Context7Search.cache_key topic tokens)
    as [cached|] eqn:Hc; simpl.
  - intros [= ->] _. by split.
  - pose proof (c7_client_cache w s) as [Hc0 Hen0]. unfold state_of in *.
    destruct (Context7Search._get_http_client w s) as [[r0 s0] t0]. simpl in *.
    destruct r0 as [[client|]|e]; simpl; try (intros [= <-]; done).
    destruct (http_get w _ _) as [content|e]; simpl; try (intros [= <-]; done).
    rewrite Hen0, Hen. simpl.
    match goal with
    | |- context [if ?b then _ else _] => destruct b
    end; simpl.
    + match goal with
      | |- context [Context7Search._ensure_rag_ready w ?c ?k ?st] =>
          pose proof (c7_ensure_cache w c k st) as [Hc2 Hen2];
          unfold state_of in *;
          destruct (Context7Search._ensure_rag_ready w c k st) as [[r2 s2] t2]
      end.
      simpl in *. destruct r2; simpl; try (intros [= <-]; done).
      intros [= <-] _. rewrite Hc2, Hen2. simpl.
      by rewrite lookup_insert_eq, Hen0.
    + intros [= <-] _. by rewrite lookup_insert_eq, Hen0.
Qed.

Lemma gh_build_cache (w : World) content s :
  gh_same_cache s (state_of (GitHubReadmeFetcher._build_rag_index w content s)).
Proof.
  unfold GitHubReadmeFetcher._build_rag_index, add_documents, gh_same_cache.
  unfold_monad. repeat (simpl; step); simpl; auto.
Qed.

Lemma gh_ensure_cache (w : World) content s :
  gh_same_cache s (state_of (GitHubReadmeFetcher._ensure_rag_ready w content s)).
Proof.
  unfold GitHubReadmeFetcher._ensure_rag_ready. unfold_monad.
  destruct (GitHubReadmeFetcher._building_index s); [by split|].
  pose proof (gh_build_cache w content
    (GitHubReadmeFetcher.set_building_index true s)) as H.
  unfold state_of in H.
  destruct (GitHubReadmeFetcher._build_rag_index w content _) as [[r s1] t1].
  simpl in *. destruct r; simpl; exact H.
Qed.

Lemma gh_client_cache (w : World) s :
  gh_same_cache s (state_of (GitHubReadmeFetcher._get_http_client w s)).
Proof.
  unfold GitHubReadmeFetcher._get_http_client, gh_same_cache. unfold_monad.
  repeat (simpl; step); simpl; auto.
Qed.

Lemma gh_fetch_hit (w : World) s cached :
  GitHubReadmeFetcher._cache_enabled s = true ->
  GitHubReadmeFetcher._cache s = Some cached ->
  GitHubReadmeFetcher.fetch_readme w true s = (Returns cached, s, []).
Proof.
  unfold GitHubReadmeFetcher.fetch_readme. unfold_monad. by intros -> ->.
Qed.

Lemma gh_fetch_caches (w : World) s c :
  GitHubReadmeFetcher._cache_enabled s = true ->
  result_of (GitHubReadmeFetcher.fetch_readme w true s) = Returns c ->
  c <> "" ->
  let s' := state_of (GitHubReadmeFetcher.fetch_readme w true s) in
  GitHubReadmeFetcher._cache_enabled s' = true /\
  GitHubReadmeFetcher._cache s' = Some c.
Proof.
  intros Hen. unfold GitHubReadmeFetcher.fetch_readme. unfold_monad. rewrite Hen. simpl.
  destruct (GitHubReadmeFetcher._cache s) as [cached|] eqn:Hc; simpl.
  - intros [= ->] _. by split.
  - pose proof (gh_client_cache w s) as [Hc0 Hen0]. unfold state_of in *.
    destruct (GitHubReadmeFetcher._get_http_client w s) as [[r0 s0] t0]. simpl in *.
    destruct r0 as [[client|]|e]; simpl; try (intros [= <-]; done).
    destruct (http_get w _ _) as [content|e]; simpl; try (intros [= <-]; done).
    rewrite Hen0, Hen. simpl.
    match goal with
    | |- context [if ?b then _ else _] => destruct b
    end; simpl.
    + match goal with
      | |- context [GitHubReadmeFetcher._ensure_rag_ready w ?c ?st] =>
          pose proof (gh_ensure_cache w c st) as [Hc2 Hen2];
          unfold state_of in *;
          destruct (GitHubReadmeFetcher._ensure_rag_ready w c st) as [[r2 s2] t2]
      end.
      simpl in *. destruct r2; simpl; try (intros [= <-]; done).
      intros [= <-] _. rewrite Hc2, Hen2. simpl. by rewrite Hen0.
    + intros [= <-] _. by rewrite Hen0.
Qed.

(** C5, as the code has it. With caching enabled, a fetch that finds text
    cached under the key returns it at once: no request, no other operation,
    no change of state, whatever the age of the entry. Hence, once a fetch
    has returned a non-empty text, the next fetch for the same key returns
    the identical text without any retrieval. *)
Theorem fetch_twice_cached (w : World) :
  (forall s topic tokens cached,
     Context7Search._cache_enabled s = true ->
     Context7Search._cache s !! Context7Search.cache_key topic tokens = Some cached ->
     Context7Search.fetch w topic tokens true s = (Returns cached, s, [])) /\
  (forall s topic tokens c,
     Context7Search._cache_enabled s = true ->
     let first := Context7Search.fetch w topic tokens true s in
     result_of first = Returns c -> c <> "" ->
     Context7Search.fetch w topic tokens true (state_of first)
     = (Returns c, state_of first, [])) /\
  (forall s cached,
     GitHubReadmeFetcher._cache_enabled s = true ->
     GitHubReadmeFetcher._cache s = Some cached ->
     GitHubReadmeFetcher.fetch_readme w true s = (Returns cached, s, [])) /\
  (forall s c,
     GitHubReadmeFetcher._cache_enabled s = true ->
     let first := GitHubReadmeFetcher.fetch_readme w true s in
     result_of first = Returns c -> c <> "" ->
     GitHubReadmeFetcher.fetch_readme w true (state_of first)
     = (Returns c, state_of first, [])).
Proof.
  split; [intros; by apply c7_fetch_hit|].
  split.
  { intros s topic tokens c Hen first Hres Hc.
    destruct (c7_fetch_caches w s topic tokens c Hen Hres Hc) as [Hen' Hc'].
    by apply c7_fetch_hit. }
  split; [intros; by apply gh_fetch_hit|].
  intros s c Hen first Hres Hc.
  destruct (gh_fetch_caches w s c Hen Hres Hc) as [Hen' Hc'].
  by apply gh_fetch_hit.
Qed.

(** a first fetch from the network and a second one from the cache *)
Lemma fetch_twice_cached_witness :
  let first := Context7Search.fetch Demo.online (Some "jail") 10000 true
                 Context7Search.__init__ in
  Context7Search._cache_enabled Context7Search.__init__ = true /\
  result_of first = Returns Demo.readme /\
  Demo.readme <> "" /\
  trace_of first
  = [HttpGet Context7Search.CONTEXT7_BASE_URL [("tokens", "10000"); ("topic", "jail")];
     RunBuild "jail"] /\
  Context7Search.fetch Demo.online (Some "jail") 10000 true (state_of first)
  = (Returns Demo.readme, state_of first, []).
Proof.
  intros first.
  assert (result_of first = Returns Demo.readme) as Hres by (vm_compute; reflexivity).
  assert (Demo.readme <> "") as Hne by (vm_compute; discriminate).
  destruct (fetch_twice_cached Demo.online) as (_ & Htwice & _).
  split; [reflexivity|]. split; [exact Hres|]. split; [exact Hne|].
  split; [vm_compute; reflexivity|].
  exact (Htwice Context7Search.__init__ (Some "jail") 10000 Demo.readme eq_refl Hres Hne).
Defined.

(** C5, as stated, fails. The documentation does not change and caching is
    enabled, but the index build that the first fetch starts raises: the
    first fetch returns the empty text, after it has cached the
    documentation, and the second returns the documentation. When the
    request itself fails nothing is cached, and the second fetch sends the
    request again. *)
Lemma fetch_twice_differs :
  let first := Context7Search.fetch Demo.broken_chunker None 10000 true
                 Context7Search.__init__ in
  let second := Context7Search.fetch Demo.broken_chunker None 10000 true
                  (state_of first) in
  let retry := Context7Search.fetch Demo.offline None 10000 true
                 (state_of (Context7Search.fetch Demo.offline None 10000 true
                              Context7Search.__init__)) in
  result_of first = Returns "" /\
  result_of second = Returns Demo.readme /\
  result_of first <> result_of second /\
  trace_of retry = [HttpGet Context7Search.CONTEXT7_BASE_URL [("tokens", "10000")]].
Proof.
  vm_compute. repeat split; try reflexivity. discriminate.
Qed.

(** ** Fetch failures *)

Lemma bind_get {S A} (k : S -> M S A) (s : S) : (s' ← get; k s') s = k s s.
Proof.
  unfold mbind, M_bind, bind, get. simpl.
  by destruct (k s s) as [[[a|e] s1] t1].
Qed.

(** a [try] whose handler returns does not raise *)
Lemma try_except_returns {S A} (m : M S A) (a : A) (s : S) :
  exists c, result_of (try_except m (fun _ => ret a) s) = Returns c.
Proof.
  unfold try_except, result_of, ret.
  destruct (m s) as [[[c|e] s1] t1]; simpl; by eexists.
Qed.

Lemma c7_fetch_returns (w : World) s topic tokens use_cache :
  exists c, result_of (Context7Search.fetch w topic tokens use_cache s) = Returns c.
Proof.
  unfold Context7Search.fetch. rewrite bind_get.
  destruct (if use_cache && _ then _ else _); [by eexists|].
  apply try_except_returns.
Qed.

Lemma c7_fetch_http_error (w : World) s topic tokens use_cache e :
  c7_cached s topic tokens use_cache = None ->
  http_get w Context7Search.CONTEXT7_BASE_URL (Context7Search.request_params topic tokens)
  = Raises e ->
  result_of (Context7Search.fetch w topic tokens use_cache s) = Returns "".
Proof.
  unfold c7_cached, Context7Search.fetch. unfold_monad. intros -> Hget.
  destruct (Context7Search._get_http_client w s) as [[[[client|]|e0] s0] t0]; simpl;
    try done.
  by rewrite Hget.
Qed.

Lemma c7_fetch_no_client (w : World) s topic tokens use_cache e :
  c7_cached s topic tokens use_cache = None ->
  no_session (Context7Search._http_client s) ->
  client_session w = Raises e ->
  Context7Search.fetch w topic tokens use_cache s = (Returns "", s, []).
Proof.
  unfold c7_cached, Context7Search.fetch, Context7Search._get_http_client, no_session.
  unfold_monad. intros -> Hno Hsess.
  destruct (Context7Search._http_client s) as [session|]; simpl.
  - rewrite Hno, Hsess. reflexivity.
  - rewrite Hsess. reflexivity.
Qed.

Lemma c7_search_empty (w : World) s query topic tokens max_results use_cache :
  result_of (Context7Search.fetch w topic tokens use_cache s) = Returns "" ->
  result_of (Context7Search.search w query topic tokens max_results use_cache s)
  = Returns [].
Proof.
  unfold Context7Search.search. unfold_monad. intros H.
  destruct (negb (Py.truthy query) || _); simpl; [done|].
  destruct (Context7Search.fetch w topic tokens use_cache s) as [[r s1] t1].
  simpl in H. subst r. reflexivity.
Qed.

Lemma gh_fetch_returns (w : World) s use_cache :
  exists c, result_of (GitHubReadmeFetcher.fetch_readme w use_cache s) = Returns c.
Proof.
  unfold GitHubReadmeFetcher.fetch_readme. rewrite bind_get.
  destruct (if use_cache && _ then _ else _); [by eexists|].
  apply try_except_returns.
Qed.

Lemma gh_fetch_http_error (w : World) s use_cache e :
  gh_cached s use_cache = None ->
  http_get w GitHubReadmeFetcher.GITHUB_README_URL [] = Raises e ->
  result_of (GitHubReadmeFetcher.fetch_readme w use_cache s) = Returns "".
Proof.
  unfold gh_cached, GitHubReadmeFetcher.fetch_readme. unfold_monad. intros -> Hget.
  destruct (GitHubReadmeFetcher._get_http_client w s) as [[[[client|]|e0] s0] t0]; simpl;
    try done.
  by rewrite Hget.
Qed.

Lemma gh_fetch_no_client (w : World) s use_cache e :
  gh_cached s use_cache = None ->
  no_session (GitHubReadmeFetcher._http_client s) ->
  client_session w = Raises e ->
  GitHubReadmeFetcher.fetch_readme w use_cache s = (Returns "", s, []).
Proof.
  unfold gh_cached, GitHubReadmeFetcher.fetch_readme,
    GitHubReadmeFetcher._get_http_client, no_session.
  unfold_monad. intros -> Hno Hsess.
  destruct (GitHubReadmeFetcher._http_client s) as [session|]; simpl.
  - rewrite Hno, Hsess. reflexivity.
  - rewrite Hsess. reflexivity.
Qed.

Lemma gh_search_empty (w : World) s query max_results :
  result_of (GitHubReadmeFetcher.fetch_readme w true s) = Returns "" ->
  result_of (GitHubReadmeFetcher.search w query max_results s) = Returns [].
Proof.
  unfold GitHubReadmeFetcher.search. unfold_monad. intros H.
  destruct (negb (Py.truthy query) || _); simpl; [done|].
  destruct (GitHubReadmeFetcher.fetch_readme w true s) as [[r s1] t1].
  simpl in H. subst r. reflexivity.
Qed.

(** C8. In both remote adapters a fetch never raises to its caller; when the
    request fails (an HTTP or network error) or no client session can be
    created, it returns the empty string; and a search whose fetch returned
    the empty string returns the empty list. *)
Theorem fetch_failure_is_empty (w : World) :
  (forall s topic tokens use_cache,
     exists c, result_of (Context7Search.fetch w topic tokens use_cache s) = Returns c) /\
  (forall s topic tokens use_cache e,
     c7_cached s topic tokens use_cache = None ->
     http_get w Context7Search.CONTEXT7_BASE_URL
       (Context7Search.request_params topic tokens) = Raises e ->
     result_of (Context7Search.fetch w topic tokens use_cache s) = Returns "") /\
  (forall s topic tokens use_cache e,
     c7_cached s topic tokens use_cache = None ->
     no_session (Context7Search._http_client s) ->
     client_session w = Raises e ->
     Context7Search.fetch w topic tokens use_cache s = (Returns "", s, [])) /\
  (forall s query topic tokens max_results use_cache,
     result_of (Context7Search.fetch w topic tokens use_cache s) = Returns "" ->
     result_of (Context7Search.search w query topic tokens max_results use_cache s)
     = Returns []) /\
  (forall s use_cache,
     exists c, result_of (GitHubReadmeFetcher.fetch_readme w use_cache s) = Returns c) /\
  (forall s use_cache e,
     gh_cached s use_cache = None ->
     http_get w GitHubReadmeFetcher.GITHUB_README_URL [] = Raises e ->
     result_of (GitHubReadmeFetcher.fetch_readme w use_cache s) = Returns "") /\
  (forall s use_cache e,
     gh_cached s use_cache = None ->
     no_session (GitHubReadmeFetcher._http_client s) ->
     client_session w = Raises e ->
     GitHubReadmeFetcher.fetch_readme w use_cache s = (Returns "", s, [])) /\
  (forall s query max_results,
     result_of (GitHubReadmeFetcher.fetch_readme w true s) = Returns "" ->
     result_of (GitHubReadmeFetcher.search w query max_results s) = Returns []).
Proof.
  split; [intros; apply c7_fetch_returns|].
  split; [intros; by eapply c7_fetch_http_error|].
  split; [intros; by eapply c7_fetch_no_client|].
  split; [intros; by apply c7_search_empty|].
  split; [intros; apply gh_fetch_returns|].
  split; [intros; by eapply gh_fetch_http_error|].
  split; [intros; by eapply gh_fetch_no_client|].
  intros; by apply gh_search_empty.
Qed.

(** a failed request, and a search on top of it *)
Lemma fetch_failure_is_empty_witness :
  c7_cached Context7Search.__init__ None 10000 true = None /\
  http_get Demo.offline Context7Search.CONTEXT7_BASE_URL
    (Context7Search.request_params None 10000)
  = Raises (ClientError "connection refused") /\
  result_of (Context7Search.fetch Demo.offline None 10000 true Context7Search.__init__)
  = Returns "" /\
  result_of (Context7Search.search Demo.offline "parole" None 10000 5 true
               Context7Search.__init__)
  = Returns [].
Proof.
  destruct (fetch_failure_is_empty Demo.offline) as (_ & Herr & _ & Hsearch & _).
  assert (result_of (Context7Search.fetch Demo.offline None 10000 true
                       Context7Search.__init__) = Returns "") as Hfetch.
  { apply (Herr _ None 10000 true (ClientError "connection refused")); reflexivity. }
  split; [reflexivity|]. split; [reflexivity|]. split; [exact Hfetch|].
  exact (Hsearch _ "parole" None 10000 5 true Hfetch).
Defined.

(** ** Short queries *)

Lemma c7_search_short (w : World) s query topic tokens max_results use_cache :
  Py.len (Py.strip query) < 2 ->
  Context7Search.search w query topic tokens max_results use_cache s = (Returns [], s, []).
Proof.
  intros H. unfold Context7Search.search.
  apply Z.ltb_lt in H. rewrite H, orb_true_r. reflexivity.
Qed.

Lemma kb_search_blank (w : World) s query max_results :
  Py.strip query = "" ->
  KnowledgeBase.search w query max_results s = (Returns [], s, []).
Proof.
  intros H. unfold KnowledgeBase.search. rewrite H. simpl.
  rewrite orb_true_r. reflexivity.
Qed.

Lemma gh_search_blank (w : World) s query max_results :
  Py.strip query = "" ->
  GitHubReadmeFetcher.search w query max_results s = (Returns [], s, []).
Proof.
  intros H. unfold GitHubReadmeFetcher.search. rewrite H. simpl.
  rewrite orb_true_r. reflexivity.
Qed.

Lemma knowledge_handler_short (w : World) s query :
  Py.len (Py.strip query) < 2 ->
  Bot.search_knowledge_handler w query s = (Returns Bot.too_short, s, []).
Proof.
  intros H. unfold Bot.search_knowledge_handler.
  apply Z.ltb_lt in H. rewrite H, orb_true_r. reflexivity.
Qed.

Lemma context7_handler_short (w : World) s query topic tokens :
  Py.len (Py.strip query) < 2 ->
  Bot.search_context7_handler w query topic tokens s = (Returns Bot.too_short, s, []).
Proof.
  intros H. unfold Bot.search_context7_handler.
  apply Z.ltb_lt in H. rewrite H, orb_true_r. reflexivity.
Qed.

Lemma readme_handler_short (w : World) s query use_cache :
  Py.len (Py.strip query) < 2 ->
  let fetched :=
    GitHubReadmeFetcher.fetch_readme w use_cache (Bot.github_readme_fetcher s) in
  exists c,
    result_of fetched = Returns c /\
    Bot.search_github_readme_handler w query use_cache s
    = (Returns (readme_overview c),
       Bot.set_github_readme_fetcher (state_of fetched) s, trace_of fetched).
Proof.
  intros H fetched.
  destruct (gh_fetch_returns w (Bot.github_readme_fetcher s) use_cache) as [c Hc].
  exists c. split; [exact Hc|].
  unfold Bot.search_github_readme_handler.
  apply Z.ltb_lt in H. rewrite H, orb_true_r.
  subst fetched. unfold_monad.
  destruct (GitHubReadmeFetcher.fetch_readme w use_cache _) as [[r s1] t1].
  simpl in *. subst r. unfold readme_overview.
  destruct (Py.truthy c); simpl; by rewrite app_nil_r.
Qed.

(** C3, as the code has it. [Context7Search.search] returns the empty list
    for every query whose trimmed length is below 2, and performs nothing: no
    fetch, no build, no scan, no change of state. [KnowledgeBase.search] and
    [GitHubReadmeFetcher.search] do so for the queries that are empty after
    trimming. The knowledge-base and Context7 handlers answer a query of
    trimmed length below 2 with the "at least 2 characters" error and call no
    adapter; the README handler fetches the README and answers with an
    overview. *)
Theorem short_query_handling (w : World) (query : string) :
  Py.len (Py.strip query) < 2 ->
  (forall s topic tokens max_results use_cache,
     Context7Search.search w query topic tokens max_results use_cache s
     = (Returns [], s, [])) /\
  (Py.strip query = "" ->
     (forall s max_results,
        KnowledgeBase.search w query max_results s = (Returns [], s, [])) /\
     (forall s max_results,
        GitHubReadmeFetcher.search w query max_results s = (Returns [], s, []))) /\
  (forall s, Bot.search_knowledge_handler w query s = (Returns Bot.too_short, s, [])) /\
  (forall s topic tokens,
     Bot.search_context7_handler w query topic tokens s = (Returns Bot.too_short, s, [])) /\
  (forall s use_cache,
     let fetched :=
       GitHubReadmeFetcher.fetch_readme w use_cache (Bot.github_readme_fetcher s) in
     exists c,
       result_of fetched = Returns c /\
       Bot.search_github_readme_handler w query use_cache s
       = (Returns (readme_overview c),
          Bot.set_github_readme_fetcher (state_of fetched) s, trace_of fetched)).
Proof.
  intros H.
  split; [intros; by apply c7_search_short|].
  split.
  { intros Hb. split; intros; [by apply kb_search_blank|by apply gh_search_blank]. }
  split; [intros; by apply knowledge_handler_short|].
  split; [intros; by apply context7_handler_short|].
  intros; by apply readme_handler_short.
Qed.

(** a query of one space *)
Lemma short_query_handling_witness :
  Py.len (Py.strip " ") < 2 /\ Py.strip " " = "" /\
  Context7Search.search Demo.online " " None 10000 5 true Context7Search.__init__
  = (Returns [], Context7Search.__init__, []) /\
  KnowledgeBase.search Demo.online " " 5 Demo.kb_a = (Returns [], Demo.kb_a, []) /\
  GitHubReadmeFetcher.search Demo.online " " 5 GitHubReadmeFetcher.__init__
  = (Returns [], GitHubReadmeFetcher.__init__, []).
Proof.
  assert (Py.len (Py.strip " ") < 2) as Hshort by (vm_compute; reflexivity).
  assert (Py.strip " " = "") as Hblank by reflexivity.
  destruct (short_query_handling Demo.online " " Hshort) as (Hc7 & Hrest & _).
  destruct (Hrest Hblank) as (Hkb & Hgh).
  split; [exact Hshort|]. split; [exact Hblank|].
  split; [apply Hc7|]. split; [apply Hkb|apply Hgh].
Defined.

(** C3, as stated, fails. The query ["a"] has one character. The knowledge
    base scans its documents for it and returns a result; the README adapter
    sends the request, builds the index and searches it; and the README
    handler fetches the README instead of reporting an error. *)
Lemma one_character_query_is_searched :
  Py.len (Py.strip "a") = 1 /\
  (exists r, KnowledgeBase.search Demo.online "a" 5 Demo.kb_a
             = (Returns [r], Demo.kb_a, [KeywordScan "a"])) /\
  (exists r, result_of (GitHubReadmeFetcher.search Demo.online "a" 5
                          GitHubReadmeFetcher.__init__) = Returns [r]) /\
  trace_of (GitHubReadmeFetcher.search Demo.online "a" 5 GitHubReadmeFetcher.__init__)
  = [HttpGet GitHubReadmeFetcher.GITHUB_README_URL [];
     RunBuild GitHubReadmeFetcher.build_key;
     RunBuild GitHubReadmeFetcher.build_key;
     RagSearch "a"] /\
  (let s := {| Bot.knowledge_base := Demo.kb_a;
               Bot.context7_search := Context7Search.__init__;
               Bot.github_readme_fetcher := GitHubReadmeFetcher.__init__ |} in
   let run := Bot.search_github_readme_handler Demo.online "a" true s in
   result_of run <> Returns Bot.too_short /\
   trace_of run
   = [HttpGet GitHubReadmeFetcher.GITHUB_README_URL [];
      RunBuild GitHubReadmeFetcher.build_key]).
Proof.
  split; [reflexivity|].
  split; [eexists; vm_compute; reflexivity|].
  split; [eexists; vm_compute; reflexivity|].
  split; [vm_compute; reflexivity|].
  split; [vm_compute; discriminate|vm_compute; reflexivity].
Qed.

(** ** An index build without dense embeddings *)

Lemma c7_build_no_dense (w : World) s content topic_key :
  content <> "" ->
  no_dense_for w content (c7_metadata topic_key) ->
  Context7Search._build_rag_index w content topic_key s = (Returns tt, s, []).
Proof.
  intros Hne (c & chunks & emb & Hchunk & Henc & Hdense).
  unfold Context7Search._build_rag_index. unfold_monad.
  destruct content; [done|]. simpl.
  fold (c7_metadata topic_key). rewrite Hchunk. simpl in *.
  rewrite Henc. simpl. by rewrite Hdense.
Qed.

Lemma gh_build_no_dense (w : World) s content :
  content <> "" ->
  no_dense_for w content gh_metadata ->
  GitHubReadmeFetcher._build_rag_index w content s = (Returns tt, s, []).
Proof.
  intros Hne (c & chunks & emb & Hchunk & Henc & Hdense).
  unfold GitHubReadmeFetcher._build_rag_index. unfold_monad.
  destruct content; [done|]. simpl.
  fold gh_metadata. rewrite Hchunk. simpl in *.
  rewrite Henc. simpl. by rewrite Hdense.
Qed.

Lemma kb_for_each_chunks (w : World) (docs : list KnowledgeBase.Doc)
  (acc : list DocumentChunk) (s : KnowledgeBase.t) :
  for_each docs acc (fun chunks doc =>
    let metadata : gmap string string :=
      {[ "path" := KnowledgeBase.path doc; "type" := KnowledgeBase.type doc ]} in
    doc_chunks ← call (chunk_document w (KnowledgeBase.content doc) metadata);
    ret (chunks ++ doc_chunks)) s
  = (match kb_chunks w docs with
     | Returns more => Returns (acc ++ more)
     | Raises e => Raises e
     end, s, []).
Proof.
  revert acc. induction docs as [|doc rest IH]; intros acc; simpl.
  - by rewrite app_nil_r.
  - unfold_monad. destruct (chunk_document w _ _) as [doc_chunks|e]; simpl; [|done].
    rewrite IH. destruct (kb_chunks w rest); simpl; [|done].
    by rewrite (assoc_L (++)).
Qed.

Lemma kb_collect_chunks (w : World) (docs : list KnowledgeBase.Doc) (s : KnowledgeBase.t) :
  KnowledgeBase.collect_chunks w docs s = (kb_chunks w docs, s, []).
Proof.
  unfold KnowledgeBase.collect_chunks. rewrite kb_for_each_chunks.
  by destruct (kb_chunks w docs).
Qed.

Lemma kb_build_no_dense (w : World) s :
  KnowledgeBase._rag_ready s = false ->
  KnowledgeBase.use_embeddings s = true ->
  kb_no_dense w (KnowledgeBase.index s) ->
  KnowledgeBase._build_rag_index w s
  = (Returns tt, KnowledgeBase.set_use_embeddings false s, []).
Proof.
  intros Hr Hu (c & chunks & emb & Hchunk & Henc & Hdense).
  unfold KnowledgeBase._build_rag_index. rewrite bind_get, Hr, Hu. simpl.
  unfold mbind, M_bind, bind at 1. rewrite kb_collect_chunks, Hchunk.
  unfold_monad. simpl in *. rewrite Henc. simpl. by rewrite Hdense.
Qed.

Lemma strip_nonempty query : 2 <= Py.len (Py.strip query) -> Py.truthy query = true.
Proof.
  destruct query; [|done].
  intros H. change (Py.len (Py.strip "")) with 0 in H. lia.
Qed.

Lemma bind_returns {S A B} (m : M S A) (k : A -> M S B) s a s1 t1 :
  m s = (Returns a, s1, t1) ->
  (x ← m; k x) s = (result_of (k a s1), state_of (k a s1), t1 ++ trace_of (k a s1)).
Proof.
  intros H. unfold mbind, M_bind, bind, result_of, state_of, trace_of. rewrite H.
  by destruct (k a s1) as [[r s2] t2].
Qed.

Lemma c7_ensure_no_dense (w : World) s content topic_key :
  c7_building s topic_key = false ->
  content <> "" ->
  no_dense_for w content (c7_metadata topic_key) ->
  Context7Search._ensure_rag_ready w content topic_key s
  = (Returns tt,
     Context7Search.set_building_index
       (<[ topic_key := false ]> (Context7Search._building_index s)) s,
     [RunBuild topic_key]).
Proof.
  intros Hb Hne Hnd. unfold c7_building in Hb.
  unfold Context7Search._ensure_rag_ready. unfold_monad. rewrite Hb.
  rewrite (c7_build_no_dense w _ content topic_key Hne Hnd). simpl.
  by rewrite insert_insert_eq.
Qed.

Lemma c7_search_no_dense (w : World) s query topic tokens max_results content :
  2 <= Py.len (Py.strip query) ->
  Context7Search._cache_enabled s = true ->
  Context7Search._cache s !! Context7Search.cache_key topic tokens = Some content ->
  content <> "" ->
  c7_building s (Context7Search.topic_or_default topic) = false ->
  Context7Search.index_ready s (Context7Search.topic_or_default topic) = false ->
  no_dense_for w content (c7_metadata (Context7Search.topic_or_default topic)) ->
  Context7Search.search w query topic tokens max_results true s
  = (Returns (Context7Search._search_keyword query content max_results),
     Context7Search.set_building_index
       (<[ Context7Search.topic_or_default topic := false ]>
          (Context7Search._building_index s)) s,
     [RunBuild (Context7Search.topic_or_default topic); KeywordScan query]).
Proof.
  intros Hq Hen Hc Hne Hb Hr Hnd.
  unfold Context7Search.search.
  rewrite (strip_nonempty _ Hq). apply Z.ltb_ge in Hq. rewrite Hq.
  change (negb true || false) with false. cbv iota.
  rewrite (bind_returns _ _ _ _ _ _ (c7_fetch_hit w s topic tokens content Hen Hc)).
  assert (Py.truthy content = true) as -> by (by destruct content).
  change (negb true) with false. cbv iota.
  rewrite (bind_returns _ _ _ _ _ _ (c7_ensure_no_dense w s _ _ Hb Hne Hnd)).
  rewrite bind_get.
  assert (Context7Search.index_ready
            (Context7Search.set_building_index
               (<[Context7Search.topic_or_default topic:=false]>
                  (Context7Search._building_index s)) s)
            (Context7Search.topic_or_default topic) = false) as Hr' by exact Hr.
  rewrite Hr'. change (negb false) with true. cbv iota.
  reflexivity.
Qed.

Lemma strip_truthy query :
  Py.strip query <> "" ->
  negb (Py.truthy query) || negb (Py.truthy (Py.strip query)) = false.
Proof.
  intros H. destruct query; [done|].
  destruct (Py.strip (String a query)); [done|reflexivity].
Qed.

Lemma gh_ensure_no_dense (w : World) s content :
  GitHubReadmeFetcher._building_index s = false ->
  content <> "" ->
  no_dense_for w content gh_metadata ->
  GitHubReadmeFetcher._ensure_rag_ready w content s
  = (Returns tt, GitHubReadmeFetcher.set_building_index false s,
     [RunBuild GitHubReadmeFetcher.build_key]).
Proof.
  intros Hb Hne Hnd.
  unfold GitHubReadmeFetcher._ensure_rag_ready. unfold_monad. rewrite Hb.
  by rewrite (gh_build_no_dense w _ content Hne Hnd).
Qed.

Lemma gh_search_no_dense (w : World) s query max_results content :
  Py.strip query <> "" ->
  GitHubReadmeFetcher._cache_enabled s = true ->
  GitHubReadmeFetcher._cache s = Some content ->
  content <> "" ->
  GitHubReadmeFetcher._building_index s = false ->
  GitHubReadmeFetcher._rag_ready s = false ->
  no_dense_for w content gh_metadata ->
  GitHubReadmeFetcher.search w query max_results s
  = (Returns (GitHubReadmeFetcher._search_keyword query content max_results),
     GitHubReadmeFetcher.set_building_index false s,
     [RunBuild GitHubReadmeFetcher.build_key; KeywordScan query]).
Proof.
  intros Hq Hen Hc Hne Hb Hr Hnd.
  unfold GitHubReadmeFetcher.search.
  rewrite (strip_truthy _ Hq). cbv iota.
  rewrite (bind_returns _ _ _ _ _ _ (gh_fetch_hit w s content Hen Hc)).
  assert (Py.truthy content = true) as -> by (by destruct content).
  change (negb true) with false. cbv iota.
  rewrite (bind_returns _ _ _ _ _ _ (gh_ensure_no_dense w s _ Hb Hne Hnd)).
  rewrite bind_get.
  assert (GitHubReadmeFetcher._rag_ready
            (GitHubReadmeFetcher.set_building_index false s) = false) as -> by exact Hr.
  change (negb false || _) with true. cbv iota.
  reflexivity.
Qed.

Lemma kb_search_disabled (w : World) s query max_results :
  KnowledgeBase.use_embeddings s = false ->
  KnowledgeBase._initialized s = true ->
  Py.strip query <> "" ->
  KnowledgeBase.index s <> [] ->
  KnowledgeBase.search w query max_results s
  = (Returns (KnowledgeBase._search_keyword (KnowledgeBase.index s) query max_results),
     s, [KeywordScan query]).
Proof.
  intros Hu Hi Hq Hidx.
  unfold KnowledgeBase.search.
  rewrite (strip_truthy _ Hq). cbv iota.
  rewrite bind_get, Hi. change (negb true) with false. cbv iota.
  rewrite (bind_returns _ _ s tt s [] eq_refl).
  rewrite bind_get.
  destruct (KnowledgeBase.index s) as [|doc docs] eqn:Hdocs; [done|].
  rewrite Hu. change (negb false) with true. cbv iota.
  unfold KnowledgeBase.keyword_fallback. rewrite bind_get.
  unfold_monad. simpl. by rewrite Hdocs.
Qed.

Lemma kb_search_no_dense (w : World) s query max_results :
  KnowledgeBase.use_embeddings s = true ->
  KnowledgeBase._initialized s = true ->
  KnowledgeBase._rag_ready s = false ->
  KnowledgeBase._building_index s = false ->
  Py.strip query <> "" ->
  kb_no_dense w (KnowledgeBase.index s) ->
  KnowledgeBase.search w query max_results s
  = (Returns (KnowledgeBase._search_keyword (KnowledgeBase.index s) query max_results),
     KnowledgeBase.set_building_index false (KnowledgeBase.set_use_embeddings false s),
     [RunBuild KnowledgeBase.build_key; KeywordScan query]).
Proof.
  intros Hu Hi Hr Hb Hq Hnd.
  assert (KnowledgeBase.index s <> []) as Hidx.
  { destruct Hnd as (c & chunks & emb & Hch & _). intros E. rewrite E in Hch. done. }
  unfold KnowledgeBase.search.
  rewrite (strip_truthy _ Hq). cbv iota.
  rewrite bind_get, Hi. change (negb true) with false. cbv iota.
  rewrite (bind_returns _ _ s tt s [] eq_refl).
  rewrite bind_get.
  destruct (KnowledgeBase.index s) as [|doc docs] eqn:Hdocs; [done|].
  rewrite Hu. change (negb true) with false. cbv iota.
  assert (KnowledgeBase._ensure_rag_ready w s
          = (Returns tt,
             KnowledgeBase.set_building_index false
               (KnowledgeBase.set_use_embeddings false s),
             [RunBuild KnowledgeBase.build_key])) as Hens.
  { unfold KnowledgeBase._ensure_rag_ready. rewrite bind_get, Hu, Hr, Hb, Hdocs.
    simpl negb. cbv iota. unfold_monad. simpl.
    rewrite (kb_build_no_dense w (KnowledgeBase.set_building_index true s)); [done..|].
    simpl. by rewrite Hdocs. }
  rewrite (bind_returns _ _ _ _ _ _ Hens).
  rewrite bind_get.
  assert (KnowledgeBase._rag_ready
            (KnowledgeBase.set_building_index false
               (KnowledgeBase.set_use_embeddings false s)) = false) as -> by exact Hr.
  change (negb false || _) with true. cbv iota.
  unfold KnowledgeBase.keyword_fallback. rewrite bind_get.
  unfold_monad. simpl. by rewrite Hdocs.
Qed.

(** What an abandoned build does, with its conditions written out. When the
    encoder gives no dense embeddings for the text, the index build of a
    remote adapter returns without touching the adapter, whatever the state
    of the index. When, in addition, the index is not ready, the text is
    cached and no build is in flight, the search of this text, whose own
    build is abandoned in the same way, returns the keyword results and does
    not raise. In the knowledge base the abandoned build switches
    [use_embeddings] off; the search in which this happens returns the keyword
    results, and from then on every search, whatever the collaborators do,
    goes to the keyword scan without a build and leaves the adapter as it is. *)
Lemma no_dense_embeddings_fallback (w : World) :
  (forall s content key,
     content <> "" -> no_dense_for w content (c7_metadata key) ->
     Context7Search._build_rag_index w content key s = (Returns tt, s, [])) /\
  (forall s query topic tokens max_results content,
     2 <= Py.len (Py.strip query) ->
     Context7Search._cache_enabled s = true ->
     Context7Search._cache s !! Context7Search.cache_key topic tokens = Some content ->
     content <> "" ->
     c7_building s (Context7Search.topic_or_default topic) = false ->
     Context7Search.index_ready s (Context7Search.topic_or_default topic) = false ->
     no_dense_for w content (c7_metadata (Context7Search.topic_or_default topic)) ->
     Context7Search.search w query topic tokens max_results true s
     = (Returns (Context7Search._search_keyword query content max_results),
        Context7Search.set_building_index
          (<[ Context7Search.topic_or_default topic := false ]>
             (Context7Search._building_index s)) s,
        [RunBuild (Context7Search.topic_or_default topic); KeywordScan query])) /\
  (forall s content,
     content <> "" -> no_dense_for w content gh_metadata ->
     GitHubReadmeFetcher._build_rag_index w content s = (Returns tt, s, [])) /\
  (forall s query max_results content,
     Py.strip query <> "" ->
     GitHubReadmeFetcher._cache_enabled s = true ->
     GitHubReadmeFetcher._cache s = Some content ->
     content <> "" ->
     GitHubReadmeFetcher._building_index s = false ->
     GitHubReadmeFetcher._rag_ready s = false ->
     no_dense_for w content gh_metadata ->
     GitHubReadmeFetcher.search w query max_results s
     = (Returns (GitHubReadmeFetcher._search_keyword query content max_results),
        GitHubReadmeFetcher.set_building_index false s,
        [RunBuild GitHubReadmeFetcher.build_key; KeywordScan query])) /\
  (forall s,
     KnowledgeBase._rag_ready s = false ->
     KnowledgeBase.use_embeddings s = true ->
     kb_no_dense w (KnowledgeBase.index s) ->
     KnowledgeBase._build_rag_index w s
     = (Returns tt, KnowledgeBase.set_use_embeddings false s, [])) /\
  (forall s query max_results,
     KnowledgeBase.use_embeddings s = true ->
     KnowledgeBase._initialized s = true ->
     KnowledgeBase._rag_ready s = false ->
     KnowledgeBase._building_index s = false ->
     Py.strip query <> "" ->
     kb_no_dense w (KnowledgeBase.index s) ->
     KnowledgeBase.search w query max_results s
     = (Returns (KnowledgeBase._search_keyword (KnowledgeBase.index s) query max_results),
        KnowledgeBase.set_building_index false (KnowledgeBase.set_use_embeddings false s),
        [RunBuild KnowledgeBase.build_key; KeywordScan query])) /\
  (forall w' s query max_results,
     KnowledgeBase.use_embeddings s = false ->
     KnowledgeBase._initialized s = true ->
     Py.strip query <> "" ->
     KnowledgeBase.index s <> [] ->
     KnowledgeBase.search w' query max_results s
     = (Returns (KnowledgeBase._search_keyword (KnowledgeBase.index s) query max_results),
        s, [KeywordScan query])).
Proof.
  split; [intros; by apply c7_build_no_dense|].
  split; [intros; by apply c7_search_no_dense|].
  split; [intros; by apply gh_build_no_dense|].
  split; [intros; by apply gh_search_no_dense|].
  split; [intros; by apply kb_build_no_dense|].
  split; [intros; by apply kb_search_no_dense|].
  intros; by apply kb_search_disabled.
Qed.

(** a search of the documentation, and two searches of the knowledge base,
    with an encoder that gives no dense embeddings *)
Lemma no_dense_embeddings_fallback_example :
  (exists r,
     Context7Search.index_ready Demo.context7_no_index "default" = false /\
     result_of (Context7Search.search Demo.no_dense "parole" None 10000 5 true
                  Demo.context7_no_index) = Returns [r] /\
     sr_path r = "Context7") /\
  (let first := KnowledgeBase.search Demo.no_dense "parole" 5 Demo.kb_unbuilt in
   exists r,
     result_of first = Returns [r] /\
     KnowledgeBase.use_embeddings (state_of first) = false /\
     KnowledgeBase.search Demo.online "parole" 5 (state_of first)
     = (Returns [r], state_of first, [KeywordScan "parole"])).
Proof.
  destruct (no_dense_embeddings_fallback Demo.no_dense)
    as (_ & Hc7 & _ & _ & _ & Hkb & Hoff).
  split.
  - eexists. split; [vm_compute; reflexivity|].
    rewrite (Hc7 Demo.context7_no_index "parole" None 10000 5 Demo.readme).
    + split; vm_compute; reflexivity.
    + vm_compute. discriminate.
    + vm_compute. reflexivity.
    + vm_compute. reflexivity.
    + vm_compute. discriminate.
    + vm_compute. reflexivity.
    + vm_compute. reflexivity.
    + eexists _, _, _. repeat split; reflexivity.
  - intros first.
    assert (kb_no_dense Demo.no_dense (KnowledgeBase.index Demo.kb_unbuilt)) as Hnd.
    { eexists _, _, _. repeat split; reflexivity. }
    assert (Py.strip "parole" <> "") as Hq by (vm_compute; discriminate).
    pose proof (Hkb Demo.kb_unbuilt "parole" 5 eq_refl eq_refl eq_refl eq_refl Hq Hnd)
      as Hfirst.
    subst first. rewrite Hfirst. unfold result_of, state_of. simpl fst. simpl snd.
    eexists. split; [vm_compute; reflexivity|]. split; [reflexivity|].
    rewrite (Hoff Demo.online
               (KnowledgeBase.set_building_index false
                  (KnowledgeBase.set_use_embeddings false Demo.kb_unbuilt))
               "parole" 5 eq_refl eq_refl Hq).
    + vm_compute. reflexivity.
    + vm_compute. discriminate.
Defined.

(** C7, on the code. The README adapter holds a ready index of the README;
    the README changes, and the build on the new text gets no dense
    embeddings. The build returns and changes nothing, so the index is still
    marked ready although it is the index of the old text: the adapter does not
    report not-ready, and the search that follows does not fall back to the
    keyword scan of the new text but queries the index of the old text and
    returns the old text as its result. *)
Theorem no_dense_leaves_old_index_ready :
  let bail := "Bail can be paid at the front desk." in
  let ready :=
    state_of (GitHubReadmeFetcher.search Demo.online "parole" 5
                GitHubReadmeFetcher.__init__) in
  GitHubReadmeFetcher._rag_ready ready = true /\
  encode_documents Demo.changed_no_dense [bail] = Returns {| dense := None; sparse := None |} /\
  GitHubReadmeFetcher._build_rag_index Demo.changed_no_dense bail ready
  = (Returns tt, ready, []) /\
  GitHubReadmeFetcher._cache Demo.github_stale = Some bail /\
  GitHubReadmeFetcher._rag_ready Demo.github_stale = true /\
  trace_of (GitHubReadmeFetcher.search Demo.changed_no_dense "parole" 5 Demo.github_stale)
  = [RunBuild GitHubReadmeFetcher.build_key; RagSearch "parole"] /\
  exists r,
    result_of (GitHubReadmeFetcher.search Demo.changed_no_dense "parole" 5
                 Demo.github_stale) = Returns [r] /\
    sr_full_content r = Demo.readme.
Proof.
  repeat split; try (vm_compute; reflexivity).
  eexists. split; vm_compute; reflexivity.
Qed.

(** ** Rebuilds *)

(** the guard of [KnowledgeBase._ensure_rag_ready]: nothing is built when the
    index is ready *)
Lemma kb_ensure_ready_noop (w : World) s :
  KnowledgeBase._rag_ready s = true ->
  KnowledgeBase._ensure_rag_ready w s = (Returns tt, s, []).
Proof.
  unfold KnowledgeBase._ensure_rag_ready. unfold_monad. intros ->.
  by rewrite orb_true_r.
Qed.

(** the trace of a sequence starts with the trace of its first part *)
Lemma bind_trace {S A B} (m : M S A) (k : A -> M S B) (s : S) :
  exists rest, trace_of ((x ← m; k x) s) = trace_of (m s) ++ rest.
Proof.
  unfold mbind, M_bind, bind, trace_of.
  destruct (m s) as [[[a|e] s1] t1]; simpl.
  - destruct (k a s1) as [[r s2] t2]. by exists t2.
  - exists []. by rewrite app_nil_r.
Qed.

(** In [GitHubReadmeFetcher], whenever the text is cached and no build is in
    flight, a search hands a build to the executor, whether or not the index
    is ready. *)
Lemma gh_search_always_builds (w : World) s query max_results content :
  Py.strip query <> "" ->
  GitHubReadmeFetcher._cache_enabled s = true ->
  GitHubReadmeFetcher._cache s = Some content ->
  content <> "" ->
  GitHubReadmeFetcher._building_index s = false ->
  exists rest,
    trace_of (GitHubReadmeFetcher.search w query max_results s)
    = RunBuild GitHubReadmeFetcher.build_key :: rest.
Proof.
  intros Hq Hen Hc Hne Hb.
  unfold GitHubReadmeFetcher.search.
  rewrite (strip_truthy _ Hq). cbv iota.
  rewrite (bind_returns _ _ _ _ _ _ (gh_fetch_hit w s content Hen Hc)).
  assert (Py.truthy content = true) as -> by (by destruct content).
  change (negb true) with false. cbv iota.
  unfold trace_of at 1. simpl snd.
  match goal with
  | |- context [trace_of ((?m ≫= ?k) s)] => destruct (bind_trace m k s) as [rest ->]
  end.
  destruct (gh_ensure_clears w s content Hb) as (_ & _ & ->).
  simpl. by eexists.
Qed.

(** In [Context7Search], whenever the text is cached and no build is in
    flight for the topic, a search hands a build to the executor, whether or
    not the index of the topic is ready. *)
Lemma c7_search_always_builds (w : World) s query topic tokens max_results content :
  2 <= Py.len (Py.strip query) ->
  Context7Search._cache_enabled s = true ->
  Context7Search._cache s !! Context7Search.cache_key topic tokens = Some content ->
  content <> "" ->
  c7_building s (Context7Search.topic_or_default topic) = false ->
  exists rest,
    trace_of (Context7Search.search w query topic tokens max_results true s)
    = RunBuild (Context7Search.topic_or_default topic) :: rest.
Proof.
  intros Hq Hen Hc Hne Hb.
  unfold Context7Search.search.
  rewrite (strip_nonempty _ Hq). apply Z.ltb_ge in Hq. rewrite Hq.
  change (negb true || false) with false. cbv iota.
  rewrite (bind_returns _ _ _ _ _ _ (c7_fetch_hit w s topic tokens content Hen Hc)).
  assert (Py.truthy content = true) as -> by (by destruct content).
  change (negb true) with false. cbv iota.
  unfold trace_of at 1. simpl snd.
  match goal with
  | |- context [trace_of ((?m ≫= ?k) s)] => destruct (bind_trace m k s) as [rest ->]
  end.
  destruct (c7_ensure_clears w s content _ Hb) as (_ & _ & ->).
  simpl. by eexists.
Qed.

(** C1, on the code. In both remote adapters the text is cached, the index
    is ready, and a second fetch returns the cached text without a request;
    yet the search that follows hands a build to the executor. In
    [Context7Search], where one index serves every token budget of a topic,
    this rebuild replaces the index of the topic by a different one. The
    knowledge base, in the same situation, builds nothing. *)
Theorem search_rebuilds_ready_index :
  (GitHubReadmeFetcher._rag_ready Demo.github_ready = true /\
   GitHubReadmeFetcher.fetch_readme Demo.online true Demo.github_ready
   = (Returns Demo.readme, Demo.github_ready, []) /\
   trace_of (GitHubReadmeFetcher.search Demo.online "parole" 5 Demo.github_ready)
   = [RunBuild GitHubReadmeFetcher.build_key; RagSearch "parole"]) /\
  (Context7Search.index_ready Demo.context7_ready "jail" = true /\
   Context7Search.fetch Demo.online (Some "jail") 10000 true Demo.context7_ready
   = (Returns Demo.readme, Demo.context7_ready, []) /\
   trace_of (Context7Search.search Demo.online "parole" (Some "jail") 10000 5 true
               Demo.context7_ready)
   = [RunBuild "jail"; RagSearch "parole"]) /\
  (Context7Search.index_ready Demo.context7_two_budgets "jail" = true /\
   Context7Search.fetch Demo.per_budget (Some "jail") 100 true Demo.context7_two_budgets
   = (Returns "Jail time is served in a cell.", Demo.context7_two_budgets, []) /\
   Context7Search._rag_indices
     (state_of (Context7Search.search Demo.per_budget "jail" (Some "jail") 100 5 true
                  Demo.context7_two_budgets))
   <> Context7Search._rag_indices Demo.context7_two_budgets) /\
  (KnowledgeBase._rag_ready Demo.kb_ready = true /\
   trace_of (KnowledgeBase.search Demo.online "parole" 5 Demo.kb_ready)
   = [RagSearch "parole"]).
Proof.
  split; [|split; [|split]].
  - split; [vm_compute; reflexivity|]. split; vm_compute; reflexivity.
  - split; [vm_compute; reflexivity|]. split; vm_compute; reflexivity.
  - split; [vm_compute; reflexivity|]. split; [vm_compute; reflexivity|].
    intros H.
    assert (Context7Search.chunks <$>
              Context7Search._rag_indices
                (state_of (Context7Search.search Demo.per_budget "jail" (Some "jail")
                             100 5 true Demo.context7_two_budgets)) !! "jail"
            = Context7Search.chunks <$>
              Context7Search._rag_indices Demo.context7_two_budgets !! "jail") as Hc
      by (by rewrite H).
    vm_compute in Hc. discriminate Hc.
  - split; vm_compute; reflexivity.
Qed.

(** ** Keyword search of the knowledge base *)

Section KeywordRanking.
Import KnowledgeBase KeywordSpec.





End KeywordRanking.




(** * Further properties of the adapters *)

(** ** Invariants of monadic code *)

Section Preserves.
Context {S : Type} (I : S -> Prop).

Lemma preserves_ret {A} (a : A) : preserves I (mret a : M S A).
Proof. intros s Hs. exact Hs. Qed.

Lemma preserves_get : preserves I (get : M S S).
Proof. intros s Hs. exact Hs. Qed.

Lemma preserves_emit e : preserves I (emit e : M S unit).
Proof. intros s Hs. exact Hs. Qed.

Lemma preserves_call {A} (o : outcome A) : preserves I (call o : M S A).
Proof. intros s Hs. exact Hs. Qed.

Lemma preserves_modify (f : S -> S) :
  (forall s, I s -> I (f s)) -> preserves I (modify f).
Proof. intros Hf s Hs. by apply Hf. Qed.

Lemma preserves_bind {A B} (m : M S A) (k : A -> M S B) :
  preserves I m -> (forall a, preserves I (k a)) -> preserves I (x ← m; k x).
Proof.
  intros Hm Hk s Hs. specialize (Hm s Hs).
  unfold mbind, M_bind, bind, state_of in *.
  destruct (m s) as [[[a|e] s1] t1]; simpl in *; [|exact Hm].
  specialize (Hk a s1 Hm). unfold state_of in Hk.
  by destruct (k a s1) as [[r s2] t2].
Qed.

Lemma preserves_try_except {A} (m : M S A) (h : exn -> M S A) :
  preserves I m -> (forall e, preserves I (h e)) -> preserves I (try_except m h).
Proof.
  intros Hm Hh s Hs. specialize (Hm s Hs).
  unfold try_except, state_of in *.
  destruct (m s) as [[[a|e] s1] t1]; simpl in *; [exact Hm|].
  specialize (Hh e s1 Hm). unfold state_of in Hh.
  by destruct (h e s1) as [[r s2] t2].
Qed.

Lemma preserves_try_finally {A} (m : M S A) (fin : M S unit) :
  preserves I m -> preserves I fin -> preserves I (try_finally m fin).
Proof.
  intros Hm Hf s Hs. specialize (Hm s Hs).
  unfold try_finally, state_of in *.
  destruct (m s) as [[r s1] t1]; simpl in *.
  specialize (Hf s1 Hm). unfold state_of in Hf.
  by destruct (fin s1) as [[[u|e] s2] t2].
Qed.

Lemma preserves_for_each {A B} (l : list A) (acc : B) (body : B -> A -> M S B) :
  (forall acc x, preserves I (body acc x)) -> preserves I (for_each l acc body).
Proof.
  intros Hb. revert acc. induction l as [|x t IH]; intros acc; simpl.
  - apply (preserves_ret acc).
  - apply preserves_bind; [apply Hb|apply IH].
Qed.

End Preserves.

(** a method of a component keeps what the update of the component keeps *)
Lemma preserves_zoom {S T A} (I : S -> Prop) (proj : S -> T) (upd : T -> S -> S)
  (m : M T A) :
  (forall t s, I s -> I (upd t s)) -> preserves I (zoom proj upd m).
Proof.
  intros Hu s Hs. unfold zoom, state_of.
  destruct (m (proj s)) as [[r t'] tr]. simpl. by apply Hu.
Qed.

Ltac preserve_step :=
  lazymatch goal with
  | |- preserves _ (mret _) => apply preserves_ret
  | |- preserves _ (ret _) => apply preserves_ret
  | |- preserves _ get => apply preserves_get
  | |- preserves _ (emit _) => apply preserves_emit
  | |- preserves _ (call _) => apply preserves_call
  | |- preserves _ (modify _) => apply preserves_modify; intros ? ?
  | |- preserves _ (mbind _ _) => apply preserves_bind; [|intros ?]
  | |- preserves _ (try_except _ _) => apply preserves_try_except; [|intros ?]
  | |- preserves _ (try_finally _ _) => apply preserves_try_finally
  | |- preserves _ (for_each _ _ _) => apply preserves_for_each; intros ? ?
  | |- preserves _ (match ?x with _ => _ end) => destruct x
  | |- preserves _ (let _ := _ in _) => cbv zeta
  end.

(** ** What the methods of the knowledge base keep *)

Section KnowledgeBaseInvariants.
Import KnowledgeBase.
Context (w : World) (I : KnowledgeBase.t -> Prop).

Hypothesis keeps_use_embeddings : forall s, I s -> I (set_use_embeddings false s).
Hypothesis keeps_search_engine : forall e s, I s -> I (set_search_engine e s).
Hypothesis keeps_chunks : forall c s, I s -> I (set_chunks c s).
Hypothesis keeps_rag_ready : forall s, I s -> I (set_rag_ready true s).
Hypothesis keeps_building_index : forall b s, I s -> I (set_building_index b s).
Hypothesis keeps_index : forall l s, I s -> I (set_index l s).
Hypothesis keeps_initialized : forall s, I s -> I (set_initialized true s).

Lemma kb_build_preserves : preserves I (_build_rag_index w).
Proof.
  unfold _build_rag_index, collect_chunks, add_documents.
  repeat preserve_step; eauto.
Qed.

Lemma kb_ensure_preserves : preserves I (_ensure_rag_ready w).
Proof.
  unfold _ensure_rag_ready.
  repeat preserve_step; eauto using kb_build_preserves.
Qed.

Lemma kb_rag_search_preserves query max_results :
  preserves I (_rag_search w query max_results).
Proof.
  unfold _rag_search, search_variations.
  repeat preserve_step; eauto.
Qed.

Lemma kb_initialize_preserves :
  preserves I (_ensure_rag_ready w) -> preserves I (initialize w).
Proof.
  intros Hens. unfold initialize, _read_file_async.
  repeat preserve_step; eauto.
Qed.

Lemma kb_search_preserves query max_results :
  preserves I (_ensure_rag_ready w) -> preserves I (initialize w) ->
  preserves I (search w query max_results).
Proof.
  intros Hens Hinit. unfold search, keyword_fallback.
  repeat preserve_step; eauto using kb_rag_search_preserves.
Qed.

End KnowledgeBaseInvariants.

(** ** Loading the knowledge directory *)

(** what [_read_file_async] hands back for a file *)
Lemma kb_read_file (w : World) (name : string) (s : KnowledgeBase.t) :
  KnowledgeBase._read_file_async w name s
  = (Returns (match read_text w name with Returns c => Some c | Raises _ => None end),
     s, [ReadText name]).
Proof.
  unfold KnowledgeBase._read_file_async. unfold_monad.
  by destruct (read_text w name).
Qed.

Lemma kb_read_loop (w : World) (names : list string) (acc : list KnowledgeBase.Doc)
  (s : KnowledgeBase.t) :
  for_each names acc (fun indexed_files md_file =>
    content ← KnowledgeBase._read_file_async w md_file;
    match content with
    | None => ret indexed_files
    | Some c =>
        if negb (Py.truthy c) then ret indexed_files
        else ret (indexed_files
                  ++ [{| KnowledgeBase.path := md_file; KnowledgeBase.content := c;
                         KnowledgeBase.type := "markdown" |}])
    end) s
  = (Returns (acc ++ load_docs w names), s, map ReadText names).
Proof.
  revert acc. induction names as [|name names IH]; intros acc; simpl.
  - by rewrite app_nil_r.
  - unfold mbind, M_bind, bind. rewrite kb_read_file.
    unfold load_docs. simpl.
    destruct (read_text w name) as [c|e]; simpl.
    + destruct (Py.truthy c); simpl; rewrite IH; [|done].
      by rewrite <- (assoc_L (++)).
    + by rewrite IH.
Qed.

(** the state of the knowledge base once the directory is loaded *)
Lemma kb_initialize_loaded (w : World) (s : KnowledgeBase.t) :
  KnowledgeBase._initialized s = false ->
  path_exists w = true ->
  let loaded :=
    KnowledgeBase.set_initialized true
      (KnowledgeBase.set_index (load_docs w (glob_md w)) s) in
  KnowledgeBase.initialize w s
  = (result_of ((if KnowledgeBase.use_embeddings s
                 then KnowledgeBase._ensure_rag_ready w else ret tt) loaded),
     state_of ((if KnowledgeBase.use_embeddings s
                then KnowledgeBase._ensure_rag_ready w else ret tt) loaded),
     map ReadText (glob_md w)
     ++ trace_of ((if KnowledgeBase.use_embeddings s
                   then KnowledgeBase._ensure_rag_ready w else ret tt) loaded)).
Proof.
  intros Hi He loaded. unfold KnowledgeBase.initialize.
  rewrite bind_get, Hi, He. change (negb true) with false. cbv iota.
  rewrite (bind_returns _ _ _ _ _ _ (kb_read_loop w (glob_md w) [] s)).
  simpl app at 1.
  unfold_monad. simpl.
  fold loaded.
  destruct (KnowledgeBase.use_embeddings s); simpl; [|by rewrite app_nil_r].
  destruct (KnowledgeBase._ensure_rag_ready w loaded) as [[[u|e] s1] t1]; done.
Qed.

Lemma load_docs_elem (w : World) (names : list string) (doc : KnowledgeBase.Doc) :
  doc ∈ load_docs w names <->
  KnowledgeBase.path doc ∈ names /\
  read_text w (KnowledgeBase.path doc) = Returns (KnowledgeBase.content doc) /\
  KnowledgeBase.content doc <> "" /\
  KnowledgeBase.type doc = "markdown".
Proof.
  unfold load_docs. rewrite list_elem_of_omap. split.
  - intros (name & Hin & Hdoc).
    destruct (read_text w name) as [c|e] eqn:Hr; [|done].
    destruct (Py.truthy c) eqn:Ht; [|done].
    injection Hdoc as <-. simpl. repeat split; try done.
    by destruct c.
  - intros (Hin & Hr & Hne & Hty). exists (KnowledgeBase.path doc).
    split; [done|]. rewrite Hr.
    destruct (KnowledgeBase.content doc) eqn:Hc; [done|]. simpl.
    f_equal. destruct doc. simpl in *. by subst.
Qed.

(** X1. [KnowledgeBase.initialize] on an instance that is not initialized:
    when the directory does not exist it only marks the instance initialized
    and reads nothing; otherwise it reads every listed file once, in order,
    and the index holds exactly the files that could be read and are not
    empty, each under its file name and typed "markdown" (files that cannot be
    read or are empty are skipped without an error). *)
Theorem initialize_loads_directory (w : World) (s : KnowledgeBase.t) :
  KnowledgeBase._initialized s = false ->
  (path_exists w = false ->
     KnowledgeBase.initialize w s = (Returns tt, KnowledgeBase.set_initialized true s, [])) /\
  (path_exists w = true ->
     let run := KnowledgeBase.initialize w s in
     KnowledgeBase.index (state_of run) = load_docs w (glob_md w) /\
     (exists rest, trace_of run = map ReadText (glob_md w) ++ rest) /\
     (KnowledgeBase.use_embeddings s = false ->
        result_of run = Returns tt /\ trace_of run = map ReadText (glob_md w)) /\
     (forall doc, doc ∈ KnowledgeBase.index (state_of run) <->
        KnowledgeBase.path doc ∈ glob_md w /\
        read_text w (KnowledgeBase.path doc) = Returns (KnowledgeBase.content doc) /\
        KnowledgeBase.content doc <> "" /\
        KnowledgeBase.type doc = "markdown")).
Proof.
  intros Hi. split.
  - intros He. unfold KnowledgeBase.initialize. rewrite bind_get, Hi, He. reflexivity.
  - intros He run.
    assert (KnowledgeBase.index (state_of run) = load_docs w (glob_md w)) as Hidx.
    { subst run. rewrite (kb_initialize_loaded w s Hi He). unfold state_of at 1. simpl.
      destruct (KnowledgeBase.use_embeddings s); [|reflexivity].
      apply (kb_ensure_preserves w
               (fun s' => KnowledgeBase.index s' = load_docs w (glob_md w))); auto. }
    split; [exact Hidx|]. split; [|split].
    + subst run. rewrite (kb_initialize_loaded w s Hi He). by eexists.
    + intros Hu. subst run. rewrite (kb_initialize_loaded w s Hi He), Hu.
      split; [reflexivity|]. unfold trace_of. simpl. by rewrite app_nil_r.
    + intros doc. rewrite Hidx. apply load_docs_elem.
Qed.

Lemma initialize_loads_directory_witness :
  let run := KnowledgeBase.initialize Demo.online (KnowledgeBase.__init__ false) in
  KnowledgeBase._initialized (KnowledgeBase.__init__ false) = false /\
  path_exists Demo.online = true /\
  KnowledgeBase.index (state_of run) = load_docs Demo.online ["faq.md"] /\
  trace_of run = [ReadText "faq.md"].
Proof.
  intros run.
  destruct (initialize_loads_directory Demo.online (KnowledgeBase.__init__ false) eq_refl)
    as [_ H].
  destruct (H eq_refl) as (Hidx & _ & Hoff & _).
  split; [reflexivity|]. split; [reflexivity|]. split; [exact Hidx|].
  exact (proj2 (Hoff eq_refl)).
Defined.

(** X2. [KnowledgeBase.initialize] always leaves the instance marked
    initialized, also when the index build it starts raises; a further call,
    whatever the collaborators do by then, does nothing at all. *)
Theorem initialize_once (w w' : World) (s : KnowledgeBase.t) :
  let s1 := state_of (KnowledgeBase.initialize w s) in
  KnowledgeBase._initialized s1 = true /\
  KnowledgeBase.initialize w' s1 = (Returns tt, s1, []).
Proof.
  intros s1.
  assert (KnowledgeBase._initialized s1 = true) as Hi1.
  { subst s1. destruct (KnowledgeBase._initialized s) eqn:Hi.
    - unfold KnowledgeBase.initialize. rewrite bind_get, Hi. exact Hi.
    - destruct (path_exists w) eqn:He.
      + rewrite (kb_initialize_loaded w s Hi He). unfold state_of at 1. simpl.
        destruct (KnowledgeBase.use_embeddings s); [|reflexivity].
        apply (kb_ensure_preserves w (fun s' => KnowledgeBase._initialized s' = true));
          auto.
      + unfold KnowledgeBase.initialize. rewrite bind_get, Hi, He. reflexivity. }
  split; [exact Hi1|].
  unfold KnowledgeBase.initialize. rewrite bind_get, Hi1. reflexivity.
Qed.

(** ** What the methods of the remote adapters keep *)

Section Context7Invariants.
Import Context7Search.
Context (w : World) (I : Context7Search.t -> Prop).

Hypothesis keeps_cache : forall c s, I s -> I (set_cache c s).
Hypothesis keeps_http_client : forall c s, I s -> I (set_http_client c s).
Hypothesis keeps_rag_indices : forall m s, I s -> I (set_rag_indices m s).
Hypothesis keeps_building_index : forall m s, I s -> I (set_building_index m s).

Lemma c7_client_preserves : preserves I (_get_http_client w).
Proof.
  unfold _get_http_client. repeat preserve_step; eauto.
Qed.

Lemma c7_close_preserves : preserves I close.
Proof.
  unfold close. repeat preserve_step; eauto.
Qed.

Lemma c7_build_preserves content key : preserves I (_build_rag_index w content key).
Proof.
  unfold _build_rag_index, add_documents. repeat preserve_step; eauto.
Qed.

Lemma c7_ensure_preserves content key : preserves I (_ensure_rag_ready w content key).
Proof.
  unfold _ensure_rag_ready. repeat preserve_step; eauto using c7_build_preserves.
Qed.

Lemma c7_rag_search_preserves query key max_results :
  preserves I (_rag_search w query key max_results).
Proof.
  unfold _rag_search, search_variations. repeat preserve_step; eauto.
Qed.

Lemma c7_fetch_preserves topic tokens use_cache :
  (forall content key, preserves I (_ensure_rag_ready w content key)) ->
  preserves I (_get_http_client w) ->
  preserves I (fetch w topic tokens use_cache).
Proof.
  intros Hens Hcl. unfold fetch. repeat preserve_step; eauto.
Qed.

Lemma c7_search_preserves query topic tokens max_results use_cache :
  (forall content key, preserves I (_ensure_rag_ready w content key)) ->
  preserves I (fetch w topic tokens use_cache) ->
  preserves I (search w query topic tokens max_results use_cache).
Proof.
  intros Hens Hfetch. unfold search, keyword_fallback.
  repeat preserve_step; eauto using c7_rag_search_preserves.
Qed.

End Context7Invariants.

Section GitHubInvariants.
Import GitHubReadmeFetcher.
Context (w : World) (I : GitHubReadmeFetcher.t -> Prop).

Hypothesis keeps_cache : forall c s, I s -> I (set_cache c s).
Hypothesis keeps_http_client : forall c s, I s -> I (set_http_client c s).
Hypothesis keeps_rag_ready : forall s, I s -> I (set_rag_ready true s).
Hypothesis keeps_building_index : forall b s, I s -> I (set_building_index b s).
Hypothesis keeps_chunks : forall c s, I s -> I (set_chunks c s).
Hypothesis keeps_search_engine : forall e s, I s -> I (set_search_engine e s).

Lemma gh_client_preserves : preserves I (_get_http_client w).
Proof.
  unfold _get_http_client. repeat preserve_step; eauto.
Qed.

Lemma gh_close_preserves : preserves I close.
Proof.
  unfold close. repeat preserve_step; eauto.
Qed.

Lemma gh_build_preserves content : preserves I (_build_rag_index w content).
Proof.
  unfold _build_rag_index, add_documents. repeat preserve_step; eauto.
Qed.

Lemma gh_ensure_preserves content : preserves I (_ensure_rag_ready w content).
Proof.
  unfold _ensure_rag_ready. repeat preserve_step; eauto using gh_build_preserves.
Qed.

Lemma gh_rag_search_preserves query max_results :
  preserves I (_rag_search w query max_results).
Proof.
  unfold _rag_search, search_variations. repeat preserve_step; eauto.
Qed.

Lemma gh_fetch_preserves use_cache :
  (forall content, preserves I (_ensure_rag_ready w content)) ->
  preserves I (_get_http_client w) ->
  preserves I (fetch_readme w use_cache).
Proof.
  intros Hens Hcl. unfold fetch_readme. repeat preserve_step; eauto.
Qed.

Lemma gh_search_preserves query max_results :
  (forall content, preserves I (_ensure_rag_ready w content)) ->
  preserves I (fetch_readme w true) ->
  preserves I (search w query max_results).
Proof.
  intros Hens Hfetch. unfold search, keyword_fallback.
  repeat preserve_step; eauto using gh_rag_search_preserves.
Qed.

End GitHubInvariants.

(** ** Embeddings stay disabled; no build is left in flight *)

(** X3. Nothing in [KnowledgeBase] switches embeddings back on: once
    [use_embeddings] is false it is false after [initialize], after every
    [search], and after the index-build entry points, whatever the
    collaborators return or raise. *)
Theorem embeddings_never_reenabled (w : World) (s : KnowledgeBase.t) :
  KnowledgeBase.use_embeddings s = false ->
  KnowledgeBase.use_embeddings (state_of (KnowledgeBase.initialize w s)) = false /\
  (forall query max_results,
     KnowledgeBase.use_embeddings (state_of (KnowledgeBase.search w query max_results s))
     = false) /\
  KnowledgeBase.use_embeddings (state_of (KnowledgeBase._ensure_rag_ready w s)) = false /\
  KnowledgeBase.use_embeddings (state_of (KnowledgeBase._build_rag_index w s)) = false.
Proof.
  intros Hu.
  pose proof (kb_ensure_preserves w (fun s' => KnowledgeBase.use_embeddings s' = false))
    as Hens.
  assert (preserves (fun s' => KnowledgeBase.use_embeddings s' = false)
            (KnowledgeBase._ensure_rag_ready w)) as Hens' by (apply Hens; auto).
  assert (preserves (fun s' => KnowledgeBase.use_embeddings s' = false)
            (KnowledgeBase.initialize w)) as Hinit
    by (apply kb_initialize_preserves; auto).
  split; [by apply Hinit|]. split; [|split].
  - intros query max_results. by apply kb_search_preserves.
  - by apply Hens'.
  - apply (kb_build_preserves w (fun s' => KnowledgeBase.use_embeddings s' = false)); auto.
Qed.

Lemma embeddings_never_reenabled_witness :
  KnowledgeBase.use_embeddings (KnowledgeBase.__init__ false) = false /\
  KnowledgeBase.use_embeddings
    (state_of (KnowledgeBase.search Demo.online "parole" 5 (KnowledgeBase.__init__ false)))
  = false.
Proof.
  split; [reflexivity|].
  by destruct (embeddings_never_reenabled Demo.online (KnowledgeBase.__init__ false) eq_refl)
    as (_ & H & _).
Defined.

Lemma c7_ensure_idle (w : World) content key :
  preserves c7_idle (Context7Search._ensure_rag_ready w content key).
Proof.
  intros s Hidle.
  assert (preserves
            (fun s' => Context7Search._building_index s'
                       = <[key:=true]> (Context7Search._building_index s))
            (Context7Search._build_rag_index w content key)) as Hb
    by (apply c7_build_preserves; auto).
  specialize (Hb (Context7Search.set_building_index
                    (<[key:=true]> (Context7Search._building_index s)) s) eq_refl).
  unfold state_of in Hb.
  unfold Context7Search._ensure_rag_ready.
  rewrite bind_get. fold (c7_building s key). rewrite (Hidle key).
  unfold_monad.
  destruct (Context7Search._build_rag_index w content key _) as [[r s1] t1].
  simpl in *.
  assert (c7_idle (Context7Search.set_building_index
                     (<[key:=false]> (Context7Search._building_index s1)) s1)) as Hfin.
  { intros k. unfold c7_building. simpl. rewrite Hb, insert_insert_eq.
    destruct (decide (key = k)) as [->|Hne].
    - by rewrite lookup_insert_eq.
    - rewrite lookup_insert_ne by done. apply Hidle. }
  by destruct r.
Qed.

(** X4. In sequential use no build is ever left in flight: when the
    building flag is clear before [initialize], [fetch], [fetch_readme] or
    [search] it is clear afterwards, whether the method returned or raised
    (in [Context7Search], for the flags of all topics). *)
Theorem no_build_left_in_flight (w : World) :
  (forall s, KnowledgeBase._building_index s = false ->
     KnowledgeBase._building_index (state_of (KnowledgeBase.initialize w s)) = false /\
     forall query max_results,
       KnowledgeBase._building_index
         (state_of (KnowledgeBase.search w query max_results s)) = false) /\
  (forall s, GitHubReadmeFetcher._building_index s = false ->
     (forall use_cache,
        GitHubReadmeFetcher._building_index
          (state_of (GitHubReadmeFetcher.fetch_readme w use_cache s)) = false) /\
     forall query max_results,
       GitHubReadmeFetcher._building_index
         (state_of (GitHubReadmeFetcher.search w query max_results s)) = false) /\
  (forall s, c7_idle s ->
     (forall topic tokens use_cache,
        c7_idle (state_of (Context7Search.fetch w topic tokens use_cache s))) /\
     forall query topic tokens max_results use_cache,
       c7_idle (state_of (Context7Search.search w query topic tokens max_results
                            use_cache s))).
Proof.
  split; [|split].
  - intros s Hs.
    assert (preserves (fun s' => KnowledgeBase._building_index s' = false)
              (KnowledgeBase._ensure_rag_ready w)) as Hens
      by (intros s' Hs'; by apply kb_ensure_clears).
    assert (preserves (fun s' => KnowledgeBase._building_index s' = false)
              (KnowledgeBase.initialize w)) as Hinit
      by (apply kb_initialize_preserves; auto).
    split; [by apply Hinit|].
    intros query max_results. by apply kb_search_preserves.
  - intros s Hs.
    assert (forall content,
              preserves (fun s' => GitHubReadmeFetcher._building_index s' = false)
                (GitHubReadmeFetcher._ensure_rag_ready w content)) as Hens
      by (intros content s' Hs'; by apply gh_ensure_clears).
    assert (forall use_cache,
              preserves (fun s' => GitHubReadmeFetcher._building_index s' = false)
                (GitHubReadmeFetcher.fetch_readme w use_cache)) as Hfetch.
    { intros use_cache. apply gh_fetch_preserves; auto.
      apply gh_client_preserves; auto. }
    split; [intros use_cache; by apply Hfetch|].
    intros query max_results. by apply gh_search_preserves.
  - intros s Hs.
    assert (forall content key,
              preserves c7_idle (Context7Search._ensure_rag_ready w content key)) as Hens
      by apply c7_ensure_idle.
    assert (forall topic tokens use_cache,
              preserves c7_idle (Context7Search.fetch w topic tokens use_cache)) as Hfetch.
    { intros topic tokens use_cache. apply c7_fetch_preserves; auto.
      apply c7_client_preserves; auto. }
    split; [intros topic tokens use_cache; by apply Hfetch|].
    intros query topic tokens max_results use_cache. by apply c7_search_preserves.
Qed.

Lemma no_build_left_in_flight_witness :
  let s1 := state_of (Context7Search.fetch Demo.broken_chunker None 10000 true
                        Context7Search.__init__) in
  let run := Context7Search.search Demo.broken_chunker "parole" None 10000 5 true s1 in
  c7_idle Context7Search.__init__ /\
  c7_idle s1 /\
  result_of run = Raises (Exception "tokenizer unavailable") /\
  c7_idle (state_of run).
Proof.
  intros s1 run.
  assert (c7_idle Context7Search.__init__) as Hidle by (intros key; reflexivity).
  destruct (no_build_left_in_flight Demo.broken_chunker) as (_ & _ & H).
  destruct (H _ Hidle) as [Hfetch _].
  assert (c7_idle s1) as Hidle1 by apply Hfetch.
  destruct (H _ Hidle1) as [_ Hsearch].
  split; [exact Hidle|]. split; [exact Hidle1|].
  split; [vm_compute; reflexivity|apply Hsearch].
Defined.

(** ** What a fetch may do to the cache *)

Lemma c7_fetch_cache_step (w : World) s topic tokens use_cache :
  c7_cache_step w topic tokens s
    (state_of (Context7Search.fetch w topic tokens use_cache s)).
Proof.
  unfold c7_cache_step, Context7Search.fetch. rewrite bind_get.
  destruct (if use_cache && _ then _ else _) as [cached|]; [by split; [|left]|].
  unfold_monad.
  pose proof (c7_client_cache w s) as [Hc0 Hen0]. unfold state_of in *.
  destruct (Context7Search._get_http_client w s) as [[r0 s0] t0]. simpl in *.
  destruct r0 as [[client|]|e]; simpl; try (split; [done|by left]).
  destruct (http_get w _ _) as [content|e] eqn:Hget; simpl;
    try (split; [done|by left]).
  rewrite Hen0.
  destruct (Context7Search._cache_enabled s) eqn:Hen; simpl.
  - assert (forall (s2 : Context7Search.t),
              Context7Search._cache s2
              = <[Context7Search.cache_key topic tokens:=content]>
                  (Context7Search._cache s0) ->
              Context7Search._cache_enabled s2 = true ->
              Context7Search._cache_enabled s2 = true /\
              (Context7Search._cache s2 = Context7Search._cache s \/
               true = true /\
               exists content0,
                 Returns content = Returns content0 /\
                 Context7Search._cache s2
                 = <[Context7Search.cache_key topic tokens:=content0]>
                     (Context7Search._cache s))) as Hfin.
    { intros s2 Hc2 Hen2. split; [done|]. right. split; [done|].
      exists content. split; [done|]. by rewrite Hc2, Hc0. }
    match goal with
    | |- context [if ?b then _ else _] => destruct b
    end; simpl.
    + match goal with
      | |- context [Context7Search._ensure_rag_ready w ?c ?k ?st] =>
          pose proof (c7_ensure_cache w c k st) as [Hc2 Hen2];
          unfold state_of in *;
          destruct (Context7Search._ensure_rag_ready w c k st) as [[r2 s2] t2]
      end.
      simpl in *. destruct r2; simpl; apply (Hfin s2); by rewrite ?Hc2, ?Hen2.
    + pose proof (Hfin (Context7Search.set_cache
                     (<[Context7Search.cache_key topic tokens:=content]>
                        (Context7Search._cache s0)) s0) eq_refl Hen0) as HH.
      exact HH.
  - match goal with
    | |- context [if ?b then _ else _] => destruct b
    end; simpl.
    + match goal with
      | |- context [Context7Search._ensure_rag_ready w ?c ?k ?st] =>
          pose proof (c7_ensure_cache w c k st) as [Hc2 Hen2];
          unfold state_of in *;
          destruct (Context7Search._ensure_rag_ready w c k st) as [[r2 s2] t2]
      end.
      simpl in *. destruct r2; simpl; (split; [by rewrite Hen2|left; by rewrite Hc2]).
    + split; [done|by left].
Qed.

Lemma state_of_bind {S A B} (m : M S A) (k : A -> M S B) (s : S) :
  state_of ((x ← m; k x) s)
  = match result_of (m s) with
    | Returns a => state_of (k a (state_of (m s)))
    | Raises _ => state_of (m s)
    end.
Proof.
  unfold mbind, M_bind, bind, state_of, result_of.
  destruct (m s) as [[[a|e] s1] t1]; simpl; [|done].
  by destruct (k a s1) as [[r s2] t2].
Qed.

Lemma c7_search_cache_step (w : World) s query topic tokens max_results use_cache :
  c7_cache_step w topic tokens s
    (state_of (Context7Search.search w query topic tokens max_results use_cache s)).
Proof.
  pose proof (c7_fetch_cache_step w s topic tokens use_cache) as Hfetch.
  unfold Context7Search.search.
  destruct (negb (Py.truthy query) || _); [by split; [|left]|].
  rewrite state_of_bind.
  destruct (result_of (Context7Search.fetch w topic tokens use_cache s))
    as [content|e]; [|exact Hfetch].
  revert Hfetch. generalize (state_of (Context7Search.fetch w topic tokens use_cache s)).
  change (preserves (c7_cache_step w topic tokens s)
            (if negb (Py.truthy content) then mret []
             else Context7Search._ensure_rag_ready w content
                    (Context7Search.topic_or_default topic) ;;
                  s0 ← get;
                  if negb (Context7Search.index_ready s0
                             (Context7Search.topic_or_default topic))
                  then Context7Search.keyword_fallback query content max_results
                  else try_except
                         (Context7Search._rag_search w query
                            (Context7Search.topic_or_default topic) max_results)
                         (fun _ => Context7Search.keyword_fallback query content
                                     max_results))).
  unfold Context7Search.keyword_fallback.
  repeat preserve_step;
    eauto using c7_rag_search_preserves, c7_ensure_preserves.
Qed.

Lemma gh_fetch_cache_step (w : World) s use_cache :
  gh_cache_step w s (state_of (GitHubReadmeFetcher.fetch_readme w use_cache s)).
Proof.
  unfold gh_cache_step, GitHubReadmeFetcher.fetch_readme. rewrite bind_get.
  destruct (if use_cache && _ then _ else _) as [cached|]; [by split; [|left]|].
  unfold_monad.
  pose proof (gh_client_cache w s) as [Hc0 Hen0]. unfold state_of in *.
  destruct (GitHubReadmeFetcher._get_http_client w s) as [[r0 s0] t0]. simpl in *.
  destruct r0 as [[client|]|e]; simpl; try (split; [done|by left]).
  destruct (http_get w _ _) as [content|e] eqn:Hget; simpl;
    try (split; [done|by left]).
  rewrite Hen0.
  destruct (GitHubReadmeFetcher._cache_enabled s) eqn:Hen; simpl.
  - match goal with
    | |- context [if ?b then _ else _] => destruct b
    end; simpl.
    + match goal with
      | |- context [GitHubReadmeFetcher._ensure_rag_ready w ?c ?st] =>
          pose proof (gh_ensure_cache w c st) as [Hc2 Hen2];
          unfold state_of in *;
          destruct (GitHubReadmeFetcher._ensure_rag_ready w c st) as [[r2 s2] t2]
      end.
      simpl in *. destruct r2; simpl;
        (split; [by rewrite Hen2|right; split; [done|exists content; by rewrite Hc2]]).
    + split; [done|]. right. split; [done|]. by exists content.
  - match goal with
    | |- context [if ?b then _ else _] => destruct b
    end; simpl.
    + match goal with
      | |- context [GitHubReadmeFetcher._ensure_rag_ready w ?c ?st] =>
          pose proof (gh_ensure_cache w c st) as [Hc2 Hen2];
          unfold state_of in *;
          destruct (GitHubReadmeFetcher._ensure_rag_ready w c st) as [[r2 s2] t2]
      end.
      simpl in *. destruct r2; simpl; (split; [by rewrite Hen2|left; by rewrite Hc2]).
    + split; [done|by left].
Qed.

Lemma gh_search_cache_step (w : World) s query max_results :
  gh_cache_step w s (state_of (GitHubReadmeFetcher.search w query max_results s)).
Proof.
  pose proof (gh_fetch_cache_step w s true) as Hfetch.
  unfold GitHubReadmeFetcher.search.
  destruct (negb (Py.truthy query) || _); [by split; [|left]|].
  rewrite state_of_bind.
  destruct (result_of (GitHubReadmeFetcher.fetch_readme w true s))
    as [content|e]; [|exact Hfetch].
  revert Hfetch. generalize (state_of (GitHubReadmeFetcher.fetch_readme w true s)).
  refine (_ : preserves (gh_cache_step w s) _).
  unfold GitHubReadmeFetcher.keyword_fallback.
  repeat preserve_step;
    eauto using gh_rag_search_preserves, gh_ensure_preserves.
Qed.

(** ** Bypassing the cache *)

Lemma c7_client_ready (w : World) s :
  session_ready w (Context7Search._http_client s) ->
  exists c s0, Context7Search._get_http_client w s = (Returns (Some c), s0, []).
Proof.
  unfold session_ready, Context7Search._get_http_client. unfold_monad.
  destruct (Context7Search._http_client s) as [session|] eqn:Hs; simpl.
  - destruct (closed session) eqn:Hc.
    + intros [?|[c' ->]]; [done|]. simpl. by eexists _, _.
    + intros _. simpl. rewrite Hs. by eexists _, _.
  - intros [c' ->]. simpl. by eexists _, _.
Qed.

Lemma c7_fetch_bypass_result (w : World) s topic tokens use_cache r :
  c7_cached s topic tokens use_cache = None ->
  result_of (Context7Search.fetch w topic tokens use_cache s) = Returns r ->
  r = "" \/
  http_get w Context7Search.CONTEXT7_BASE_URL (Context7Search.request_params topic tokens)
  = Returns r.
Proof.
  unfold c7_cached, Context7Search.fetch. rewrite bind_get. intros ->.
  unfold_monad.
  destruct (Context7Search._get_http_client w s) as [[[[client|]|e] s0] t0]; simpl;
    try (intros [= <-]; by left).
  destruct (http_get w _ _) as [content|e]; simpl; try (intros [= <-]; by left).
  destruct (Context7Search._cache_enabled s0); simpl;
    (match goal with |- context [if ?b then _ else _] => destruct b end); simpl;
    try (match goal with
         | |- context [Context7Search._ensure_rag_ready w ?c ?k ?st] =>
             destruct (Context7Search._ensure_rag_ready w c k st) as [[[[]|?] ?] ?]
         end); simpl; intros [= <-]; auto.
Qed.

Lemma c7_fetch_bypass_trace (w : World) s topic tokens use_cache :
  c7_cached s topic tokens use_cache = None ->
  session_ready w (Context7Search._http_client s) ->
  exists rest,
    trace_of (Context7Search.fetch w topic tokens use_cache s)
    = HttpGet Context7Search.CONTEXT7_BASE_URL (Context7Search.request_params topic tokens)
      :: rest.
Proof.
  unfold c7_cached. intros Hmiss Hready.
  destruct (c7_client_ready w s Hready) as (c & s0 & Hcl).
  unfold Context7Search.fetch. rewrite bind_get, Hmiss.
  unfold_monad. rewrite Hcl. simpl.
  destruct (http_get w _ _) as [content|e]; simpl; [|by eexists].
  destruct (Context7Search._cache_enabled s0); simpl;
    (match goal with |- context [if ?b then _ else _] => destruct b end); simpl;
    try (match goal with
         | |- context [Context7Search._ensure_rag_ready w ?c ?k ?st] =>
             destruct (Context7Search._ensure_rag_ready w c k st) as [[[[]|?] ?] ?]
         end); simpl; by eexists.
Qed.

Lemma gh_client_ready (w : World) s :
  session_ready w (GitHubReadmeFetcher._http_client s) ->
  exists c s0, GitHubReadmeFetcher._get_http_client w s = (Returns (Some c), s0, []).
Proof.
  unfold session_ready, GitHubReadmeFetcher._get_http_client. unfold_monad.
  destruct (GitHubReadmeFetcher._http_client s) as [session|] eqn:Hs; simpl.
  - destruct (closed session) eqn:Hc.
    + intros [?|[c' ->]]; [done|]. simpl. by eexists _, _.
    + intros _. simpl. rewrite Hs. by eexists _, _.
  - intros [c' ->]. simpl. by eexists _, _.
Qed.

Lemma gh_fetch_bypass_result (w : World) s use_cache r :
  gh_cached s use_cache = None ->
  result_of (GitHubReadmeFetcher.fetch_readme w use_cache s) = Returns r ->
  r = "" \/ http_get w GitHubReadmeFetcher.GITHUB_README_URL [] = Returns r.
Proof.
  unfold gh_cached, GitHubReadmeFetcher.fetch_readme. rewrite bind_get. intros ->.
  unfold_monad.
  destruct (GitHubReadmeFetcher._get_http_client w s) as [[[[client|]|e] s0] t0]; simpl;
    try (intros [= <-]; by left).
  destruct (http_get w _ _) as [content|e]; simpl; try (intros [= <-]; by left).
  destruct (GitHubReadmeFetcher._cache_enabled s0); simpl;
    (match goal with |- context [if ?b then _ else _] => destruct b end); simpl;
    try (match goal with
         | |- context [GitHubReadmeFetcher._ensure_rag_ready w ?c ?st] =>
             destruct (GitHubReadmeFetcher._ensure_rag_ready w c st) as [[[[]|?] ?] ?]
         end); simpl; intros [= <-]; auto.
Qed.

Lemma gh_fetch_bypass_trace (w : World) s use_cache :
  gh_cached s use_cache = None ->
  session_ready w (GitHubReadmeFetcher._http_client s) ->
  exists rest,
    trace_of (GitHubReadmeFetcher.fetch_readme w use_cache s)
    = HttpGet GitHubReadmeFetcher.GITHUB_README_URL [] :: rest.
Proof.
  unfold gh_cached. intros Hmiss Hready.
  destruct (gh_client_ready w s Hready) as (c & s0 & Hcl).
  unfold GitHubReadmeFetcher.fetch_readme. rewrite bind_get, Hmiss.
  unfold_monad. rewrite Hcl. simpl.
  destruct (http_get w _ _) as [content|e]; simpl; [|by eexists].
  destruct (GitHubReadmeFetcher._cache_enabled s0); simpl;
    (match goal with |- context [if ?b then _ else _] => destruct b end); simpl;
    try (match goal with
         | |- context [GitHubReadmeFetcher._ensure_rag_ready w ?c ?st] =>
             destruct (GitHubReadmeFetcher._ensure_rag_ready w c st) as [[[[]|?] ?] ?]
         end); simpl; by eexists.
Qed.

(** X6. When the cache is bypassed ([use_cache] false, caching disabled, or
    nothing cached under the key), a fetch never hands back text from the
    cache: what it returns is the text the endpoint returned to this request,
    or the empty string; and when a session is open or can be created, the
    first thing it does is the HTTP request. *)
Theorem fetch_bypass_goes_to_endpoint (w : World) :
  (forall s topic tokens use_cache,
     c7_cached s topic tokens use_cache = None ->
     (forall r, result_of (Context7Search.fetch w topic tokens use_cache s) = Returns r ->
        r = "" \/
        http_get w Context7Search.CONTEXT7_BASE_URL
          (Context7Search.request_params topic tokens) = Returns r) /\
     (session_ready w (Context7Search._http_client s) ->
        exists rest,
          trace_of (Context7Search.fetch w topic tokens use_cache s)
          = HttpGet Context7Search.CONTEXT7_BASE_URL
              (Context7Search.request_params topic tokens) :: rest)) /\
  (forall s use_cache,
     gh_cached s use_cache = None ->
     (forall r, result_of (GitHubReadmeFetcher.fetch_readme w use_cache s) = Returns r ->
        r = "" \/ http_get w GitHubReadmeFetcher.GITHUB_README_URL [] = Returns r) /\
     (session_ready w (GitHubReadmeFetcher._http_client s) ->
        exists rest,
          trace_of (GitHubReadmeFetcher.fetch_readme w use_cache s)
          = HttpGet GitHubReadmeFetcher.GITHUB_README_URL [] :: rest)).
Proof.
  split.
  - intros s topic tokens use_cache Hmiss. split.
    + intros r. by apply c7_fetch_bypass_result.
    + by apply c7_fetch_bypass_trace.
  - intros s use_cache Hmiss. split.
    + intros r. by apply gh_fetch_bypass_result.
    + by apply gh_fetch_bypass_trace.
Qed.

(** a forced refresh of a cached README that has changed *)
Lemma fetch_bypass_goes_to_endpoint_witness :
  gh_cached Demo.github_ready false = None /\
  session_ready Demo.changed_no_dense (GitHubReadmeFetcher._http_client Demo.github_ready) /\
  GitHubReadmeFetcher._cache Demo.github_ready = Some Demo.readme /\
  result_of (GitHubReadmeFetcher.fetch_readme Demo.changed_no_dense false Demo.github_ready)
  = Returns "Bail can be paid at the front desk." /\
  exists rest,
    trace_of (GitHubReadmeFetcher.fetch_readme Demo.changed_no_dense false
                Demo.github_ready)
    = HttpGet GitHubReadmeFetcher.GITHUB_README_URL [] :: rest.
Proof.
  assert (gh_cached Demo.github_ready false = None) as Hmiss by reflexivity.
  assert (session_ready Demo.changed_no_dense
            (GitHubReadmeFetcher._http_client Demo.github_ready)) as Hready
    by (vm_compute; left; reflexivity).
  destruct (fetch_bypass_goes_to_endpoint Demo.changed_no_dense) as [_ H].
  destruct (H Demo.github_ready false Hmiss) as [_ Htrace].
  split; [exact Hmiss|]. split; [exact Hready|].
  split; [vm_compute; reflexivity|]. split; [vm_compute; reflexivity|].
  exact (Htrace Hready).
Defined.

(** ** What a fetch stores *)

Lemma c7_fetch_stores (w : World) s topic tokens use_cache content :
  c7_cached s topic tokens use_cache = None ->
  session_ready w (Context7Search._http_client s) ->
  Context7Search._cache_enabled s = true ->
  http_get w Context7Search.CONTEXT7_BASE_URL (Context7Search.request_params topic tokens)
  = Returns content ->
  Context7Search._cache (state_of (Context7Search.fetch w topic tokens use_cache s))
  = <[Context7Search.cache_key topic tokens := content]> (Context7Search._cache s).
Proof.
  unfold c7_cached. intros Hmiss Hready Hen Hget.
  destruct (c7_client_ready w s Hready) as (c & s0 & Hcl).
  pose proof (c7_client_cache w s) as [Hc0 Hen0]. rewrite Hcl in Hc0, Hen0.
  unfold state_of in Hc0, Hen0. simpl in Hc0, Hen0.
  unfold Context7Search.fetch. rewrite bind_get, Hmiss.
  unfold_monad. rewrite Hcl. simpl. rewrite Hget. simpl. rewrite Hen0, Hen. simpl.
  match goal with |- context [if ?b then _ else _] => destruct b end; simpl.
  - match goal with
    | |- context [Context7Search._ensure_rag_ready w ?c ?k ?st] =>
        pose proof (c7_ensure_cache w c k st) as [Hc2 _];
        unfold state_of in Hc2;
        destruct (Context7Search._ensure_rag_ready w c k st) as [[r2 s2] t2]
    end.
    simpl in *. destruct r2; simpl; by rewrite Hc2, Hc0.
  - by rewrite Hc0.
Qed.

Lemma c7_fetch_keeps (w : World) s topic tokens use_cache :
  Context7Search._cache_enabled s = false \/
  (exists e, http_get w Context7Search.CONTEXT7_BASE_URL
               (Context7Search.request_params topic tokens) = Raises e) ->
  Context7Search._cache (state_of (Context7Search.fetch w topic tokens use_cache s))
  = Context7Search._cache s.
Proof.
  intros H.
  destruct (c7_fetch_cache_step w s topic tokens use_cache)
    as [_ [Hc|(Hen & content & Hget & _)]]; [exact Hc|].
  destruct H as [Hoff|[e He]]; congruence.
Qed.

Lemma gh_fetch_stores (w : World) s use_cache content :
  gh_cached s use_cache = None ->
  session_ready w (GitHubReadmeFetcher._http_client s) ->
  GitHubReadmeFetcher._cache_enabled s = true ->
  http_get w GitHubReadmeFetcher.GITHUB_README_URL [] = Returns content ->
  GitHubReadmeFetcher._cache (state_of (GitHubReadmeFetcher.fetch_readme w use_cache s))
  = Some content.
Proof.
  unfold gh_cached. intros Hmiss Hready Hen Hget.
  destruct (gh_client_ready w s Hready) as (c & s0 & Hcl).
  pose proof (gh_client_cache w s) as [Hc0 Hen0]. rewrite Hcl in Hc0, Hen0.
  unfold state_of in Hc0, Hen0. simpl in Hc0, Hen0.
  unfold GitHubReadmeFetcher.fetch_readme. rewrite bind_get, Hmiss.
  unfold_monad. rewrite Hcl. simpl. rewrite Hget. simpl. rewrite Hen0, Hen. simpl.
  match goal with |- context [if ?b then _ else _] => destruct b end; simpl.
  - match goal with
    | |- context [GitHubReadmeFetcher._ensure_rag_ready w ?c ?st] =>
        pose proof (gh_ensure_cache w c st) as [Hc2 _];
        unfold state_of in Hc2;
        destruct (GitHubReadmeFetcher._ensure_rag_ready w c st) as [[r2 s2] t2]
    end.
    simpl in *. by destruct r2.
  - done.
Qed.

Lemma gh_fetch_keeps (w : World) s use_cache :
  GitHubReadmeFetcher._cache_enabled s = false \/
  (exists e, http_get w GitHubReadmeFetcher.GITHUB_README_URL [] = Raises e) ->
  GitHubReadmeFetcher._cache (state_of (GitHubReadmeFetcher.fetch_readme w use_cache s))
  = GitHubReadmeFetcher._cache s.
Proof.
  intros H.
  destruct (gh_fetch_cache_step w s use_cache)
    as [_ [Hc|(Hen & content & Hget & _)]]; [exact Hc|].
  destruct H as [Hoff|[e He]]; congruence.
Qed.

(** X5. A fetch changes the cache in one way only.  When the cache is
    bypassed or holds nothing under the key, caching is enabled, a session is
    at hand and the request returns a text, the fetch stores this text under
    the key of the request, also when the index build that follows raises.
    It stores nothing when the request fails or caching is disabled, never
    touches another key, and never changes whether caching is enabled; a
    search changes the cache only through its fetch. *)
Theorem cache_holds_only_fetched_text (w : World) :
  (forall s topic tokens use_cache content,
     c7_cached s topic tokens use_cache = None ->
     session_ready w (Context7Search._http_client s) ->
     Context7Search._cache_enabled s = true ->
     http_get w Context7Search.CONTEXT7_BASE_URL
       (Context7Search.request_params topic tokens) = Returns content ->
     Context7Search._cache (state_of (Context7Search.fetch w topic tokens use_cache s))
     = <[Context7Search.cache_key topic tokens := content]> (Context7Search._cache s)) /\
  (forall s topic tokens use_cache,
     Context7Search._cache_enabled s = false \/
     (exists e, http_get w Context7Search.CONTEXT7_BASE_URL
                  (Context7Search.request_params topic tokens) = Raises e) ->
     Context7Search._cache (state_of (Context7Search.fetch w topic tokens use_cache s))
     = Context7Search._cache s) /\
  (forall s use_cache content,
     gh_cached s use_cache = None ->
     session_ready w (GitHubReadmeFetcher._http_client s) ->
     GitHubReadmeFetcher._cache_enabled s = true ->
     http_get w GitHubReadmeFetcher.GITHUB_README_URL [] = Returns content ->
     GitHubReadmeFetcher._cache (state_of (GitHubReadmeFetcher.fetch_readme w use_cache s))
     = Some content) /\
  (forall s use_cache,
     GitHubReadmeFetcher._cache_enabled s = false \/
     (exists e, http_get w GitHubReadmeFetcher.GITHUB_README_URL [] = Raises e) ->
     GitHubReadmeFetcher._cache (state_of (GitHubReadmeFetcher.fetch_readme w use_cache s))
     = GitHubReadmeFetcher._cache s) /\
  (forall s topic tokens use_cache,
     c7_cache_step w topic tokens s
       (state_of (Context7Search.fetch w topic tokens use_cache s))) /\
  (forall s query topic tokens max_results use_cache,
     c7_cache_step w topic tokens s
       (state_of (Context7Search.search w query topic tokens max_results use_cache s))) /\
  (forall s use_cache,
     gh_cache_step w s (state_of (GitHubReadmeFetcher.fetch_readme w use_cache s))) /\
  (forall s query max_results,
     gh_cache_step w s (state_of (GitHubReadmeFetcher.search w query max_results s))) /\
  (forall s query topic tokens max_results use_cache key,
     key <> Context7Search.cache_key topic tokens ->
     Context7Search._cache
       (state_of (Context7Search.search w query topic tokens max_results use_cache s))
       !! key
     = Context7Search._cache s !! key).
Proof.
  split; [intros; by apply c7_fetch_stores|].
  split; [intros; by apply c7_fetch_keeps|].
  split; [intros; by apply gh_fetch_stores|].
  split; [intros; by apply gh_fetch_keeps|].
  split; [intros; apply c7_fetch_cache_step|].
  split; [intros; apply c7_search_cache_step|].
  split; [intros; apply gh_fetch_cache_step|].
  split; [intros; apply gh_search_cache_step|].
  intros s query topic tokens max_results use_cache key Hne.
  destruct (c7_search_cache_step w s query topic tokens max_results use_cache)
    as [_ [->|(_ & content & _ & ->)]]; [done|].
  by rewrite lookup_insert_ne.
Qed.

(** a first fetch stores the text; a fetch whose build raises stores it as
    well; a failed request stores nothing; another key is left alone *)
Lemma cache_holds_only_fetched_text_witness :
  let key := Context7Search.cache_key (Some "jail") 10000 in
  let s1 := state_of (Context7Search.fetch Demo.online (Some "jail") 10000 true
                        Context7Search.__init__) in
  Context7Search._cache s1 = {[ key := Demo.readme ]} /\
  Context7Search._cache
    (state_of (Context7Search.fetch Demo.broken_chunker (Some "jail") 10000 true
                 Context7Search.__init__)) = {[ key := Demo.readme ]} /\
  Context7Search._cache
    (state_of (Context7Search.fetch Demo.offline (Some "jail") 10000 true
                 Context7Search.__init__)) = ∅ /\
  "context7:bail:10000" <> key /\
  Context7Search._cache
    (state_of (Context7Search.search Demo.online "parole" (Some "jail") 10000 5 false s1))
    !! "context7:bail:10000"
  = Context7Search._cache s1 !! "context7:bail:10000".
Proof.
  intros key s1.
  assert ("context7:bail:10000" <> key) as Hne by (vm_compute; discriminate).
  destruct (cache_holds_only_fetched_text Demo.online) as (Hst & _ & _ & _ & _ & _ & _ & _ & H).
  destruct (cache_holds_only_fetched_text Demo.broken_chunker) as (Hst' & _).
  destruct (cache_holds_only_fetched_text Demo.offline) as (_ & Hkeep & _).
  split; [|split; [|split; [|split]]].
  - subst s1.
    rewrite (Hst Context7Search.__init__ (Some "jail") 10000 true Demo.readme);
      [reflexivity|reflexivity|by eexists|reflexivity|reflexivity].
  - rewrite (Hst' Context7Search.__init__ (Some "jail") 10000 true Demo.readme);
      [reflexivity|reflexivity|by eexists|reflexivity|reflexivity].
  - rewrite Hkeep; [reflexivity|]. right. by eexists.
  - exact Hne.
  - exact (H s1 "parole" (Some "jail") 10000 5 false _ Hne).
Defined.

(** ** Sessions and [close] *)

(** X7. The HTTP session is reused as long as it is open: with an open
    session [_get_http_client] creates nothing and changes nothing. [close]
    leaves no usable session and touches nothing else (cache, indices and
    flags stay); closing twice is closing once; and after [close] the next
    call of [_get_http_client] creates a new session, or raises what the
    creation raises. *)
Theorem session_reused_until_closed (w : World) :
  (forall s c,
     Context7Search._http_client s = Some c -> closed c = false ->
     Context7Search._get_http_client w s = (Returns (Some c), s, [])) /\
  (forall s,
     let s' := state_of (Context7Search.close s) in
     Context7Search.close s = (Returns tt, s', []) /\
     no_session (Context7Search._http_client s') /\
     Context7Search._cache s' = Context7Search._cache s /\
     Context7Search._cache_enabled s' = Context7Search._cache_enabled s /\
     Context7Search._rag_indices s' = Context7Search._rag_indices s /\
     Context7Search._building_index s' = Context7Search._building_index s /\
     Context7Search.close s' = (Returns tt, s', []) /\
     (forall c', client_session w = Returns c' ->
        Context7Search._get_http_client w s'
        = (Returns (Some c'), Context7Search.set_http_client (Some c') s', [])) /\
     (forall e, client_session w = Raises e ->
        Context7Search._get_http_client w s' = (Raises e, s', []))) /\
  (forall s c,
     GitHubReadmeFetcher._http_client s = Some c -> closed c = false ->
     GitHubReadmeFetcher._get_http_client w s = (Returns (Some c), s, [])) /\
  (forall s,
     let s' := state_of (GitHubReadmeFetcher.close s) in
     GitHubReadmeFetcher.close s = (Returns tt, s', []) /\
     no_session (GitHubReadmeFetcher._http_client s') /\
     GitHubReadmeFetcher._cache s' = GitHubReadmeFetcher._cache s /\
     GitHubReadmeFetcher._cache_enabled s' = GitHubReadmeFetcher._cache_enabled s /\
     GitHubReadmeFetcher._rag_ready s' = GitHubReadmeFetcher._rag_ready s /\
     GitHubReadmeFetcher._search_engine s' = GitHubReadmeFetcher._search_engine s /\
     GitHubReadmeFetcher.close s' = (Returns tt, s', []) /\
     (forall c', client_session w = Returns c' ->
        GitHubReadmeFetcher._get_http_client w s'
        = (Returns (Some c'), GitHubReadmeFetcher.set_http_client (Some c') s', [])) /\
     (forall e, client_session w = Raises e ->
        GitHubReadmeFetcher._get_http_client w s' = (Raises e, s', []))).
Proof.
  split; [|split; [|split]].
  - intros s c Hs Hc. unfold Context7Search._get_http_client. unfold_monad.
    rewrite Hs, Hc. simpl. by rewrite Hs.
  - intros s s'. subst s'.
    unfold Context7Search.close, Context7Search._get_http_client. unfold_monad.
    destruct (Context7Search._http_client s) as [[[]]|] eqn:Hs; simpl;
      rewrite ?Hs; simpl; repeat split; try done;
      intros ? ->; reflexivity.
  - intros s c Hs Hc. unfold GitHubReadmeFetcher._get_http_client. unfold_monad.
    rewrite Hs, Hc. simpl. by rewrite Hs.
  - intros s s'. subst s'.
    unfold GitHubReadmeFetcher.close, GitHubReadmeFetcher._get_http_client. unfold_monad.
    destruct (GitHubReadmeFetcher._http_client s) as [[[]]|] eqn:Hs; simpl;
      rewrite ?Hs; simpl; repeat split; try done;
      intros ? ->; reflexivity.
Qed.

(** a session that is opened by a fetch, closed, and opened again *)
Lemma session_reused_until_closed_witness :
  let s1 := Demo.context7_ready in
  Context7Search._http_client s1 = Some {| closed := false |} /\
  Context7Search._get_http_client Demo.offline s1
  = (Returns (Some {| closed := false |}), s1, []) /\
  client_session Demo.online = Returns {| closed := false |} /\
  Context7Search._get_http_client Demo.online (state_of (Context7Search.close s1))
  = (Returns (Some {| closed := false |}),
     Context7Search.set_http_client (Some {| closed := false |})
       (state_of (Context7Search.close s1)), []).
Proof.
  intros s1.
  assert (Context7Search._http_client s1 = Some {| closed := false |}) as Hs
    by (vm_compute; reflexivity).
  destruct (session_reused_until_closed Demo.offline) as (Hreuse & _).
  destruct (session_reused_until_closed Demo.online) as (_ & Hclose & _).
  destruct (Hclose s1) as (_ & _ & _ & _ & _ & _ & _ & Hnew & _).
  split; [exact Hs|]. split; [exact (Hreuse s1 _ Hs eq_refl)|].
  split; [reflexivity|]. exact (Hnew _ eq_refl).
Defined.

(** ** [clear_cache] *)

(** X8. After [clear_cache] nothing that was cached is served: whatever
    [use_cache] says, a fetch returns the empty string when its request fails
    and a search then returns no results, and with a session at hand the
    fetch starts with the HTTP request; the indices are gone as well. *)
Theorem clear_cache_forgets (w : World) :
  (forall s topic tokens use_cache,
     let cleared := Context7Search.clear_cache s in
     (forall key, Context7Search.index_ready cleared key = false) /\
     (forall e,
        http_get w Context7Search.CONTEXT7_BASE_URL
          (Context7Search.request_params topic tokens) = Raises e ->
        result_of (Context7Search.fetch w topic tokens use_cache cleared) = Returns "" /\
        forall query max_results,
          result_of (Context7Search.search w query topic tokens max_results use_cache
                       cleared) = Returns []) /\
     (session_ready w (Context7Search._http_client s) ->
        exists rest,
          trace_of (Context7Search.fetch w topic tokens use_cache cleared)
          = HttpGet Context7Search.CONTEXT7_BASE_URL
              (Context7Search.request_params topic tokens) :: rest)) /\
  (forall s use_cache,
     let cleared := GitHubReadmeFetcher.clear_cache s in
     GitHubReadmeFetcher._rag_ready cleared = false /\
     GitHubReadmeFetcher._search_engine cleared = None /\
     (forall e,
        http_get w GitHubReadmeFetcher.GITHUB_README_URL [] = Raises e ->
        result_of (GitHubReadmeFetcher.fetch_readme w use_cache cleared) = Returns "" /\
        forall query max_results,
          result_of (GitHubReadmeFetcher.search w query max_results cleared)
          = Returns []) /\
     (session_ready w (GitHubReadmeFetcher._http_client s) ->
        exists rest,
          trace_of (GitHubReadmeFetcher.fetch_readme w use_cache cleared)
          = HttpGet GitHubReadmeFetcher.GITHUB_README_URL [] :: rest)).
Proof.
  split.
  - intros s topic tokens use_cache cleared.
    assert (forall uc, c7_cached cleared topic tokens uc = None) as Hmiss.
    { intros uc. unfold c7_cached. subst cleared. simpl.
      rewrite lookup_empty. by destruct (uc && _). }
    split; [|split].
    + intros key. unfold Context7Search.index_ready. subst cleared. simpl.
      by rewrite lookup_empty.
    + intros e He.
      assert (result_of (Context7Search.fetch w topic tokens use_cache cleared)
              = Returns "") as Hf by (by eapply c7_fetch_http_error).
      split; [exact Hf|]. intros query max_results. by apply c7_search_empty.
    + intros Hready. by apply c7_fetch_bypass_trace.
  - intros s use_cache cleared.
    assert (forall uc, gh_cached cleared uc = None) as Hmiss.
    { intros uc. unfold gh_cached. subst cleared. simpl. by destruct (uc && _). }
    split; [done|]. split; [done|]. split.
    + intros e He.
      split; [by eapply gh_fetch_http_error|].
      intros query max_results. apply gh_search_empty. by eapply gh_fetch_http_error.
    + intros Hready. by apply gh_fetch_bypass_trace.
Qed.

(** the cached README is dropped, and the network is down *)
Lemma clear_cache_forgets_witness :
  let cleared := GitHubReadmeFetcher.clear_cache Demo.github_ready in
  GitHubReadmeFetcher._cache Demo.github_ready = Some Demo.readme /\
  http_get Demo.offline GitHubReadmeFetcher.GITHUB_README_URL []
  = Raises (ClientError "connection refused") /\
  result_of (GitHubReadmeFetcher.fetch_readme Demo.offline true cleared) = Returns "" /\
  result_of (GitHubReadmeFetcher.search Demo.offline "parole" 5 cleared) = Returns [].
Proof.
  intros cleared.
  destruct (clear_cache_forgets Demo.offline) as [_ H].
  destruct (H Demo.github_ready true) as (_ & _ & Hoff & _).
  destruct (Hoff _ eq_refl) as [Hf Hs].
  split; [vm_compute; reflexivity|]. split; [reflexivity|].
  split; [exact Hf|apply Hs].
Defined.

(** ** Well-formed indices *)

Lemma c7_build_indices_ok (w : World) content key :
  preserves c7_indices_ok (Context7Search._build_rag_index w content key).
Proof.
  intros s Hok.
  unfold Context7Search._build_rag_index, add_documents. unfold_monad.
  repeat (simpl; step); simpl; try exact Hok.
  unfold c7_indices_ok. simpl. apply map_Forall_insert_2; [|exact Hok].
  split; [done|]. split; [done|]. simpl.
  subst. by eexists _, _, _.
Qed.

Lemma c7_ensure_indices_ok (w : World) content key :
  preserves c7_indices_ok (Context7Search._ensure_rag_ready w content key).
Proof.
  pose proof (c7_build_indices_ok w content key) as Hbuild.
  unfold Context7Search._ensure_rag_ready.
  repeat preserve_step; eauto.
Qed.

Lemma gh_build_ready_ok (w : World) content :
  preserves gh_ready_ok (GitHubReadmeFetcher._build_rag_index w content).
Proof.
  intros s Hok.
  unfold GitHubReadmeFetcher._build_rag_index, add_documents. unfold_monad.
  repeat (simpl; step); simpl; try exact Hok;
    unfold gh_ready_ok in *; simpl; intros; (split; [by eexists|done]).
Qed.

Lemma gh_ensure_ready_ok (w : World) content :
  preserves gh_ready_ok (GitHubReadmeFetcher._ensure_rag_ready w content).
Proof.
  pose proof (gh_build_ready_ok w content) as Hbuild.
  unfold GitHubReadmeFetcher._ensure_rag_ready.
  repeat preserve_step; eauto.
Qed.

Lemma kb_build_ready_ok (w : World) :
  preserves kb_ready_ok (KnowledgeBase._build_rag_index w).
Proof.
  intros s Hok.
  unfold KnowledgeBase._build_rag_index. rewrite bind_get.
  destruct (KnowledgeBase._rag_ready s || _); [exact Hok|].
  unfold mbind, M_bind, bind at 1. rewrite kb_collect_chunks.
  unfold add_documents. unfold_monad.
  repeat (simpl; step); simpl; try exact Hok;
    unfold kb_ready_ok in *; simpl; intros; try (split; [by eexists|done]); auto.
Qed.

Lemma kb_ensure_ready_ok (w : World) :
  preserves kb_ready_ok (KnowledgeBase._ensure_rag_ready w).
Proof.
  pose proof (kb_build_ready_ok w) as Hbuild.
  unfold KnowledgeBase._ensure_rag_ready.
  repeat preserve_step; eauto.
Qed.

(** X9. Indices are well formed.  Every index that [Context7Search] stores is
    marked ready, has chunks, and has an engine of the dimension of the first
    dense vector holding exactly these chunks; so a topic is ready exactly
    when an index is stored for it.  In [GitHubReadmeFetcher] and
    [KnowledgeBase] a ready index has an engine and chunks, so the engine test
    that follows the ready test in [search] never fails on its own.  The fresh
    instances have these properties, and [fetch], [fetch_readme], [search],
    [initialize], [close], [clear_cache] and [set_cache_enabled] keep them,
    whether they return or raise. *)
Theorem indices_well_formed (w : World) :
  (c7_indices_ok Context7Search.__init__ /\
   forall s, c7_indices_ok s ->
     (forall key, Context7Search.index_ready s key = true
                  <-> is_Some (Context7Search._rag_indices s !! key)) /\
     (forall topic tokens use_cache,
        c7_indices_ok (state_of (Context7Search.fetch w topic tokens use_cache s))) /\
     (forall query topic tokens max_results use_cache,
        c7_indices_ok
          (state_of (Context7Search.search w query topic tokens max_results use_cache s))) /\
     c7_indices_ok (state_of (Context7Search.close s)) /\
     c7_indices_ok (Context7Search.clear_cache s) /\
     forall enabled, c7_indices_ok (Context7Search.set_cache_enabled enabled s)) /\
  (gh_ready_ok GitHubReadmeFetcher.__init__ /\
   forall s, gh_ready_ok s ->
     (forall use_cache,
        gh_ready_ok (state_of (GitHubReadmeFetcher.fetch_readme w use_cache s))) /\
     (forall query max_results,
        gh_ready_ok (state_of (GitHubReadmeFetcher.search w query max_results s))) /\
     gh_ready_ok (state_of (GitHubReadmeFetcher.close s)) /\
     gh_ready_ok (GitHubReadmeFetcher.clear_cache s) /\
     forall enabled, gh_ready_ok (GitHubReadmeFetcher.set_cache_enabled enabled s)) /\
  ((forall use_embeddings, kb_ready_ok (KnowledgeBase.__init__ use_embeddings)) /\
   forall s, kb_ready_ok s ->
     kb_ready_ok (state_of (KnowledgeBase.initialize w s)) /\
     forall query max_results,
       kb_ready_ok (state_of (KnowledgeBase.search w query max_results s))).
Proof.
  split; [|split].
  - split; [apply map_Forall_empty|]. intros s Hok.
    assert (forall content key,
              preserves c7_indices_ok (Context7Search._ensure_rag_ready w content key))
      as Hens by (intros; apply c7_ensure_indices_ok).
    assert (forall topic tokens use_cache,
              preserves c7_indices_ok (Context7Search.fetch w topic tokens use_cache))
      as Hfetch.
    { intros. apply c7_fetch_preserves; auto. apply c7_client_preserves; auto. }
    split; [|split; [|split; [|split; [|split]]]].
    + intros key. unfold Context7Search.index_ready.
      destruct (Context7Search._rag_indices s !! key) as [idx|] eqn:Hk.
      * split; [by eexists|]. intros _. by destruct (Hok key idx Hk) as [Hr _].
      * split; [done|]. by intros [? ?].
    + intros. by apply Hfetch.
    + intros. apply c7_search_preserves; auto.
    + apply c7_close_preserves; auto.
    + apply map_Forall_empty.
    + intros. exact Hok.
  - split; [intros Hr; discriminate Hr|]. intros s Hok.
    assert (forall content,
              preserves gh_ready_ok (GitHubReadmeFetcher._ensure_rag_ready w content))
      as Hens by (intros; apply gh_ensure_ready_ok).
    assert (forall use_cache,
              preserves gh_ready_ok (GitHubReadmeFetcher.fetch_readme w use_cache))
      as Hfetch.
    { intros. apply gh_fetch_preserves; auto. apply gh_client_preserves; auto. }
    split; [|split; [|split; [|split]]].
    + intros. by apply Hfetch.
    + intros. apply gh_search_preserves; auto.
    + apply gh_close_preserves; auto.
    + intros Hr; discriminate Hr.
    + intros. exact Hok.
  - split; [intros ? Hr; discriminate Hr|]. intros s Hok.
    pose proof (kb_ensure_ready_ok w) as Hens.
    assert (preserves kb_ready_ok (KnowledgeBase.initialize w)) as Hinit
      by (apply kb_initialize_preserves; auto).
    split; [by apply Hinit|].
    intros. apply kb_search_preserves; auto.
Qed.

Lemma indices_well_formed_witness :
  c7_indices_ok Demo.context7_ready /\
  c7_indices_ok
    (state_of (Context7Search.search Demo.online "parole" (Some "jail") 5000 5 true
                 Demo.context7_ready)).
Proof.
  assert (c7_indices_ok Demo.context7_ready) as Hok.
  { unfold c7_indices_ok, Demo.context7_ready. apply map_Forall_insert_2.
    - split; [reflexivity|]. split; [discriminate|].
      eexists _, _, _. split; reflexivity.
    - apply map_Forall_empty. }
  split; [exact Hok|].
  destruct (indices_well_formed Demo.online) as [[_ H] _].
  destruct (H Demo.context7_ready Hok) as (_ & _ & Hs & _).
  apply Hs.
Defined.

(** ** The parts the handlers join *)

Lemma content_parts_fold results acc :
  fold_left
    (fun content_parts result =>
       let snippet := sr_snippet result in
       if Py.truthy snippet then
         let snippet := Py.strip snippet in
         if Py.truthy snippet then content_parts ++ [snippet] else content_parts
       else content_parts)
    results acc
  = acc ++ List.filter Py.truthy (map (fun r => Py.strip (sr_snippet r)) results).
Proof.
  revert acc. induction results as [|r t IH]; intros acc; simpl.
  - by rewrite app_nil_r.
  - rewrite IH. destruct (sr_snippet r) as [|c s] eqn:E; simpl.
    + done.
    + destruct (Py.truthy (Py.strip (String c s))); [|done].
      by rewrite <- (assoc_L (++)).
Qed.

(** the parts are the stripped snippets that are not empty, in the order of
    the results *)
Lemma content_parts_filter results :
  Bot.content_parts results
  = List.filter Py.truthy (map (fun r => Py.strip (sr_snippet r)) results).
Proof. unfold Bot.content_parts. by rewrite content_parts_fold. Qed.

(** X19. The parts a handler joins are the stripped snippets of the results
    that are not empty, in the order of the results: the test of the snippet
    before the strip changes nothing, since stripping the empty text gives the
    empty text.  So no part is empty and there are at most as many parts as
    results. *)
Theorem content_parts_stripped_snippets (results : list SearchResult) :
  Bot.content_parts results
  = List.filter Py.truthy (map (fun r => Py.strip (sr_snippet r)) results) /\
  Forall (fun part => part <> "") (Bot.content_parts results) /\
  (length (Bot.content_parts results) <= length results)%nat.
Proof.
  rewrite content_parts_filter. split; [done|]. split.
  - apply Forall_forall. intros part Hin. apply list_elem_of_In in Hin.
    apply List.filter_In in Hin as [_ Ht]. by destruct part.
  - pose proof (List.filter_length_le Py.truthy
                  (map (fun r => Py.strip (sr_snippet r)) results)) as H.
    by rewrite length_map in H.
Qed.

(** ** The tool handlers *)

Section ReturnsOnly.
Context {S A : Type} (P : A -> Prop).

Lemma returns_only_ret (a : A) : P a -> returns_only P (ret a : M S A).
Proof. intros Ha s a' [= <-]. exact Ha. Qed.

Lemma returns_only_bind {B} (m : M S B) (k : B -> M S A) :
  (forall b, returns_only P (k b)) -> returns_only P (x ← m; k x).
Proof.
  intros Hk s a. unfold mbind, M_bind, bind, result_of.
  destruct (m s) as [[[b|e] s1] t1]; simpl; [|discriminate].
  specialize (Hk b s1 a). unfold result_of in Hk.
  by destruct (k b s1) as [[r s2] t2].
Qed.

Lemma returns_only_try_except (m : M S A) (h : exn -> M S A) :
  returns_only P m -> (forall e, returns_only P (h e)) -> returns_only P (try_except m h).
Proof.
  intros Hm Hh s a. unfold try_except, result_of.
  specialize (Hm s a). unfold result_of in Hm.
  destruct (m s) as [[[b|e] s1] t1]; simpl in *; [exact Hm|].
  specialize (Hh e s1 a). unfold result_of in Hh.
  by destruct (h e s1) as [[r s2] t2].
Qed.

Lemma try_except_never_raises (m : M S A) (h : exn -> M S A) :
  (forall e, never_raises (h e)) -> never_raises (try_except m h).
Proof.
  intros Hh s. unfold try_except, result_of.
  destruct (m s) as [[[b|e] s1] t1]; simpl; [by eexists|].
  destruct (Hh e s1) as [a Ha]. unfold result_of in Ha.
  destruct (h e s1) as [[r s2] t2]. simpl in *. by exists a.
Qed.

Lemma never_raises_ret (a : A) : never_raises (ret a : M S A).
Proof. intros s. by exists a. Qed.

End ReturnsOnly.

Lemma str_len_app (a b : string) : Py.len (a +:+ b) = Py.len a + Py.len b.
Proof.
  unfold Py.len. induction a as [|c a IH]; [rewrite app_Empty; simpl; lia|].
  rewrite app_String. simpl String.length. lia.
Qed.

Lemma combine_length (parts : list string) (limit : Z) (marker : string) :
  0 <= limit -> Py.len (Bot.combine parts limit marker) <= limit + Py.len marker.
Proof.
  intros Hl. unfold Bot.combine. cbv zeta.
  destruct (limit <? Py.len _) eqn:E.
  - rewrite str_len_app. pose proof (str_to_length limit (Py.join (nl +:+ nl) parts) Hl).
    lia.
  - apply Z.ltb_ge in E. unfold Py.len in *. lia.
Qed.

Ltac answer_step :=
  lazymatch goal with
  | |- returns_only _ (ret _) => apply returns_only_ret
  | |- returns_only _ (mret _) => apply returns_only_ret
  | |- returns_only _ (mbind _ _) => apply returns_only_bind; intros ?
  | |- returns_only _ (try_except _ _) => apply returns_only_try_except; [|intros ?]
  | |- returns_only _ (match ?x with _ => _ end) => destruct x
  | |- returns_only _ (let _ := _ in _) => cbv zeta
  end.

Lemma knowledge_handler_answer (w : World) query :
  returns_only knowledge_answer (Bot.search_knowledge_handler w query).
Proof.
  unfold Bot.search_knowledge_handler.
  repeat answer_step;
    first [ right; by eexists
          | left;
            match goal with
            | |- context [Bot.combine ?parts _ _] =>
              pose proof (combine_length parts 3000 "...")
            end;
            change (Py.len "...") with 3 in *; lia
          | left; vm_compute; discriminate ].
Qed.

Lemma context7_handler_answer (w : World) query topic tokens :
  returns_only (context7_answer query) (Bot.search_context7_handler w query topic tokens).
Proof.
  unfold Bot.search_context7_handler.
  repeat answer_step;
    first [ right; right; by eexists
          | right; left; reflexivity
          | left;
            match goal with
            | |- context [Bot.combine ?parts _ _] =>
              pose proof (combine_length parts 5000
                            (nl +:+ nl +:+ "... (more results available)"))
            end;
            change (Py.len (nl +:+ nl +:+ "... (more results available)")) with 30 in *;
            lia
          | left; vm_compute; discriminate ].
Qed.

Lemma readme_handler_answer (w : World) query use_cache :
  returns_only (readme_answer query) (Bot.search_github_readme_handler w query use_cache).
Proof.
  unfold Bot.search_github_readme_handler.
  repeat answer_step;
    first [ right; right; by eexists
          | right; left; reflexivity
          | left;
            match goal with
            | |- context [Bot.combine ?parts _ _] =>
              pose proof (combine_length parts 5000
                            (nl +:+ nl +:+ "... (more results available)"))
            end;
            change (Py.len (nl +:+ nl +:+ "... (more results available)")) with 30 in *;
            lia
          | left;
            match goal with
            | |- context [Py.str_to 2000 ?c] =>
              pose proof (str_to_length 2000 c)
            end;
            rewrite str_len_app;
            change (Py.len (nl +:+ nl
                            +:+ "... (Use a specific query to search the full README)"))
              with 54 in *;
            lia
          | left; vm_compute; discriminate ].
Qed.

Lemma content_parts_head results part parts :
  Bot.content_parts results = part :: parts -> part <> "".
Proof.
  rewrite content_parts_filter. intros H.
  assert (In part (List.filter Py.truthy
                     (map (fun r => Py.strip (sr_snippet r)) results))) as Hin
    by (rewrite H; by left).
  apply List.filter_In in Hin as [_ Ht]. by destruct part.
Qed.

Lemma app_nonempty_r a b : b <> "" -> a +:+ b <> "".
Proof.
  intros Hb. destruct a as [|c a]; [by rewrite app_Empty|by rewrite app_String].
Qed.

Lemma join_nonempty sep part parts : part <> "" -> Py.join sep (part :: parts) <> "".
Proof.
  intros Hp. destruct part as [|c part]; [done|].
  destruct parts as [|y t]; [done|].
  change (Py.join sep (String c part :: y :: t))
    with (String c part +:+ sep +:+ Py.join sep (y :: t)).
  by rewrite app_String.
Qed.

Lemma combine_nonempty part parts limit marker :
  part <> "" -> marker <> "" -> Bot.combine (part :: parts) limit marker <> "".
Proof.
  intros Hp Hm. unfold Bot.combine. cbv zeta.
  destruct (limit <? _); [by apply app_nonempty_r|by apply join_nonempty].
Qed.

Ltac answer_step_eq :=
  lazymatch goal with
  | |- returns_only _ (ret _) => apply returns_only_ret
  | |- returns_only _ (mret _) => apply returns_only_ret
  | |- returns_only _ (mbind _ _) => apply returns_only_bind; intros ?
  | |- returns_only _ (try_except _ _) => apply returns_only_try_except; [|intros ?]
  | |- returns_only _ (match ?x with _ => _ end) => destruct x eqn:?
  | |- returns_only _ (let _ := _ in _) => cbv zeta
  end.

Ltac nonempty_leaf :=
  first [ discriminate
        | by rewrite app_String
        | apply combine_nonempty;
          [eapply content_parts_head; eassumption|discriminate]
        | apply app_nonempty_r; discriminate ].

Lemma knowledge_handler_nonempty (w : World) query :
  returns_only (fun text => text <> "") (Bot.search_knowledge_handler w query).
Proof.
  unfold Bot.search_knowledge_handler. repeat answer_step_eq; nonempty_leaf.
Qed.

Lemma context7_handler_nonempty (w : World) query topic tokens :
  returns_only (fun text => text <> "") (Bot.search_context7_handler w query topic tokens).
Proof.
  unfold Bot.search_context7_handler. repeat answer_step_eq; nonempty_leaf.
Qed.

Lemma readme_handler_nonempty (w : World) query use_cache :
  returns_only (fun text => text <> "") (Bot.search_github_readme_handler w query use_cache).
Proof.
  unfold Bot.search_github_readme_handler. repeat answer_step_eq; nonempty_leaf.
Qed.

Lemma long_query_passes query :
  2 <= Py.len (Py.strip query) ->
  negb (Py.truthy query) || (Py.len (Py.strip query) <? 2) = false.
Proof.
  intros Hlen.
  destruct query as [|c q]; [change (Py.len (Py.strip "")) with 0 in Hlen; lia|].
  simpl. apply Z.ltb_ge. lia.
Qed.

(** the text of a handler whose search returned results with a snippet *)
Lemma knowledge_handler_joins (w : World) s query results :
  2 <= Py.len (Py.strip query) ->
  result_of (KnowledgeBase.search w query 5 (Bot.knowledge_base s)) = Returns results ->
  Bot.content_parts results <> [] ->
  result_of (Bot.search_knowledge_handler w query s)
  = Returns (Bot.combine (Bot.content_parts results) 3000 "...").
Proof.
  intros Hlen Hres Hparts. unfold Bot.search_knowledge_handler.
  rewrite (long_query_passes _ Hlen). unfold_monad.
  destruct (KnowledgeBase.search w query 5 (Bot.knowledge_base s)) as [[r0 k1] t1].
  simpl in Hres. subst r0. simpl.
  destruct results as [|r rest]; [done|].
  by destruct (Bot.content_parts (r :: rest)).
Qed.

Lemma context7_handler_joins (w : World) s query topic tokens results :
  2 <= Py.len (Py.strip query) ->
  let search_topic := if Py.truthy topic then Py.strip topic else query in
  result_of (Context7Search.search w query
               (if Py.truthy search_topic then Some search_topic else None) tokens 5 true
               (Bot.context7_search s)) = Returns results ->
  Bot.content_parts results <> [] ->
  result_of (Bot.search_context7_handler w query topic tokens s)
  = Returns (Bot.combine (Bot.content_parts results) 5000
               (nl +:+ nl +:+ "... (more results available)")).
Proof.
  intros Hlen search_topic Hres Hparts. subst search_topic.
  unfold Bot.search_context7_handler.
  rewrite (long_query_passes _ Hlen). cbv zeta. unfold_monad.
  destruct (Context7Search.search w query _ tokens 5 true (Bot.context7_search s))
    as [[r0 k1] t1].
  simpl in Hres. subst r0. simpl.
  destruct results as [|r rest]; [done|].
  by destruct (Bot.content_parts (r :: rest)).
Qed.

Lemma readme_handler_joins (w : World) s query use_cache results :
  2 <= Py.len (Py.strip query) ->
  result_of (GitHubReadmeFetcher.search w query 5 (Bot.github_readme_fetcher s))
  = Returns results ->
  Bot.content_parts results <> [] ->
  result_of (Bot.search_github_readme_handler w query use_cache s)
  = Returns (Bot.combine (Bot.content_parts results) 5000
               (nl +:+ nl +:+ "... (more results available)")).
Proof.
  intros Hlen Hres Hparts. unfold Bot.search_github_readme_handler.
  rewrite (long_query_passes _ Hlen). cbv zeta. unfold_monad.
  destruct (GitHubReadmeFetcher.search w query 5 (Bot.github_readme_fetcher s))
    as [[r0 k1] t1].
  simpl in Hres. subst r0. simpl.
  destruct results as [|r rest]; [done|].
  by destruct (Bot.content_parts (r :: rest)).
Qed.

(** X10. The tool handlers always answer: whatever the adapters and their
    collaborators do, a handler returns a text and raises nothing, and the
    text is never empty.  The text of the knowledge handler has at most 3003
    characters unless it reports an exception; the texts of the Context7 and
    README handlers have at most 5030 characters unless they report an
    exception or that nothing was found for the query.  When the search of a
    handler returns results of which at least one has a snippet that is not
    blank, the answer is all the stripped snippets that are not empty, joined
    by an empty line in the order of the results and cut to 3000 (knowledge
    handler) or 5000 characters with the marker of the handler appended. *)
Theorem handlers_always_answer (w : World) (s : Bot.t) :
  (forall query,
     exists text, result_of (Bot.search_knowledge_handler w query s) = Returns text /\
                  text <> "" /\ knowledge_answer text) /\
  (forall query topic tokens,
     exists text, result_of (Bot.search_context7_handler w query topic tokens s)
                  = Returns text /\
                  text <> "" /\ context7_answer query text) /\
  (forall query use_cache,
     exists text, result_of (Bot.search_github_readme_handler w query use_cache s)
                  = Returns text /\
                  text <> "" /\ readme_answer query text) /\
  (forall query results,
     2 <= Py.len (Py.strip query) ->
     result_of (KnowledgeBase.search w query 5 (Bot.knowledge_base s)) = Returns results ->
     Bot.content_parts results <> [] ->
     result_of (Bot.search_knowledge_handler w query s)
     = Returns (Bot.combine (Bot.content_parts results) 3000 "...")) /\
  (forall query topic tokens results,
     2 <= Py.len (Py.strip query) ->
     let search_topic := if Py.truthy topic then Py.strip topic else query in
     result_of (Context7Search.search w query
                  (if Py.truthy search_topic then Some search_topic else None) tokens 5
                  true (Bot.context7_search s)) = Returns results ->
     Bot.content_parts results <> [] ->
     result_of (Bot.search_context7_handler w query topic tokens s)
     = Returns (Bot.combine (Bot.content_parts results) 5000
                  (nl +:+ nl +:+ "... (more results available)"))) /\
  (forall query use_cache results,
     2 <= Py.len (Py.strip query) ->
     result_of (GitHubReadmeFetcher.search w query 5 (Bot.github_readme_fetcher s))
     = Returns results ->
     Bot.content_parts results <> [] ->
     result_of (Bot.search_github_readme_handler w query use_cache s)
     = Returns (Bot.combine (Bot.content_parts results) 5000
                  (nl +:+ nl +:+ "... (more results available)"))).
Proof.
  split; [|split; [|split; [|split; [|split]]]].
  - intros query.
    assert (never_raises (Bot.search_knowledge_handler w query)) as Hn.
    { unfold Bot.search_knowledge_handler.
      destruct (_ || _); [apply never_raises_ret|].
      apply try_except_never_raises. intros e. apply never_raises_ret. }
    destruct (Hn s) as [text Ht]. exists text. split; [exact Ht|]. split.
    + exact (knowledge_handler_nonempty w query s text Ht).
    + exact (knowledge_handler_answer w query s text Ht).
  - intros query topic tokens.
    assert (never_raises (Bot.search_context7_handler w query topic tokens)) as Hn.
    { unfold Bot.search_context7_handler.
      destruct (_ || _); [apply never_raises_ret|].
      apply try_except_never_raises. intros e. apply never_raises_ret. }
    destruct (Hn s) as [text Ht]. exists text. split; [exact Ht|]. split.
    + exact (context7_handler_nonempty w query topic tokens s text Ht).
    + exact (context7_handler_answer w query topic tokens s text Ht).
  - intros query use_cache.
    assert (never_raises (Bot.search_github_readme_handler w query use_cache)) as Hn.
    { unfold Bot.search_github_readme_handler.
      apply try_except_never_raises. intros e. apply never_raises_ret. }
    destruct (Hn s) as [text Ht]. exists text. split; [exact Ht|]. split.
    + exact (readme_handler_nonempty w query use_cache s text Ht).
    + exact (readme_handler_answer w query use_cache s text Ht).
  - intros. by apply knowledge_handler_joins.
  - intros query topic tokens results Hlen search_topic. subst search_topic.
    by apply context7_handler_joins.
  - intros. by apply readme_handler_joins.
Qed.

(** one result: the answer is its snippet *)
Lemma handlers_always_answer_witness :
  let s := {| Bot.knowledge_base := Demo.kb_ready;
              Bot.context7_search := Context7Search.__init__;
              Bot.github_readme_fetcher := GitHubReadmeFetcher.__init__ |} in
  result_of (Bot.search_knowledge_handler Demo.online "parole" s) = Returns Demo.readme.
Proof.
  intros s.
  destruct (handlers_always_answer Demo.online s) as (_ & _ & _ & H & _).
  destruct (result_of (KnowledgeBase.search Demo.online "parole" 5 Demo.kb_ready))
    as [results|e] eqn:E; [|vm_compute in E; discriminate E].
  rewrite (H "parole" results).
  - vm_compute in E. injection E as <-. vm_compute. reflexivity.
  - vm_compute. discriminate.
  - exact E.
  - vm_compute in E. injection E as <-. vm_compute. discriminate.
Defined.

Ltac frame_steps :=
  repeat first [preserve_step | apply preserves_zoom; intros; assumption].

Lemma knowledge_handler_frame (w : World) query (g : GitHubReadmeFetcher.t) :
  preserves (fun s => Bot.github_readme_fetcher s = g) (Bot.search_knowledge_handler w query).
Proof. unfold Bot.search_knowledge_handler. frame_steps. Qed.

Lemma context7_handler_frame (w : World) query topic tokens k g :
  preserves (fun s => Bot.knowledge_base s = k /\ Bot.github_readme_fetcher s = g)
    (Bot.search_context7_handler w query topic tokens).
Proof. unfold Bot.search_context7_handler. frame_steps. Qed.

Lemma readme_handler_frame (w : World) query use_cache k c :
  preserves (fun s => Bot.knowledge_base s = k /\ Bot.context7_search s = c)
    (Bot.search_github_readme_handler w query use_cache).
Proof. unfold Bot.search_github_readme_handler. frame_steps. Qed.

(** X11. Each handler works on its own adapters: the knowledge handler never
    touches the README adapter, and touches the Context7 adapter only when the
    knowledge base returned no result (otherwise its operations are exactly
    those of the knowledge base search); the Context7 handler changes neither
    the knowledge base nor the README adapter; the README handler changes
    neither the knowledge base nor the Context7 adapter. *)
Theorem handlers_keep_to_their_adapters (w : World) (s : Bot.t) :
  (forall query,
     let run := Bot.search_knowledge_handler w query s in
     Bot.github_readme_fetcher (state_of run) = Bot.github_readme_fetcher s /\
     forall r results,
       2 <= Py.len (Py.strip query) ->
       result_of (KnowledgeBase.search w query 5 (Bot.knowledge_base s))
       = Returns (r :: results) ->
       Bot.context7_search (state_of run) = Bot.context7_search s /\
       trace_of run = trace_of (KnowledgeBase.search w query 5 (Bot.knowledge_base s))) /\
  (forall query topic tokens,
     let run := Bot.search_context7_handler w query topic tokens s in
     Bot.knowledge_base (state_of run) = Bot.knowledge_base s /\
     Bot.github_readme_fetcher (state_of run) = Bot.github_readme_fetcher s) /\
  (forall query use_cache,
     let run := Bot.search_github_readme_handler w query use_cache s in
     Bot.knowledge_base (state_of run) = Bot.knowledge_base s /\
     Bot.context7_search (state_of run) = Bot.context7_search s).
Proof.
  split; [|split].
  - intros query run. subst run. split.
    + by apply knowledge_handler_frame.
    + intros r results Hlen Hres.
      unfold Bot.search_knowledge_handler.
      assert (negb (Py.truthy query) || (Py.len (Py.strip query) <? 2) = false) as ->.
      { destruct query as [|c q]; [change (Py.len (Py.strip "")) with 0 in Hlen; lia|].
        simpl. apply Z.ltb_ge. lia. }
      unfold_monad.
      destruct (KnowledgeBase.search w query 5 (Bot.knowledge_base s)) as [[r0 k1] t1].
      simpl in Hres. subst r0. simpl.
      destruct (Bot.content_parts (r :: results)); simpl; by rewrite app_nil_r.
  - intros query topic tokens run. subst run.
    by apply context7_handler_frame.
  - intros query use_cache run. subst run.
    by apply readme_handler_frame.
Qed.

Lemma handlers_keep_to_their_adapters_witness :
  let s := {| Bot.knowledge_base := Demo.kb_ready;
              Bot.context7_search := Context7Search.__init__;
              Bot.github_readme_fetcher := GitHubReadmeFetcher.__init__ |} in
  let run := Bot.search_knowledge_handler Demo.online "parole" s in
  Bot.context7_search (state_of run) = Context7Search.__init__ /\
  trace_of run = trace_of (KnowledgeBase.search Demo.online "parole" 5 Demo.kb_ready).
Proof.
  intros s run.
  destruct (handlers_keep_to_their_adapters Demo.online s) as [H _].
  destruct (H "parole") as [_ H'].
  destruct (result_of (KnowledgeBase.search Demo.online "parole" 5 Demo.kb_ready))
    as [[|r results]|e] eqn:E; try (vm_compute in E; discriminate E).
  apply (H' r results); [vm_compute; discriminate|exact E].
Defined.

(** ** How many results a search returns *)

Lemma returns_only_bind_with {S A B} (Q : B -> Prop) (P : A -> Prop)
  (m : M S B) (k : B -> M S A) :
  returns_only Q m -> (forall b, Q b -> returns_only P (k b)) ->
  returns_only P (x ← m; k x).
Proof.
  intros Hm Hk s a. unfold mbind, M_bind, bind, result_of.
  specialize (Hm s). unfold result_of in Hm.
  destruct (m s) as [[[b|e] s1] t1]; simpl in *; [|discriminate].
  specialize (Hk b (Hm b eq_refl) s1 a). unfold result_of in Hk.
  by destruct (k b s1) as [[r s2] t2].
Qed.

Lemma at_most_formatted {A} (f : A -> SearchResult) (l : list A) n :
  0 <= n -> at_most n (map f (Py.slice_to n l)).
Proof.
  intros Hn. unfold at_most. rewrite length_map. by apply slice_to_length.
Qed.

Lemma kb_rag_search_count (w : World) query max_results :
  0 <= max_results ->
  returns_only (at_most max_results) (KnowledgeBase._rag_search w query max_results).
Proof.
  intros Hn. unfold KnowledgeBase._rag_search.
  repeat answer_step; first [by apply at_most_formatted | unfold at_most; simpl; lia].
Qed.

Lemma kb_keyword_count query max_results :
  0 <= max_results ->
  returns_only (at_most max_results) (KnowledgeBase.keyword_fallback query max_results).
Proof.
  intros Hn. unfold KnowledgeBase.keyword_fallback.
  repeat answer_step. unfold KnowledgeBase._search_keyword. cbv zeta.
  by apply slice_to_length.
Qed.

Lemma kb_search_count (w : World) query max_results :
  0 <= max_results ->
  returns_only (at_most max_results) (KnowledgeBase.search w query max_results).
Proof.
  intros Hn. unfold KnowledgeBase.search.
  pose proof (kb_keyword_count query max_results Hn) as Hkw.
  assert (at_most max_results []) as Hnil by (unfold at_most; simpl; lia).
  destruct (_ || _); [by apply returns_only_ret|].
  do 3 (apply returns_only_bind; intros ?).
  destruct (KnowledgeBase.index _); [by apply returns_only_ret|].
  destruct (negb _); [exact Hkw|].
  do 2 (apply returns_only_bind; intros ?).
  destruct (_ || _); [exact Hkw|].
  apply (returns_only_bind_with (at_most max_results)).
  - apply returns_only_try_except; [|intros ?; by apply returns_only_ret].
    by apply kb_rag_search_count.
  - intros [|r rest] Hr; [exact Hkw|by apply returns_only_ret].
Qed.

Lemma c7_rag_search_count (w : World) query key max_results :
  0 <= max_results ->
  returns_only (at_most max_results) (Context7Search._rag_search w query key max_results).
Proof.
  intros Hn. unfold Context7Search._rag_search.
  repeat answer_step; first [by apply at_most_formatted | unfold at_most; simpl; lia].
Qed.

Lemma c7_keyword_count query content max_results :
  returns_only (at_most 1) (Context7Search.keyword_fallback query content max_results).
Proof.
  unfold Context7Search.keyword_fallback, Context7Search._search_keyword.
  repeat answer_step. cbv zeta.
  destruct (_ <? _)%nat; unfold at_most; simpl length; lia.
Qed.

Lemma gh_rag_search_count (w : World) query max_results :
  0 <= max_results ->
  returns_only (at_most max_results) (GitHubReadmeFetcher._rag_search w query max_results).
Proof.
  intros Hn. unfold GitHubReadmeFetcher._rag_search.
  repeat answer_step; first [by apply at_most_formatted | unfold at_most; simpl; lia].
Qed.

Lemma gh_keyword_count query content max_results :
  returns_only (at_most 1) (GitHubReadmeFetcher.keyword_fallback query content max_results).
Proof.
  unfold GitHubReadmeFetcher.keyword_fallback, GitHubReadmeFetcher._search_keyword.
  repeat answer_step. cbv zeta.
  destruct (_ <? _)%nat; unfold at_most; simpl length; lia.
Qed.

Lemma returns_only_weaken {S A} (P Q : A -> Prop) (m : M S A) :
  (forall a, P a -> Q a) -> returns_only P m -> returns_only Q m.
Proof. intros HPQ Hm s a Ha. apply HPQ. by apply (Hm s). Qed.

Lemma at_most_one n l : at_most 1 l -> at_most (Z.max 1 n) l.
Proof. unfold at_most. lia. Qed.

Lemma at_most_max n l : at_most n l -> at_most (Z.max 1 n) l.
Proof. unfold at_most. lia. Qed.

Lemma c7_search_count (w : World) query topic tokens max_results use_cache :
  0 <= max_results ->
  returns_only (at_most (Z.max 1 max_results))
    (Context7Search.search w query topic tokens max_results use_cache).
Proof.
  intros Hn.
  assert (at_most (Z.max 1 max_results) []) as Hnil by (unfold at_most; simpl; lia).
  unfold Context7Search.search.
  destruct (_ || _); [by apply returns_only_ret|].
  apply returns_only_bind; intros content.
  destruct (negb _); [by apply returns_only_ret|]. cbv zeta.
  do 2 (apply returns_only_bind; intros ?).
  destruct (negb _).
  - apply (returns_only_weaken _ _ _ (at_most_one max_results)), c7_keyword_count.
  - apply returns_only_try_except.
    + by apply (returns_only_weaken _ _ _ (at_most_max max_results)), c7_rag_search_count.
    + intros ?.
      apply (returns_only_weaken _ _ _ (at_most_one max_results)), c7_keyword_count.
Qed.

Lemma gh_search_count (w : World) query max_results :
  0 <= max_results ->
  returns_only (at_most (Z.max 1 max_results))
    (GitHubReadmeFetcher.search w query max_results).
Proof.
  intros Hn.
  assert (at_most (Z.max 1 max_results) []) as Hnil by (unfold at_most; simpl; lia).
  unfold GitHubReadmeFetcher.search.
  destruct (_ || _); [by apply returns_only_ret|].
  apply returns_only_bind; intros content.
  destruct (negb _); [by apply returns_only_ret|].
  do 2 (apply returns_only_bind; intros ?).
  destruct (_ || _).
  - apply (returns_only_weaken _ _ _ (at_most_one max_results)), gh_keyword_count.
  - apply returns_only_try_except.
    + by apply (returns_only_weaken _ _ _ (at_most_max max_results)), gh_rag_search_count.
    + intros ?.
      apply (returns_only_weaken _ _ _ (at_most_one max_results)), gh_keyword_count.
Qed.

(** X12. A search returns at most [max_results] results, with one
    exception.  For [0 <= max_results], [KnowledgeBase.search] returns at
    most [max_results] results on every path (empty query, empty index,
    keyword scan, index search).  The searches of [Context7Search] and
    [GitHubReadmeFetcher] return at most [max(1, max_results)] results: their
    keyword fallback returns its single candidate without looking at
    [max_results]. *)
Theorem search_result_count (w : World) (max_results : Z) :
  0 <= max_results ->
  (forall s query results,
     result_of (KnowledgeBase.search w query max_results s) = Returns results ->
     at_most max_results results) /\
  (forall s query topic tokens use_cache results,
     result_of (Context7Search.search w query topic tokens max_results use_cache s)
     = Returns results ->
     at_most (Z.max 1 max_results) results) /\
  (forall s query results,
     result_of (GitHubReadmeFetcher.search w query max_results s) = Returns results ->
     at_most (Z.max 1 max_results) results).
Proof.
  intros Hn. split; [|split].
  - intros s query results. by apply kb_search_count.
  - intros s query topic tokens use_cache results. by apply c7_search_count.
  - intros s query results. by apply gh_search_count.
Qed.

Lemma search_result_count_witness :
  at_most 2 (match result_of (KnowledgeBase.search Demo.online "parole" 2 Demo.kb_ready) with
             | Returns results => results
             | Raises _ => []
             end).
Proof.
  destruct (search_result_count Demo.online 2 ltac:(lia)) as [H _].
  destruct (result_of (KnowledgeBase.search Demo.online "parole" 2 Demo.kb_ready))
    as [results|e] eqn:E.
  - exact (H Demo.kb_ready "parole" results E).
  - vm_compute in E. discriminate E.
Defined.

(** ** Which exceptions escape *)

Section RaisesOnly.
Context {S : Type} (Q : exn -> Prop).

Lemma raises_only_ret {A} (a : A) : raises_only Q (ret a : M S A).
Proof. intros s e H. discriminate H. Qed.

Lemma raises_only_get : raises_only Q (get : M S S).
Proof. intros s e H. discriminate H. Qed.

Lemma raises_only_emit ev : raises_only Q (emit ev : M S unit).
Proof. intros s e H. discriminate H. Qed.

Lemma raises_only_modify (f : S -> S) : raises_only Q (modify f).
Proof. intros s e H. discriminate H. Qed.

Lemma raises_only_call {A} (o : outcome A) :
  (forall e, o = Raises e -> Q e) -> raises_only Q (call o : M S A).
Proof. intros Ho s e H. by apply Ho. Qed.

Lemma raises_only_bind {A B} (m : M S A) (k : A -> M S B) :
  raises_only Q m -> (forall a, raises_only Q (k a)) -> raises_only Q (x ← m; k x).
Proof.
  intros Hm Hk s e. specialize (Hm s e).
  unfold mbind, M_bind, bind, result_of in *.
  destruct (m s) as [[[a|e'] s1] t1]; simpl in *;
    [|intros [= ->]; by apply Hm].
  specialize (Hk a s1 e). unfold result_of in Hk.
  by destruct (k a s1) as [[r s2] t2].
Qed.

Lemma raises_only_try_except {A} (m : M S A) (h : exn -> M S A) :
  (forall e, raises_only Q (h e)) -> raises_only Q (try_except m h).
Proof.
  intros Hh s e. unfold try_except, result_of.
  destruct (m s) as [[[a|e'] s1] t1]; simpl; [discriminate|].
  specialize (Hh e' s1 e). unfold result_of in Hh.
  by destruct (h e' s1) as [[r s2] t2].
Qed.

Lemma raises_only_try_finally {A} (m : M S A) (fin : M S unit) :
  raises_only Q m -> raises_only Q fin -> raises_only Q (try_finally m fin).
Proof.
  intros Hm Hf s e. specialize (Hm s e).
  unfold try_finally, result_of in *.
  destruct (m s) as [[r s1] t1]; simpl in *.
  specialize (Hf s1 e). unfold result_of in Hf.
  destruct (fin s1) as [[[u|e'] s2] t2]; simpl in *; [exact Hm|].
  intros [= ->]. by apply Hf.
Qed.

Lemma raises_only_for_each {A B} (l : list A) (acc : B) (body : B -> A -> M S B) :
  (forall acc x, raises_only Q (body acc x)) -> raises_only Q (for_each l acc body).
Proof.
  intros Hb. revert acc. induction l as [|x t IH]; intros acc; simpl.
  - apply raises_only_ret.
  - apply raises_only_bind; [apply Hb|apply IH].
Qed.

End RaisesOnly.

Ltac raise_step :=
  lazymatch goal with
  | |- raises_only _ (mret _) => apply raises_only_ret
  | |- raises_only _ (ret _) => apply raises_only_ret
  | |- raises_only _ get => apply raises_only_get
  | |- raises_only _ (emit _) => apply raises_only_emit
  | |- raises_only _ (modify _) => apply raises_only_modify
  | |- raises_only _ (call _) => apply raises_only_call; intros ? ?
  | |- raises_only _ (mbind _ _) => apply raises_only_bind; [|intros ?]
  | |- raises_only _ (try_except _ _) => apply raises_only_try_except; intros ?
  | |- raises_only _ (try_finally _ _) => apply raises_only_try_finally
  | |- raises_only _ (for_each _ _ _) => apply raises_only_for_each; intros ? ?
  | |- raises_only _ (match ?x with _ => _ end) => destruct x
  | |- raises_only _ (let _ := _ in _) => cbv zeta
  end.

Ltac build_exception_leaf :=
  first [ left; by eexists _, _
        | right; left; by eexists
        | right; right; by eexists _, _, _, _ ].

Lemma kb_ensure_raises (w : World) :
  raises_only (build_exception w) (KnowledgeBase._ensure_rag_ready w).
Proof.
  unfold KnowledgeBase._ensure_rag_ready, KnowledgeBase._build_rag_index,
    KnowledgeBase.collect_chunks, add_documents.
  repeat raise_step; build_exception_leaf.
Qed.

Lemma kb_initialize_raises (w : World) :
  raises_only (build_exception w) (KnowledgeBase.initialize w).
Proof.
  pose proof (kb_ensure_raises w) as Hens.
  unfold KnowledgeBase.initialize, KnowledgeBase._read_file_async.
  repeat raise_step; exact Hens.
Qed.

Lemma kb_search_raises (w : World) query max_results :
  raises_only (build_exception w) (KnowledgeBase.search w query max_results).
Proof.
  pose proof (kb_ensure_raises w) as Hens.
  pose proof (kb_initialize_raises w) as Hinit.
  unfold KnowledgeBase.search, KnowledgeBase.keyword_fallback.
  repeat raise_step; assumption.
Qed.

Lemma c7_ensure_raises (w : World) content key :
  raises_only (build_exception w) (Context7Search._ensure_rag_ready w content key).
Proof.
  unfold Context7Search._ensure_rag_ready, Context7Search._build_rag_index, add_documents.
  repeat raise_step; build_exception_leaf.
Qed.

Lemma c7_search_raises (w : World) query topic tokens max_results use_cache :
  raises_only (build_exception w)
    (Context7Search.search w query topic tokens max_results use_cache).
Proof.
  pose proof (c7_ensure_raises w) as Hens.
  unfold Context7Search.search, Context7Search.fetch, Context7Search.keyword_fallback.
  repeat raise_step; apply Hens.
Qed.

Lemma gh_ensure_raises (w : World) content :
  raises_only (build_exception w) (GitHubReadmeFetcher._ensure_rag_ready w content).
Proof.
  unfold GitHubReadmeFetcher._ensure_rag_ready, GitHubReadmeFetcher._build_rag_index,
    add_documents.
  repeat raise_step; build_exception_leaf.
Qed.

Lemma gh_search_raises (w : World) query max_results :
  raises_only (build_exception w) (GitHubReadmeFetcher.search w query max_results).
Proof.
  pose proof (gh_ensure_raises w) as Hens.
  unfold GitHubReadmeFetcher.search, GitHubReadmeFetcher.fetch_readme,
    GitHubReadmeFetcher.keyword_fallback.
  repeat raise_step; apply Hens.
Qed.

(** X13. The only exceptions that escape [initialize] and the three [search]
    methods are those of an index build: an exception raised by a failing
    request, a failing file read, the query optimizer, the query encoder or
    the engine's search is caught on the way, while one raised by the chunker,
    by the document encoder or by [add_documents] during a build that [search]
    or [initialize] awaits is passed on to the caller.  Hence with
    collaborators whose build calls return, these methods return. *)
Theorem only_build_exceptions_escape (w : World) :
  (forall e,
     (forall s, result_of (KnowledgeBase.initialize w s) = Raises e ->
                build_exception w e) /\
     (forall s query max_results,
        result_of (KnowledgeBase.search w query max_results s) = Raises e ->
        build_exception w e) /\
     (forall s query topic tokens max_results use_cache,
        result_of (Context7Search.search w query topic tokens max_results use_cache s)
        = Raises e ->
        build_exception w e) /\
     (forall s query max_results,
        result_of (GitHubReadmeFetcher.search w query max_results s) = Raises e ->
        build_exception w e)) /\
  ((forall e, ~ build_exception w e) ->
   never_raises (KnowledgeBase.initialize w) /\
   (forall query max_results, never_raises (KnowledgeBase.search w query max_results)) /\
   (forall query topic tokens max_results use_cache,
      never_raises (Context7Search.search w query topic tokens max_results use_cache)) /\
   (forall query max_results,
      never_raises (GitHubReadmeFetcher.search w query max_results))).
Proof.
  assert (forall S A (m : M S A),
            (forall e, ~ build_exception w e) ->
            raises_only (build_exception w) m -> never_raises m) as Hnever.
  { intros S A m Hno Hm s. specialize (Hm s).
    destruct (result_of (m s)) as [a|e]; [by exists a|].
    destruct (Hno e). by apply Hm. }
  split.
  - intros e. split; [|split; [|split]].
    + intros s. apply kb_initialize_raises.
    + intros s query max_results. apply kb_search_raises.
    + intros s query topic tokens max_results use_cache. apply c7_search_raises.
    + intros s query max_results. apply gh_search_raises.
  - intros Hno. split; [|split; [|split]]; intros; apply Hnever; auto.
    + apply kb_initialize_raises.
    + apply kb_search_raises.
    + apply c7_search_raises.
    + apply gh_search_raises.
Qed.

Lemma only_build_exceptions_escape_witness :
  build_exception Demo.broken_chunker (Exception "tokenizer unavailable") /\
  never_raises (KnowledgeBase.search Demo.offline "parole" 5).
Proof.
  split.
  - destruct (only_build_exceptions_escape Demo.broken_chunker) as [H _].
    destruct (H (Exception "tokenizer unavailable")) as (_ & _ & Hs & _).
    apply (Hs (state_of (Context7Search.fetch Demo.broken_chunker None 10000 true
                           Context7Search.__init__))
              "parole" None 10000 5 true).
    vm_compute. reflexivity.
  - destruct (only_build_exceptions_escape Demo.offline) as [_ H].
    destruct H as (_ & Hs & _); [|apply Hs].
    intros e [(c & m & H)|[(l & H)|(en & c & d & sp & H)]]; discriminate H.
Defined.

(** ** Fixed points of the deduplication *)

Lemma dict_get_absent {V} k (d : list (string * V)) :
  k ∉ map fst d -> dict_get k d = None.
Proof.
  induction d as [|[k' v'] t IH]; simpl; [done|].
  intros H. apply not_elem_of_cons in H as [Hne H].
  destruct (String.eqb_spec k k') as [->|_]; [done|]. by apply IH.
Qed.

Lemma dict_set_absent {V} k (v : V) (d : list (string * V)) :
  k ∉ map fst d -> dict_set k v d = d ++ [(k, v)].
Proof.
  induction d as [|[k' v'] t IH]; simpl; [done|].
  intros H. apply not_elem_of_cons in H as [Hne H].
  destruct (String.eqb_spec k k') as [->|_]; [done|]. f_equal. by apply IH.
Qed.

(** results with pairwise distinct keys are filed one after the other *)
Lemma dedup_fold_distinct (l : list RetrievalResult) d :
  NoDup (map fst d ++ map fp l) ->
  fold_left dedup_step l d = d ++ map (fun r => (fp r, r)) l.
Proof.
  revert d. induction l as [|r t IH]; intros d Hnd; simpl.
  - by rewrite app_nil_r.
  - assert (fp r ∉ map fst d) as Hr.
    { apply NoDup_app in Hnd as (_ & Hd & _). intros Hin.
      apply (Hd _ Hin). constructor. }
    unfold dedup_step at 2. cbv zeta. fold (fp r).
    rewrite (dict_get_absent _ _ Hr), (dict_set_absent _ _ _ Hr).
    rewrite IH.
    + by rewrite <- (assoc_L (++)).
    + rewrite map_app. simpl. rewrite <- (assoc_L (++)). exact Hnd.
Qed.

Lemma sorted_desc_fixed {A} (key : A -> Q) (l : list A) :
  StronglySorted (ge_key key) l -> sorted_desc key l = l.
Proof.
  induction 1 as [|x t Hs IH Hall]; simpl; [done|].
  rewrite IH. destruct t as [|y t']; simpl; [done|].
  apply Forall_cons in Hall as [Hy _].
  by apply Qgtb_false in Hy as ->.
Qed.

Lemma dedup_fixed (l : list RetrievalResult) :
  NoDup (map fp l) -> StronglySorted (ge_key score) l -> _deduplicate_results l = l.
Proof.
  intros Hnd Hs. unfold _deduplicate_results. cbv zeta.
  rewrite dedup_fold_distinct by exact Hnd. simpl.
  unfold dict_values. rewrite map_map. simpl. rewrite map_id.
  by apply sorted_desc_fixed.
Qed.

Lemma dedup_distinct (results : list RetrievalResult) :
  NoDup (map fp (_deduplicate_results results)).
Proof.
  pose proof (dedup_fold_inv results [] [] dedup_inv_nil) as Hinv. simpl in Hinv.
  destruct Hinv as [Hnd Hbest Hkeys].
  unfold _deduplicate_results.
  rewrite (Permutation_map fp (sorted_desc_perm score _)).
  rewrite dict_values_keys; [done|]. intros k r H. by apply Hbest.
Qed.

Lemma dedup_subset (results : list RetrievalResult) r :
  r ∈ _deduplicate_results results -> r ∈ results.
Proof.
  pose proof (dedup_fold_inv results [] [] dedup_inv_nil) as Hinv. simpl in Hinv.
  destruct Hinv as [Hnd Hbest Hkeys].
  intros Hr. apply dedup_out_elem in Hr as [k Hk].
  by destruct (Hbest _ _ Hk) as (_ & ? & _).
Qed.

(** X14. [_deduplicate_results] is idempotent, never returns more results
    than it was given, and leaves a list as it is exactly when the list has
    pairwise distinct deduplication keys and is in descending score order:
    then no entry is replaced and the stable sort moves nothing. *)
Theorem deduplicate_results_fixed_points (results : list RetrievalResult) :
  let out := _deduplicate_results results in
  _deduplicate_results out = out /\
  (length out <= length results)%nat /\
  (_deduplicate_results results = results
   <-> NoDup (map fp results) /\ StronglySorted (ge_key score) results).
Proof.
  intros out. subst out.
  pose proof (dedup_distinct results) as Hnd.
  assert (StronglySorted (ge_key score) (_deduplicate_results results)) as Hs
    by apply sorted_desc_sorted.
  split; [by apply dedup_fixed|]. split.
  - apply submseteq_length, NoDup_submseteq.
    + by apply NoDup_fmap_1 in Hnd.
    + apply dedup_subset.
  - split.
    + intros Heq. by rewrite Heq in Hnd, Hs.
    + intros [H1 H2]. by apply dedup_fixed.
Qed.

(** ** Snippets of short texts *)

(** the window is the whole text when the text has at most four lines *)
Lemma snippet_window_short content query :
  (length (Py.split_lines content) <= 4)%nat -> snippet_window content query = content.
Proof.
  intros Hlen. unfold snippet_window. cbv zeta.
  pose proof (count_nl_str_to (Py.find (Py.lower query) (Py.lower content)) content) as Hc.
  pose proof (split_lines_length content) as Hl.
  set (li := Py.count nl _) in *.
  unfold Py.slice.
  replace (Z.max 0 (Z.of_nat li - 3)) with 0 by lia.
  change (Z.to_nat 0) with 0%nat. rewrite drop_0, Z.sub_0_r.
  rewrite take_ge by lia.
  apply join_split_lines.
Qed.

(** X15. Short texts are their own snippets.  A text of at most four lines
    and fewer than 500 characters is returned whole by [_extract_snippet],
    whatever the query; a text of at most five lines that does not contain the
    query is returned whole however long it is, since only a snippet around a
    match is cut; and a snippet around a match never exceeds 503
    characters. *)
Theorem extract_snippet_short_text (content query : string) :
  ((length (Py.split_lines content) <= 4)%nat -> Py.len content < 500 ->
   _extract_snippet content query = content) /\
  ((length (Py.split_lines content) <= 5)%nat ->
   Py.find (Py.lower query) (Py.lower content) = -1 ->
   _extract_snippet content query = content) /\
  (Py.find (Py.lower query) (Py.lower content) <> -1 ->
   Py.len (_extract_snippet content query) <= 503).
Proof.
  destruct (extract_snippet_cases content query) as (Hnone & Hshort & Hlong).
  split; [|split].
  - intros Hlines Hlen.
    destruct (Z.eq_dec (Py.find (Py.lower query) (Py.lower content)) (-1)) as [E|E].
    + rewrite (Hnone E), take_ge by lia. apply join_split_lines.
    + rewrite (Hshort E); rewrite snippet_window_short; done.
  - intros Hlines E. rewrite (Hnone E), take_ge by lia. apply join_split_lines.
  - intros E.
    destruct (Z.lt_ge_cases (Py.len (snippet_window content query)) 500) as [Hlt|Hge].
    + rewrite (Hshort E Hlt). lia.
    + rewrite (Hlong E Hge), str_len_app.
      pose proof (take_str_length 500 (snippet_window content query)).
      change (Py.len "...") with 3. unfold Py.len. lia.
Qed.

Lemma extract_snippet_short_text_witness :
  _extract_snippet Demo.readme "parole" = Demo.readme /\
  _extract_snippet Demo.readme "bail" = Demo.readme /\
  Py.len (_extract_snippet a500 "a") <= 503.
Proof.
  destruct (extract_snippet_short_text Demo.readme "parole") as (H1 & _ & _).
  destruct (extract_snippet_short_text Demo.readme "bail") as (_ & H2 & _).
  destruct (extract_snippet_short_text a500 "a") as (_ & _ & H3).
  split; [apply H1; [vm_compute; lia|vm_compute; reflexivity]|].
  split; [apply H2; [vm_compute; lia|vm_compute; reflexivity]|].
  apply H3. vm_compute. discriminate.
Defined.

(** ** How many operations a call performs *)

Lemma count_events_app p t1 t2 :
  count_events p (t1 ++ t2) = (count_events p t1 + count_events p t2)%nat.
Proof. unfold count_events. by rewrite List.filter_app, length_app. Qed.

Section EmitsAtMost.
Context {S : Type} (p : event -> bool).

Lemma at_most_ret {A} (a : A) : emits_at_most p 0 (ret a : M S A).
Proof. intros s. apply Nat.le_refl. Qed.

Lemma at_most_get : emits_at_most p 0 (get : M S S).
Proof. intros s. apply Nat.le_refl. Qed.

Lemma at_most_modify (f : S -> S) : emits_at_most p 0 (modify f).
Proof. intros s. apply Nat.le_refl. Qed.

Lemma at_most_call {A} (o : outcome A) : emits_at_most p 0 (call o : M S A).
Proof. intros s. apply Nat.le_refl. Qed.

Lemma at_most_emit e b : p e = b -> emits_at_most p (Nat.b2n b) (emit e : M S unit).
Proof.
  intros <- s. unfold emit, trace_of, count_events. simpl.
  destruct (p e); apply Nat.le_refl.
Qed.

Lemma at_most_bind {A B} a b (m : M S A) (k : A -> M S B) :
  emits_at_most p a m -> (forall x, emits_at_most p b (k x)) ->
  emits_at_most p (a + b) (x ← m; k x).
Proof.
  intros Hm Hk s. specialize (Hm s).
  unfold mbind, M_bind, bind, trace_of in *.
  destruct (m s) as [[[x|e] s1] t1]; simpl in *; [|lia].
  specialize (Hk x s1). unfold trace_of in Hk.
  destruct (k x s1) as [[r s2] t2]. simpl in *.
  rewrite count_events_app. lia.
Qed.

Lemma at_most_try_except {A} a b (m : M S A) (h : exn -> M S A) :
  emits_at_most p a m -> (forall e, emits_at_most p b (h e)) ->
  emits_at_most p (a + b) (try_except m h).
Proof.
  intros Hm Hh s. specialize (Hm s).
  unfold try_except, trace_of in *.
  destruct (m s) as [[[x|e] s1] t1]; simpl in *; [lia|].
  specialize (Hh e s1). unfold trace_of in Hh.
  destruct (h e s1) as [[r s2] t2]. simpl in *.
  rewrite count_events_app. lia.
Qed.

Lemma at_most_try_finally {A} a b (m : M S A) (fin : M S unit) :
  emits_at_most p a m -> emits_at_most p b fin ->
  emits_at_most p (a + b) (try_finally m fin).
Proof.
  intros Hm Hf s. specialize (Hm s).
  unfold try_finally, trace_of in *.
  destruct (m s) as [[r s1] t1]; simpl in *.
  specialize (Hf s1). unfold trace_of in Hf.
  destruct (fin s1) as [[[u|e] s2] t2]; simpl in *;
    rewrite count_events_app; lia.
Qed.

Lemma at_most_for_each {A B} b (l : list A) (acc : B) (body : B -> A -> M S B) :
  (forall acc x, emits_at_most p b (body acc x)) ->
  emits_at_most p (length l * b) (for_each l acc body).
Proof.
  intros Hb. revert acc. induction l as [|x t IH]; intros acc; simpl.
  - apply at_most_ret.
  - rewrite Nat.add_comm, (Nat.add_comm _ b).
    apply at_most_bind; [apply Hb|intros ?; apply IH].
Qed.

Lemma at_most_weaken {A} a b (m : M S A) :
  emits_at_most p a m -> (a <= b)%nat -> emits_at_most p b m.
Proof. intros Hm Hab s. specialize (Hm s). lia. Qed.

Lemma at_most_either {A} a b (m : M S A) :
  emits_at_most p (Nat.max a b) m -> emits_at_most p (Nat.max a b) m.
Proof. done. Qed.

Lemma at_most_left {A} a b (m : M S A) :
  emits_at_most p a m -> emits_at_most p (Nat.max a b) m.
Proof. intros Hm. apply (at_most_weaken a); [exact Hm|lia]. Qed.

Lemma at_most_right {A} a b (m : M S A) :
  emits_at_most p b m -> emits_at_most p (Nat.max a b) m.
Proof. intros Hm. apply (at_most_weaken b); [exact Hm|lia]. Qed.

End EmitsAtMost.

Lemma at_most_zoom {S T A} p n (proj : S -> T) (upd : T -> S -> S) (m : M T A) :
  emits_at_most p n m -> emits_at_most p n (zoom proj upd m).
Proof.
  intros Hm s. specialize (Hm (proj s)). unfold zoom, trace_of in *.
  by destruct (m (proj s)) as [[r t'] tr].
Qed.

Ltac count_basic :=
  lazymatch goal with
  | |- emits_at_most _ _ (mret _) => apply at_most_ret
  | |- emits_at_most _ _ (ret _) => apply at_most_ret
  | |- emits_at_most _ _ get => apply at_most_get
  | |- emits_at_most _ _ (modify _) => apply at_most_modify
  | |- emits_at_most _ _ (call _) => apply at_most_call
  | |- emits_at_most _ _ (emit _) => eapply at_most_emit; cbn; reflexivity
  | |- emits_at_most _ _ (mbind _ _) => eapply at_most_bind; [|intros ?]
  | |- emits_at_most _ _ (try_except _ _) => eapply at_most_try_except; [|intros ?]
  | |- emits_at_most _ _ (try_finally _ _) => eapply at_most_try_finally
  | |- emits_at_most _ _ (for_each _ _ _) => eapply at_most_for_each; intros ? ?
  | |- emits_at_most _ _ (zoom _ _ _) => eapply at_most_zoom
  | |- emits_at_most _ _ (match ?x with _ => _ end) =>
      eapply at_most_either; destruct x; [eapply at_most_left|eapply at_most_right]
  | |- emits_at_most _ _ (let _ := _ in _) => cbv zeta
  end.

(** the loop over the documents performs none of the operations *)
Lemma collect_chunks_quiet p (w : World) docs :
  emits_at_most p 0 (KnowledgeBase.collect_chunks w docs).
Proof.
  unfold KnowledgeBase.collect_chunks.
  eapply at_most_weaken; [repeat count_basic|simpl; lia].
Qed.

(** the loop over the variations performs index searches only, at most one
    for each variation *)
Lemma search_variations_quiet {S} p (w : World) engine variations search_k max_results :
  (forall v, p (RagSearch v) = false) ->
  emits_at_most p 0 (search_variations (S:=S) w engine variations search_k max_results).
Proof.
  intros Hp. unfold search_variations.
  eapply at_most_weaken.
  - apply (at_most_for_each p 0). intros acc v.
    eapply at_most_weaken.
    + apply (at_most_bind p 0 0); [apply at_most_call|]. intros encoded. cbv zeta.
      apply (at_most_bind p 0 0);
        [exact (at_most_emit p (RagSearch v) false (Hp v))|].
      intros _. apply (at_most_bind p 0 0); [apply at_most_call|].
      intros results. apply at_most_ret.
    + lia.
  - lia.
Qed.

Lemma search_variations_searches {S} (w : World) engine variations search_k max_results :
  emits_at_most is_index_search (length variations)
    (search_variations (S:=S) w engine variations search_k max_results).
Proof.
  unfold search_variations.
  eapply at_most_weaken.
  - apply (at_most_for_each is_index_search 1). intros acc v.
    eapply at_most_weaken; [repeat count_basic|simpl; lia].
  - lia.
Qed.

(** when the encoder and the engine answer, the loop searches the index
    exactly once for each variation, in order *)
Lemma search_variations_trace {S} (w : World) engine variations search_k max_results
  (s : S) :
  Forall (variation_answers w engine search_k max_results) variations ->
  trace_of (search_variations w engine variations search_k max_results s)
  = map RagSearch variations.
Proof.
  unfold search_variations. generalize (@nil RetrievalResult) as acc.
  induction variations as [|v vs IH]; intros acc Hall; [done|].
  apply Forall_cons in Hall as [(encoded & results & Henc & Hres) Hall].
  simpl for_each.
  specialize (IH (acc ++ results) Hall).
  unfold_monad. rewrite Henc. simpl. rewrite Hres. simpl.
  destruct (for_each vs (acc ++ results) _ s) as [[r s1] t1]. simpl in *.
  by rewrite IH.
Qed.

Section RagSearchOperations.
Context (w : World) (query : string) (max_results : Z).

Lemma kb_rag_search_quiet p :
  (forall v, p (RagSearch v) = false) ->
  emits_at_most p 0 (KnowledgeBase._rag_search w query max_results).
Proof.
  intros Hp. unfold KnowledgeBase._rag_search.
  eapply at_most_weaken.
  - apply (at_most_bind p 0 0); [apply at_most_get|]. intros s.
    destruct (KnowledgeBase._search_engine s); [|apply at_most_ret].
    apply (at_most_bind p 0 0); [apply at_most_call|]. intros variations. cbv zeta.
    apply (at_most_bind p 0 0); [by apply search_variations_quiet|].
    intros aggregated. apply at_most_ret.
  - lia.
Qed.

Lemma kb_rag_search_searches :
  emits_at_most is_index_search (variations_of w query)
    (KnowledgeBase._rag_search w query max_results).
Proof.
  intros s. unfold KnowledgeBase._rag_search, variations_of.
  rewrite bind_get.
  destruct (KnowledgeBase._search_engine s) as [engine|]; [|apply Nat.le_0_l].
  unfold mbind, M_bind, bind at 1, call.
  destruct (enhance_query w query) as [variations|e]; [|apply Nat.le_0_l].
  cbv zeta.
  pose proof (search_variations_searches w engine variations (Z.max 25 max_results)
                max_results s) as H.
  unfold bind, trace_of in *.
  destruct (search_variations w engine variations _ max_results s) as [[[r|e] s1] t1];
    simpl in *; rewrite ?app_nil_r; exact H.
Qed.

Lemma c7_rag_search_quiet p key :
  (forall v, p (RagSearch v) = false) ->
  emits_at_most p 0 (Context7Search._rag_search w query key max_results).
Proof.
  intros Hp. unfold Context7Search._rag_search.
  eapply at_most_weaken.
  - apply (at_most_bind p 0 0); [apply at_most_get|]. intros s.
    destruct (Context7Search._rag_indices s !! key); [|apply at_most_ret].
    cbv zeta.
    apply (at_most_bind p 0 0); [apply at_most_call|]. intros variations.
    apply (at_most_bind p 0 0); [by apply search_variations_quiet|].
    intros aggregated. apply at_most_ret.
  - lia.
Qed.

Lemma c7_rag_search_searches key :
  emits_at_most is_index_search (variations_of w query)
    (Context7Search._rag_search w query key max_results).
Proof.
  intros s. unfold Context7Search._rag_search, variations_of.
  rewrite bind_get.
  destruct (Context7Search._rag_indices s !! key) as [idx|]; [|apply Nat.le_0_l].
  cbv zeta. unfold mbind, M_bind, bind at 1, call.
  destruct (enhance_query w query) as [variations|e]; [|apply Nat.le_0_l].
  pose proof (search_variations_searches w (Context7Search.engine idx) variations
                (Z.max 25 max_results) max_results s) as H.
  unfold bind, trace_of in *.
  destruct (search_variations w (Context7Search.engine idx) variations _ max_results s)
    as [[[r|e] s1] t1]; simpl in *; rewrite ?app_nil_r; exact H.
Qed.

Lemma gh_rag_search_quiet p :
  (forall v, p (RagSearch v) = false) ->
  emits_at_most p 0 (GitHubReadmeFetcher._rag_search w query max_results).
Proof.
  intros Hp. unfold GitHubReadmeFetcher._rag_search.
  eapply at_most_weaken.
  - apply (at_most_bind p 0 0); [apply at_most_get|]. intros s.
    destruct (GitHubReadmeFetcher._search_engine s); [|apply at_most_ret].
    apply (at_most_bind p 0 0); [apply at_most_call|]. intros variations. cbv zeta.
    apply (at_most_bind p 0 0); [by apply search_variations_quiet|].
    intros aggregated. apply at_most_ret.
  - lia.
Qed.

Lemma gh_rag_search_searches :
  emits_at_most is_index_search (variations_of w query)
    (GitHubReadmeFetcher._rag_search w query max_results).
Proof.
  intros s. unfold GitHubReadmeFetcher._rag_search, variations_of.
  rewrite bind_get.
  destruct (GitHubReadmeFetcher._search_engine s) as [engine|]; [|apply Nat.le_0_l].
  unfold mbind, M_bind, bind at 1, call.
  destruct (enhance_query w query) as [variations|e]; [|apply Nat.le_0_l].
  cbv zeta.
  pose proof (search_variations_searches w engine variations (Z.max 25 max_results)
                max_results s) as H.
  unfold bind, trace_of in *.
  destruct (search_variations w engine variations _ max_results s) as [[[r|e] s1] t1];
    simpl in *; rewrite ?app_nil_r; exact H.
Qed.

End RagSearchOperations.

Ltac count_step :=
  lazymatch goal with
  | |- emits_at_most _ _ (KnowledgeBase.collect_chunks _ _) => apply collect_chunks_quiet
  | |- emits_at_most _ _ (KnowledgeBase._rag_search _ _ _) =>
      first [ apply kb_rag_search_quiet; intros ?; reflexivity
            | apply kb_rag_search_searches ]
  | |- emits_at_most _ _ (Context7Search._rag_search _ _ _ _) =>
      first [ apply c7_rag_search_quiet; intros ?; reflexivity
            | apply c7_rag_search_searches ]
  | |- emits_at_most _ _ (GitHubReadmeFetcher._rag_search _ _ _) =>
      first [ apply gh_rag_search_quiet; intros ?; reflexivity
            | apply gh_rag_search_searches ]
  | |- _ => count_basic
  end.

Ltac unfold_methods :=
  unfold Bot.search_knowledge_handler, Bot.search_context7_handler,
    Bot.search_github_readme_handler,
    KnowledgeBase.search, KnowledgeBase.initialize, KnowledgeBase._read_file_async,
    KnowledgeBase.keyword_fallback,
    KnowledgeBase._ensure_rag_ready, KnowledgeBase._build_rag_index,
    Context7Search.search, Context7Search.fetch, Context7Search._get_http_client,
    Context7Search.keyword_fallback,
    Context7Search._ensure_rag_ready, Context7Search._build_rag_index,
    GitHubReadmeFetcher.search, GitHubReadmeFetcher.fetch_readme,
    GitHubReadmeFetcher._get_http_client,
    GitHubReadmeFetcher.keyword_fallback,
    GitHubReadmeFetcher._ensure_rag_ready, GitHubReadmeFetcher._build_rag_index,
    add_documents.

Ltac count_operations :=
  unfold_methods;
  eapply at_most_weaken; [repeat count_step|simpl; lia].

Lemma c7_search_operations (w : World) query topic tokens max_results use_cache :
  let m := Context7Search.search w query topic tokens max_results use_cache in
  emits_at_most is_request 1 m /\ emits_at_most is_build 2 m /\
  emits_at_most is_index_search (variations_of w query) m /\
  emits_at_most is_keyword_scan 1 m /\
  emits_at_most is_read 0 m.
Proof.
  intros m. subst m. repeat split; count_operations.
Qed.

Lemma gh_search_operations (w : World) query max_results :
  let m := GitHubReadmeFetcher.search w query max_results in
  emits_at_most is_request 1 m /\ emits_at_most is_build 2 m /\
  emits_at_most is_index_search (variations_of w query) m /\
  emits_at_most is_keyword_scan 1 m /\
  emits_at_most is_read 0 m.
Proof.
  intros m. subst m. repeat split; count_operations.
Qed.

Lemma kb_search_operations (w : World) query max_results :
  let m := KnowledgeBase.search w query max_results in
  emits_at_most is_request 0 m /\ emits_at_most is_build 2 m /\
  emits_at_most is_index_search (variations_of w query) m /\
  emits_at_most is_keyword_scan 1 m /\
  emits_at_most is_read (length (glob_md w)) m.
Proof.
  intros m. subst m. repeat split; count_operations.
Qed.

Lemma fetch_operations (w : World) :
  (forall topic tokens use_cache,
     let m := Context7Search.fetch w topic tokens use_cache in
     emits_at_most is_request 1 m /\ emits_at_most is_build 1 m /\
     emits_at_most is_index_search 0 m /\ emits_at_most is_keyword_scan 0 m) /\
  (forall use_cache,
     let m := GitHubReadmeFetcher.fetch_readme w use_cache in
     emits_at_most is_request 1 m /\ emits_at_most is_build 1 m /\
     emits_at_most is_index_search 0 m /\ emits_at_most is_keyword_scan 0 m) /\
  (let m := KnowledgeBase.initialize w in
   emits_at_most is_request 0 m /\ emits_at_most is_build 1 m /\
   emits_at_most is_index_search 0 m /\ emits_at_most is_keyword_scan 0 m /\
   emits_at_most is_read (length (glob_md w)) m).
Proof.
  split; [|split]; intros; subst m; repeat split; count_operations.
Qed.

Lemma handler_requests (w : World) :
  (forall query, emits_at_most is_request 1 (Bot.search_knowledge_handler w query)) /\
  (forall query topic tokens,
     emits_at_most is_request 1 (Bot.search_context7_handler w query topic tokens)) /\
  (forall query use_cache,
     emits_at_most is_request 1 (Bot.search_github_readme_handler w query use_cache)).
Proof.
  split; [|split]; intros; count_operations.
Qed.

(** a first search of the Context7 adapter runs the build twice: once in the
    fetch that retrieves the text, once more in [search] itself *)
Example first_search_builds_twice :
  count_events is_build
    (trace_of (Context7Search.search Demo.online "parole" (Some "jail") 10000 5 true
                 Context7Search.__init__)) = 2%nat.
Proof. vm_compute. reflexivity. Qed.

(** X16. The operations of one call are bounded.  A [search] of
    [Context7Search] or of [GitHubReadmeFetcher] sends at most one request,
    hands at most two index builds to the executor (one in the fetch, one in
    the search itself), scans the text by keyword at most once and reads no
    file; it searches the index at most once for each variation of the query
    that the optimizer returns, so not at all when the optimizer raises.  A
    [search] of [KnowledgeBase] sends no request, runs at most two builds and
    one keyword scan, searches the index at most once for each variation, and
    reads at most one file per name the directory lists.  When the encoder
    and the engine answer for every variation, the loop of [_rag_search]
    searches the index exactly once for each variation, in their order.
    [fetch] and [fetch_readme] send at most one request and run at most one
    build; [initialize] reads each listed file at most once and runs at most
    one build.  Every tool handler sends at most one request. *)
Theorem operations_per_call (w : World) :
  (forall query topic tokens max_results use_cache,
     let m := Context7Search.search w query topic tokens max_results use_cache in
     emits_at_most is_request 1 m /\ emits_at_most is_build 2 m /\
     emits_at_most is_index_search (variations_of w query) m /\
     emits_at_most is_keyword_scan 1 m /\
     emits_at_most is_read 0 m) /\
  (forall query max_results,
     let m := GitHubReadmeFetcher.search w query max_results in
     emits_at_most is_request 1 m /\ emits_at_most is_build 2 m /\
     emits_at_most is_index_search (variations_of w query) m /\
     emits_at_most is_keyword_scan 1 m /\
     emits_at_most is_read 0 m) /\
  (forall query max_results,
     let m := KnowledgeBase.search w query max_results in
     emits_at_most is_request 0 m /\ emits_at_most is_build 2 m /\
     emits_at_most is_index_search (variations_of w query) m /\
     emits_at_most is_keyword_scan 1 m /\
     emits_at_most is_read (length (glob_md w)) m) /\
  (forall (s : KnowledgeBase.t) engine variations search_k max_results,
     Forall (variation_answers w engine search_k max_results) variations ->
     trace_of (search_variations w engine variations search_k max_results s)
     = map RagSearch variations) /\
  (forall topic tokens use_cache,
     let m := Context7Search.fetch w topic tokens use_cache in
     emits_at_most is_request 1 m /\ emits_at_most is_build 1 m) /\
  (forall use_cache,
     let m := GitHubReadmeFetcher.fetch_readme w use_cache in
     emits_at_most is_request 1 m /\ emits_at_most is_build 1 m) /\
  (let m := KnowledgeBase.initialize w in
   emits_at_most is_read (length (glob_md w)) m /\ emits_at_most is_build 1 m) /\
  (forall query, emits_at_most is_request 1 (Bot.search_knowledge_handler w query)) /\
  (forall query topic tokens,
     emits_at_most is_request 1 (Bot.search_context7_handler w query topic tokens)) /\
  (forall query use_cache,
     emits_at_most is_request 1 (Bot.search_github_readme_handler w query use_cache)).
Proof.
  destruct (fetch_operations w) as (Hc7 & Hgh & Hkb).
  destruct (handler_requests w) as (H1 & H2 & H3).
  split; [intros; apply c7_search_operations|].
  split; [intros; apply gh_search_operations|].
  split; [intros; apply kb_search_operations|].
  split; [intros; by apply search_variations_trace|].
  split; [intros; split; apply (Hc7 topic tokens use_cache)|].
  split; [intros; split; apply (Hgh use_cache)|].
  split; [split; apply Hkb|].
  split; [exact H1|]. split; [exact H2|exact H3].
Qed.

(** three variations of a query: three searches of the index *)
Lemma operations_per_call_witness :
  let three := {| client_session := client_session Demo.online;
                  http_get := http_get Demo.online;
                  path_exists := path_exists Demo.online;
                  glob_md := glob_md Demo.online;
                  read_text := read_text Demo.online;
                  chunk_document := chunk_document Demo.online;
                  encode_documents := encode_documents Demo.online;
                  encode_queries := encode_queries Demo.online;
                  add_documents_check := add_documents_check Demo.online;
                  engine_search := engine_search Demo.online;
                  enhance_query := fun q => Returns [q; q +:+ " rules"; q +:+ " guide"] |} in
  variations_of three "parole" = 3%nat /\
  trace_of (search_variations three (HybridSearchEngine 2)
              ["parole"; "parole rules"; "parole guide"] 25 5 Demo.kb_ready)
  = [RagSearch "parole"; RagSearch "parole rules"; RagSearch "parole guide"] /\
  trace_of (KnowledgeBase.search three "parole" 5 Demo.kb_ready)
  = [RagSearch "parole"; RagSearch "parole rules"; RagSearch "parole guide"].
Proof.
  intros three. split; [reflexivity|]. split; [|vm_compute; reflexivity].
  destruct (operations_per_call three) as (_ & _ & _ & H & _).
  apply (H Demo.kb_ready).
  repeat constructor; eexists _, _; split; reflexivity.
Defined.

(** ** Ties keep their order *)

Lemma insert_desc_ties {A} (key : A -> Q) x l k :
  ties key k (insert_desc key x l) = ties key k (x :: l).
Proof.
  induction l as [|y t IH]; [done|]. simpl insert_desc.
  destruct (Qgtb (key y) (key x)) eqn:E; [|done].
  apply Qgtb_true in E.
  unfold ties in *. simpl in *. rewrite IH.
  destruct (Qeq_bool (key y) k) eqn:Ey; [|done].
  destruct (Qeq_bool (key x) k) eqn:Ex; [|done].
  apply Qeq_bool_iff in Ey, Ex. rewrite Ex, Ey in E.
  by apply Qlt_irrefl in E.
Qed.

Lemma sorted_desc_ties {A} (key : A -> Q) l k :
  ties key k (sorted_desc key l) = ties key k l.
Proof.
  induction l as [|x t IH]; [done|]. simpl sorted_desc.
  rewrite insert_desc_ties. unfold ties in *. simpl. by rewrite IH.
Qed.

(** X17. Ranking is stable.  Among the results of equal score, the keyword
    search of [KnowledgeBase] keeps the order of the index (when
    [max_results] cuts nothing), and [_deduplicate_results] keeps the order
    of candidates that have pairwise distinct keys: the sort with
    [reverse=True] orders by score only and leaves ties as they were. *)
Theorem ranking_keeps_ties (k : Q) :
  (forall index query max_results,
     Z.of_nat (length index) <= max_results ->
     ties sr_score k (KnowledgeBase._search_keyword index query max_results)
     = ties sr_score k (keyword_hits index query)) /\
  (forall results,
     NoDup (map fp results) ->
     ties score k (_deduplicate_results results) = ties score k results).
Proof.
  split.
  - intros index query max_results Hn.
    rewrite search_keyword_spec. unfold KeywordSpec.spec_results. cbv zeta.
    rewrite slice_to_all.
    + apply sorted_desc_ties.
    + rewrite (Permutation_length (sorted_desc_perm sr_score _)), length_map.
      pose proof (List.filter_length_le
                    (fun doc => (0 <? KeywordSpec.spec_score doc query)%nat) index).
      lia.
  - intros results Hnd. unfold _deduplicate_results. cbv zeta.
    rewrite sorted_desc_ties, dedup_fold_distinct by exact Hnd. simpl.
    unfold dict_values. by rewrite map_map, map_id.
Qed.

Lemma ranking_keeps_ties_witness :
  let faq := {| KnowledgeBase.path := "faq.md";
                KnowledgeBase.content := "Parole is supervision after release.";
                KnowledgeBase.type := "markdown" |} in
  let rules := {| KnowledgeBase.path := "rules.md";
                  KnowledgeBase.content := "Ask the warden about parole.";
                  KnowledgeBase.type := "markdown" |} in
  map sr_path (ties sr_score (inject_Z 11)
                 (KnowledgeBase._search_keyword [faq; rules] "parole" 5))
  = ["faq.md"; "rules.md"] /\
  ties score 1%Q (_deduplicate_results
                    [mk_result "a" None 1%Q; mk_result "b" None 2%Q; mk_result "c" None 1%Q])
  = [mk_result "a" None 1%Q; mk_result "c" None 1%Q].
Proof.
  intros faq rules. split.
  - destruct (ranking_keeps_ties (inject_Z 11)) as [H _].
    rewrite (H [faq; rules] "parole" 5) by (simpl; lia).
    vm_compute. reflexivity.
  - destruct (ranking_keeps_ties 1%Q) as [_ H].
    rewrite H; [reflexivity|].
    apply (bool_decide_unpack _). vm_compute. reflexivity.
Defined.

(** ** Cache keys of the Context7 adapter *)

Lemma string_of_uint_colon_free d : colon_free (NilEmpty.string_of_uint d) = true.
Proof. induction d; simpl; done. Qed.

Lemma str_of_int_colon_free n : colon_free (Py.str_of_int n) = true.
Proof.
  unfold Py.str_of_int, NilZero.string_of_int, NilZero.string_of_uint.
  destruct (Z.to_int n) as [d|d]; destruct d; simpl;
    try done; apply string_of_uint_colon_free.
Qed.

Lemma str_of_int_inj n m : Py.str_of_int n = Py.str_of_int m -> n = m.
Proof.
  unfold Py.str_of_int. intros H.
  apply DecimalZ.to_int_inj.
  assert (forall z, Z.to_int z <> Decimal.Pos Decimal.Nil /\
                    Z.to_int z <> Decimal.Neg Decimal.Nil) as Hnn.
  { intros [|p|p]; simpl; split; try discriminate;
      intros [= Hp]; by apply DecimalPos.Unsigned.to_uint_nonnil in Hp. }
  apply (f_equal NilZero.int_of_string) in H.
  rewrite !NilZero.isi in H by apply Hnn.
  by injection H.
Qed.

Lemma colon_free_app a b : colon_free (a +:+ String ":" b) = false.
Proof.
  induction a as [|c a IH]; [done|].
  rewrite app_String. simpl. rewrite IH. apply andb_false_r.
Qed.

(** a text is cut in one way only at its last colon *)
Lemma split_at_last_colon a b c d :
  colon_free b = true -> colon_free d = true ->
  a +:+ String ":" b = c +:+ String ":" d -> a = c /\ b = d.
Proof.
  intros Hb Hd. revert c. induction a as [|x a IH]; intros [|y c] H;
    rewrite ?app_String, ?app_Empty in H.
  - by injection H.
  - injection H as <- ->. by rewrite colon_free_app in Hb.
  - injection H as -> <-. by rewrite colon_free_app in Hd.
  - injection H as -> H. by destruct (IH c H) as [-> ->].
Qed.

(** X18. Two requests share a cache entry of [Context7Search] exactly when
    they have the same token budget and the same topic after the default is
    filled in: the key is cut in one way only, since the decimal budget holds
    no colon.  So a text cached for one topic or budget is never served for
    another; but a request without a topic, one with an empty topic and one
    with the topic "default" share their entry, although only the last sends
    a topic to the endpoint. *)
Theorem cache_key_collisions (topic1 topic2 : option string) (tokens1 tokens2 : Z) :
  (Context7Search.cache_key topic1 tokens1 = Context7Search.cache_key topic2 tokens2
   <-> Context7Search.topic_or_default topic1 = Context7Search.topic_or_default topic2
       /\ tokens1 = tokens2) /\
  (forall s text use_cache,
     Context7Search.topic_or_default topic1 <> Context7Search.topic_or_default topic2
     \/ tokens1 <> tokens2 ->
     c7_cached
       (Context7Search.set_cache
          (<[Context7Search.cache_key topic1 tokens1 := text]> (Context7Search._cache s)) s)
       topic2 tokens2 use_cache
     = c7_cached s topic2 tokens2 use_cache) /\
  Context7Search.cache_key None tokens1 = Context7Search.cache_key (Some "default") tokens1 /\
  Context7Search.cache_key (Some "") tokens1 = Context7Search.cache_key None tokens1 /\
  Context7Search.request_params None tokens1
  <> Context7Search.request_params (Some "default") tokens1.
Proof.
  assert (Context7Search.cache_key topic1 tokens1 = Context7Search.cache_key topic2 tokens2
          <-> Context7Search.topic_or_default topic1 = Context7Search.topic_or_default topic2
              /\ tokens1 = tokens2) as Hiff.
  { split.
    - unfold Context7Search.cache_key. intros H.
      apply (f_equal (fun s => substring 9 (String.length s - 9) s)) in H.
      assert (forall t, substring 9 (String.length ("context7:" +:+ t) - 9)
                          ("context7:" +:+ t) = t) as Hsub.
      { intros t. change ("context7:" +:+ t) with
          (String "c" (String "o" (String "n" (String "t" (String "e" (String "x"
             (String "t" (String "7" (String ":" t))))))))).
        simpl String.length. simpl substring.
        rewrite Nat.sub_0_r. clear. induction t as [|c t IH]; simpl; [done|].
        by rewrite IH. }
      rewrite !Hsub in H.
      destruct (split_at_last_colon _ _ _ _ (str_of_int_colon_free tokens1)
                  (str_of_int_colon_free tokens2) H) as [H1 H2].
      split; [exact H1|by apply str_of_int_inj].
    - unfold Context7Search.cache_key. by intros [-> ->]. }
  split; [exact Hiff|]. split; [|split; [|split]].
  - intros s text use_cache Hne. unfold c7_cached. simpl.
    destruct (use_cache && _); [|done].
    apply lookup_insert_ne. intros Heq. apply Hiff in Heq as [H1 H2].
    by destruct Hne.
  - reflexivity.
  - reflexivity.
  - unfold Context7Search.request_params. simpl. discriminate.
Qed.

Lemma cache_key_collisions_witness :
  Context7Search.cache_key (Some "jail") 100 <> Context7Search.cache_key (Some "jail") 200 /\
  forall text,
    c7_cached
      (Context7Search.set_cache
         (<[Context7Search.cache_key (Some "jail") 100 := text]>
            (Context7Search._cache Context7Search.__init__)) Context7Search.__init__)
      (Some "jail") 200 true
    = None.
Proof.
  destruct (cache_key_collisions (Some "jail") (Some "jail") 100 200) as (Hiff & Hmiss & _).
  split.
  - intros Heq. apply Hiff in Heq as [_ Heq]. lia.
  - intros text. rewrite Hmiss; [reflexivity|]. right. lia.
Defined.
